(** * Portfolio backend: request pipeline over a relational store

    A shallow embedding of the Express server (authentication middleware,
    ownership checks, zod validation, parameterised statements, upload
    filter) together with the tables of the SQL schema it talks to, and the
    properties of the specification stated over that embedding. *)

From Stdlib Require Import String Ascii List ZArith Bool Lia.
From Stdlib Require Import DecimalString.
From Stdlib Require Import Permutation Sorted.
Import ListNotations.
Open Scope string_scope.
Open Scope Z_scope.

Set Implicit Arguments.

(* ================================================================== *)
(** ** JavaScript values and strings *)
(* ================================================================== *)

(** JSON values as they arrive in [req.body] and as the driver hands json
    columns back.  Numbers are integers; numbers with a fraction are outside
    the model. An object is an association list read by first match. *)
#[warnings="-register-all"]
Inductive json : Type :=
| JNull
| JBool (b : bool)
| JNum (n : Z)
| JStr (s : string)
| JArr (xs : list json)
| JObj (kvs : list (string * json)).

(** A field of a validated payload: [undefined], [null] or a value. *)
Inductive maybe (A : Type) : Type :=
| Missing
| IsNull
| Has (a : A).
Arguments Missing {A}.
Arguments IsNull {A}.
Arguments Has {A} a.

(** What node-postgres sends for a parameter: [undefined] and [null] both
    become SQL NULL. *)
Definition to_sql {A} (m : maybe A) : option A :=
  match m with Has a => Some a | _ => None end.

Module Str.

Definition chars (s : string) : list ascii := list_ascii_of_string s.
Definition of_chars (l : list ascii) : string := string_of_list_ascii l.

Definition lower_char (c : ascii) : ascii :=
  let n := nat_of_ascii c in
  if andb (Nat.leb 65 n) (Nat.leb n 90) then ascii_of_nat (n + 32) else c.

(** [String.prototype.toLowerCase] on the ASCII letters. *)
Definition toLowerCase (s : string) : string :=
  of_chars (map lower_char (chars s)).

Definition is_space (c : ascii) : bool :=
  let n := nat_of_ascii c in
  orb (Nat.eqb n 32) (andb (Nat.leb 9 n) (Nat.leb n 13)).

Fixpoint drop_spaces (l : list ascii) : list ascii :=
  match l with
  | c :: r => if is_space c then drop_spaces r else l
  | [] => []
  end.

(** [String.prototype.trim] on the ASCII white space. *)
Definition trim (s : string) : string :=
  of_chars (rev (drop_spaces (rev (drop_spaces (chars s))))).

Fixpoint starts_with (p l : list ascii) : bool :=
  match p, l with
  | [], _ => true
  | a :: p', b :: l' => andb (Ascii.eqb a b) (starts_with p' l')
  | _ :: _, [] => false
  end.

Fixpoint contains_chars (p l : list ascii) : bool :=
  orb (starts_with p l)
      (match l with [] => false | _ :: r => contains_chars p r end).

(** [s] has [p] as a substring. *)
Definition contains (p s : string) : bool := contains_chars (chars p) (chars s).

(** [s.split(' ')] as a list of pieces. *)
Fixpoint split_space_chars (cur : list ascii) (l : list ascii) : list string :=
  match l with
  | [] => [of_chars (rev cur)]
  | c :: r =>
      if Ascii.eqb c " " then of_chars (rev cur) :: split_space_chars [] r
      else split_space_chars (c :: cur) r
  end.

Definition split_space (s : string) : list string := split_space_chars [] (chars s).

Definition of_Z (n : Z) : string := NilZero.string_of_int (Z.to_int n).

(** [s] between double quotes (character 34). *)
Definition quoted (s : string) : string :=
  String "034"%char (s ++ String "034"%char EmptyString).

End Str.

(** JavaScript truthiness of a decoded value. *)
Definition truthy (v : json) : bool :=
  match v with
  | JNull => false
  | JBool b => b
  | JNum n => negb (n =? 0)
  | JStr s => negb (String.eqb s "")
  | JArr _ | JObj _ => true
  end.

(** [String(v)], the coercion [JSON.parse] applies to a non-string argument. *)
Fixpoint js_to_string (v : json) : string :=
  match v with
  | JNull => "null"
  | JBool true => "true"
  | JBool false => "false"
  | JNum n => Str.of_Z n
  | JStr s => s
  | JObj _ => "[object Object]"
  | JArr xs =>
      let elem x := match x with JNull => "" | _ => js_to_string x end in
      (fix join (l : list json) : string :=
         match l with
         | [] => ""
         | [x] => elem x
         | x :: r => elem x ++ "," ++ join r
         end) xs
  end.

(** [obj[k]]: [None] is [undefined]. *)
Fixpoint assoc (k : string) (kvs : list (string * json)) : option json :=
  match kvs with
  | [] => None
  | (k', v) :: r => if String.eqb k k' then Some v else assoc k r
  end.

(* ================================================================== *)
(** ** Reading JSON text *)
(* ================================================================== *)

(** The grammar [JSON.parse] and the store's [jsonb] input routine accept,
    for integers, strings with the one-character escapes, arrays and
    objects.  [None] is the syntax error. *)
Module JsonText.

Definition is_digit (c : ascii) : bool :=
  let n := nat_of_ascii c in andb (Nat.leb 48 n) (Nat.leb n 57).

Definition digit_val (c : ascii) : Z := Z.of_nat (nat_of_ascii c) - 48.

Fixpoint digits (acc : Z) (l : list ascii) : Z * list ascii :=
  match l with
  | c :: r => if is_digit c then digits (10 * acc + digit_val c) r else (acc, l)
  | [] => (acc, [])
  end.

Definition number (l : list ascii) : option (json * list ascii) :=
  match l with
  | "-"%char :: c :: r =>
      if is_digit c then let (n, r') := digits 0 (c :: r) in Some (JNum (- n), r')
      else None
  | c :: r =>
      if is_digit c then let (n, r') := digits 0 (c :: r) in Some (JNum n, r')
      else None
  | [] => None
  end.

Definition unescape (c : ascii) : option ascii :=
  match c with
  | "034"%char => Some "034"%char
  | "\"%char => Some "\"%char
  | "/"%char => Some "/"%char
  | "n"%char => Some (ascii_of_nat 10)
  | "t"%char => Some (ascii_of_nat 9)
  | "r"%char => Some (ascii_of_nat 13)
  | "b"%char => Some (ascii_of_nat 8)
  | "f"%char => Some (ascii_of_nat 12)
  | _ => None
  end.

(** The characters after an opening quote, up to the closing one. *)
Fixpoint text (acc : list ascii) (l : list ascii) : option (string * list ascii) :=
  match l with
  | [] => None
  | "034"%char :: r => Some (Str.of_chars (rev acc), r)
  | "\"%char :: c :: r =>
      match unescape c with
      | Some d => text (d :: acc) r
      | None => None
      end
  | c :: r => if Nat.ltb (nat_of_ascii c) 32 then None else text (c :: acc) r
  end.

Fixpoint value (fuel : nat) (l : list ascii) : option (json * list ascii) :=
  match fuel with
  | O => None
  | S fuel' =>
      match Str.drop_spaces l with
      | "n"%char :: "u"%char :: "l"%char :: "l"%char :: r => Some (JNull, r)
      | "t"%char :: "r"%char :: "u"%char :: "e"%char :: r => Some (JBool true, r)
      | "f"%char :: "a"%char :: "l"%char :: "s"%char :: "e"%char :: r =>
          Some (JBool false, r)
      | "034"%char :: r =>
          match text [] r with
          | Some (s, r') => Some (JStr s, r')
          | None => None
          end
      | "["%char :: r =>
          match Str.drop_spaces r with
          | "]"%char :: r' => Some (JArr [], r')
          | r1 =>
              match elements fuel' r1 with
              | Some (xs, r') => Some (JArr xs, r')
              | None => None
              end
          end
      | "{"%char :: r =>
          match Str.drop_spaces r with
          | "}"%char :: r' => Some (JObj [], r')
          | r1 =>
              match members fuel' r1 with
              | Some (kvs, r') => Some (JObj kvs, r')
              | None => None
              end
          end
      | l' => number l'
      end
  end

with elements (fuel : nat) (l : list ascii) : option (list json * list ascii) :=
  match fuel with
  | O => None
  | S fuel' =>
      match value fuel' l with
      | Some (x, r) =>
          match Str.drop_spaces r with
          | ","%char :: r' =>
              match elements fuel' r' with
              | Some (xs, r'') => Some (x :: xs, r'')
              | None => None
              end
          | "]"%char :: r' => Some ([x], r')
          | _ => None
          end
      | None => None
      end
  end

with members (fuel : nat) (l : list ascii)
  : option (list (string * json) * list ascii) :=
  match fuel with
  | O => None
  | S fuel' =>
      match Str.drop_spaces l with
      | "034"%char :: r =>
          match text [] r with
          | Some (k, r1) =>
              match Str.drop_spaces r1 with
              | ":"%char :: r2 =>
                  match value fuel' r2 with
                  | Some (v, r3) =>
                      match Str.drop_spaces r3 with
                      | ","%char :: r4 =>
                          match members fuel' r4 with
                          | Some (kvs, r5) => Some ((k, v) :: kvs, r5)
                          | None => None
                          end
                      | "}"%char :: r4 => Some ([(k, v)], r4)
                      | _ => None
                      end
                  | None => None
                  end
              | _ => None
              end
          | None => None
          end
      | _ => None
      end
  end.

(** A whole text: one value, then only white space. *)
Definition parse (s : string) : option json :=
  let l := Str.chars s in
  match value (S (2 * List.length l)) l with
  | Some (v, r) => match Str.drop_spaces r with [] => Some v | _ => None end
  | None => None
  end.

End JsonText.

(** [JSON.parse(v)]: the argument is coerced to a string first. *)
Definition JSON_parse (v : json) : option json := JsonText.parse (js_to_string v).

(* ================================================================== *)
(** ** The relational store *)
(* ================================================================== *)

(** One record per table of the schema; a nullable column is an [option].
    The columns the schema declares [JSON] ([images], [social_media_links],
    [color_scheme], [popular_projects], [interaction_data]) hold the json
    value itself: the text a handler sends with [JSON.stringify] is stored
    as that value, and node-postgres hands a [json] column back decoded, as
    an object and not as text. *)
Module User.
Record t := { user_id : string; email : string; password_hash : string;
              name : option string; created_at : string }.
End User.

Module UserProfile.
Record t := { user_id : string; profile_picture_url : option string;
              cover_image_url : option string; bio : option string;
              contact_email : option string; phone_number : option string;
              social_media_links : option json }.
End UserProfile.

Module ProjectTemplate.
Record t := { template_id : string; name : string; layout : string }.
End ProjectTemplate.

Module UserSettings.
Record t := { user_id : string; color_scheme : option json;
              chosen_template : option string; font_selection : option string }.
End UserSettings.

Module Project.
Record t := { project_id : string; user_id : string; title : string;
              description : option string; images : option json;
              project_url : option string }.
End Project.

Module Skill.
Record t := { skill_id : string; user_id : string; skill_name : string;
              proficiency_level : option Z }.
End Skill.

Module Experience.
Record t := { experience_id : string; user_id : string; title : string;
              description : option string; start_date : string;
              end_date : option string }.
End Experience.

Module Testimonial.
Record t := { testimonial_id : string; user_id : string; client_name : string;
              feedback : option string }.
End Testimonial.

Module BlogPost.
Record t := { post_id : string; user_id : string; title : string;
              content : option string; created_at : string }.
End BlogPost.

Module Comment.
Record t := { comment_id : string; project_id : string; user_name : option string;
              content : string; created_at : string }.
End Comment.

Module VisitorMessage.
Record t := { message_id : string; user_id : string; visitor_email : option string;
              visitor_message : string; sent_at : string }.
End VisitorMessage.

Module Analytics.
Record t := { analytics_id : string; user_id : string; visit_count : Z;
              popular_projects : option json; interaction_data : option json }.
End Analytics.

Record Db := {
  users : list User.t;
  user_profiles : list UserProfile.t;
  project_templates : list ProjectTemplate.t;
  user_settings : list UserSettings.t;
  projects : list Project.t;
  skills : list Skill.t;
  experience_timeline : list Experience.t;
  testimonials : list Testimonial.t;
  blog_posts : list BlogPost.t;
  comments : list Comment.t;
  visitor_messages : list VisitorMessage.t;
  analytics : list Analytics.t
}.

Definition set_users (v : list User.t) (d : Db) : Db :=
  {| users := v; user_profiles := user_profiles d;
     project_templates := project_templates d; user_settings := user_settings d;
     projects := projects d; skills := skills d;
     experience_timeline := experience_timeline d; testimonials := testimonials d;
     blog_posts := blog_posts d; comments := comments d;
     visitor_messages := visitor_messages d; analytics := analytics d |}.

Definition set_user_profiles (v : list UserProfile.t) (d : Db) : Db :=
  {| users := users d; user_profiles := v;
     project_templates := project_templates d; user_settings := user_settings d;
     projects := projects d; skills := skills d;
     experience_timeline := experience_timeline d; testimonials := testimonials d;
     blog_posts := blog_posts d; comments := comments d;
     visitor_messages := visitor_messages d; analytics := analytics d |}.

Definition set_user_settings (v : list UserSettings.t) (d : Db) : Db :=
  {| users := users d; user_profiles := user_profiles d;
     project_templates := project_templates d; user_settings := v;
     projects := projects d; skills := skills d;
     experience_timeline := experience_timeline d; testimonials := testimonials d;
     blog_posts := blog_posts d; comments := comments d;
     visitor_messages := visitor_messages d; analytics := analytics d |}.

Definition set_projects (v : list Project.t) (d : Db) : Db :=
  {| users := users d; user_profiles := user_profiles d;
     project_templates := project_templates d; user_settings := user_settings d;
     projects := v; skills := skills d;
     experience_timeline := experience_timeline d; testimonials := testimonials d;
     blog_posts := blog_posts d; comments := comments d;
     visitor_messages := visitor_messages d; analytics := analytics d |}.

Definition set_skills (v : list Skill.t) (d : Db) : Db :=
  {| users := users d; user_profiles := user_profiles d;
     project_templates := project_templates d; user_settings := user_settings d;
     projects := projects d; skills := v;
     experience_timeline := experience_timeline d; testimonials := testimonials d;
     blog_posts := blog_posts d; comments := comments d;
     visitor_messages := visitor_messages d; analytics := analytics d |}.

Definition set_experience_timeline (v : list Experience.t) (d : Db) : Db :=
  {| users := users d; user_profiles := user_profiles d;
     project_templates := project_templates d; user_settings := user_settings d;
     projects := projects d; skills := skills d;
     experience_timeline := v; testimonials := testimonials d;
     blog_posts := blog_posts d; comments := comments d;
     visitor_messages := visitor_messages d; analytics := analytics d |}.

Definition set_testimonials (v : list Testimonial.t) (d : Db) : Db :=
  {| users := users d; user_profiles := user_profiles d;
     project_templates := project_templates d; user_settings := user_settings d;
     projects := projects d; skills := skills d;
     experience_timeline := experience_timeline d; testimonials := v;
     blog_posts := blog_posts d; comments := comments d;
     visitor_messages := visitor_messages d; analytics := analytics d |}.

Definition set_blog_posts (v : list BlogPost.t) (d : Db) : Db :=
  {| users := users d; user_profiles := user_profiles d;
     project_templates := project_templates d; user_settings := user_settings d;
     projects := projects d; skills := skills d;
     experience_timeline := experience_timeline d; testimonials := testimonials d;
     blog_posts := v; comments := comments d;
     visitor_messages := visitor_messages d; analytics := analytics d |}.

Definition set_comments (v : list Comment.t) (d : Db) : Db :=
  {| users := users d; user_profiles := user_profiles d;
     project_templates := project_templates d; user_settings := user_settings d;
     projects := projects d; skills := skills d;
     experience_timeline := experience_timeline d; testimonials := testimonials d;
     blog_posts := blog_posts d; comments := v;
     visitor_messages := visitor_messages d; analytics := analytics d |}.

Definition set_visitor_messages (v : list VisitorMessage.t) (d : Db) : Db :=
  {| users := users d; user_profiles := user_profiles d;
     project_templates := project_templates d; user_settings := user_settings d;
     projects := projects d; skills := skills d;
     experience_timeline := experience_timeline d; testimonials := testimonials d;
     blog_posts := blog_posts d; comments := comments d;
     visitor_messages := v; analytics := analytics d |}.

Definition set_analytics (v : list Analytics.t) (d : Db) : Db :=
  {| users := users d; user_profiles := user_profiles d;
     project_templates := project_templates d; user_settings := user_settings d;
     projects := projects d; skills := skills d;
     experience_timeline := experience_timeline d; testimonials := testimonials d;
     blog_posts := blog_posts d; comments := comments d;
     visitor_messages := visitor_messages d; analytics := v |}.

(** Rows of a table whose column [key] equals [k] ([WHERE key = $1]), the
    rows that stay after [DELETE ... WHERE key = $1], and whether a key is
    taken. *)
Section Tables.
Variable A : Type.
Variable key : A -> string.

Definition where_eq (k : string) (t : list A) : list A :=
  filter (fun r => String.eqb (key r) k) t.

Definition delete_where (k : string) (t : list A) : list A :=
  filter (fun r => negb (String.eqb (key r) k)) t.

Definition present (k : string) (t : list A) : bool :=
  existsb (fun r => String.eqb (key r) k) t.

Definition update_where (k : string) (f : A -> A) (t : list A) : list A :=
  map (fun r => if String.eqb (key r) k then f r else r) t.
End Tables.

(* ================================================================== *)
(** ** Libraries the server calls *)
(* ================================================================== *)

(** The checks done by zod and jsonwebtoken, which the handlers are
    written against: [is_email] and [is_url] are zod's string formats,
    [coerce_date v] is [new Date(v).toISOString()] unless the date is
    invalid, [jwt_verify t] is the [user_id] of the payload of a token that
    verifies against the secret, [jwt_sign user_id email] a fresh token. *)
Record platform := {
  is_email : string -> bool;
  is_url : string -> bool;
  coerce_date : json -> option string;
  jwt_verify : string -> option string;
  jwt_sign : string -> string -> string
}.

(** What a request draws from its environment: [new Date().toISOString()]
    and [uuidv4()]. *)
Record clock := { now : string; uuid : string }.

Inductive exn : Type :=
| ZodError
| TypeError
| SyntaxError
| JsonWebTokenError
| DatabaseError
| MulterError
| Error_ (message : string).

(** [interface ErrorResponse]; [success] is always [false]. *)
Record ErrorResponse := {
  message : string;
  error_code : option string;
  details : option exn;
  timestamp : string
}.

Inductive payload : Type :=
| Empty
| Body (j : json)
| Failure (e : ErrorResponse)
| ErrorPage (e : exn).

Record response := { status : Z; body : payload }.

Definition createErrorResponse (c : clock) (msg : string) (error : option exn)
    (errorCode : string) : ErrorResponse :=
  {| message := msg;
     error_code := if String.eqb errorCode "" then None else Some errorCode;
     details := error;
     timestamp := now c |}.

Definition failure (c : clock) (st : Z) (msg : string) (error : option exn)
    (errorCode : string) : response :=
  {| status := st; body := Failure (createErrorResponse c msg error errorCode) |}.

Definition json_reply (st : Z) (j : json) : response :=
  {| status := st; body := Body j |}.

Record request := { authorization : option string; req_body : json }.

(** The own enumerable properties that [{...req.body}] copies. *)
Definition spread (b : json) : list (string * json) :=
  match b with
  | JObj kvs => kvs
  | JArr xs => combine (map (fun i => Str.of_Z (Z.of_nat i)) (seq 0 (List.length xs))) xs
  | _ => []
  end.

(** [{ k, ...req.body }]: a key of the body replaces the path parameter. *)
Definition with_param (k v : string) (b : json) : json :=
  JObj (spread b ++ [(k, JStr v)]).

(* ================================================================== *)
(** ** Handlers as store transformers *)
(* ================================================================== *)

(** A handler body runs statements on the store until it sends a response
    or something throws. *)
Inductive step (A : Type) : Type :=
| Next (a : A)
| Reply (r : response)
| Throw (e : exn).
Arguments Next {A} a.
Arguments Reply {A} r.
Arguments Throw {A} e.

Definition M (A : Type) : Type := Db -> step A * Db.

Definition ret {A} (a : A) : M A := fun d => (Next a, d).

Definition bind {A B} (m : M A) (k : A -> M B) : M B :=
  fun d =>
    match m d with
    | (Next a, d') => k a d'
    | (Reply r, d') => (Reply r, d')
    | (Throw e, d') => (Throw e, d')
    end.

Notation "x <- m ;; k" := (bind m (fun x => k))
  (at level 61, m at next level, right associativity).
Notation "m ;;; k" := (bind m (fun _ => k))
  (at level 61, right associativity).

Definition reply {A} (r : response) : M A := fun d => (Reply r, d).
Definition throw {A} (e : exn) : M A := fun d => (Throw e, d).

(** [await pool.query('SELECT ...')]. *)
Definition query {A} (f : Db -> A) : M A := fun d => (Next (f d), d).

(** [await pool.query] of a statement that writes; a statement the store
    rejects throws and leaves the store as it was. *)
Definition execute (f : Db -> option Db) : M unit :=
  fun d => match f d with
           | Some d' => (Next tt, d')
           | None => (Throw DatabaseError, d)
           end.

(** [schema.parse]. *)
Definition parsed {A} (v : option A) : M A :=
  match v with Some a => ret a | None => throw ZodError end.

(** [try { ... } catch (error) { res.status(500).json(...) }]. *)
Definition try_catch (c : clock) (msg code : string) (h : M response)
    : Db -> response * Db :=
  fun d =>
    match h d with
    | (Next r, d') => (r, d')
    | (Reply r, d') => (r, d')
    | (Throw e, d') => (failure c 500 msg (Some e) code, d')
    end.

Definition handler (c : clock) (h : M response) : Db -> response * Db :=
  try_catch c "Internal server error" "INTERNAL_SERVER_ERROR" h.

(* ================================================================== *)
(** ** Input schemas *)
(* ================================================================== *)

Module Zod.

Definition string (v : option json) : option string :=
  match v with Some (JStr s) => Some s | _ => None end.

Definition format (ok : String.string -> bool) (v : option json)
    : option String.string :=
  match v with
  | Some (JStr s) => if ok s then Some s else None
  | _ => None
  end.

Definition int (v : option json) : option Z :=
  match v with Some (JNum n) => Some n | _ => None end.

Fixpoint strings (xs : list json) : option (list String.string) :=
  match xs with
  | [] => Some []
  | JStr s :: r =>
      match strings r with Some l => Some (s :: l) | None => None end
  | _ => None
  end.

(** [z.array(z.string())]. *)
Definition array (v : option json) : option (list String.string) :=
  match v with Some (JArr xs) => strings xs | _ => None end.

Fixpoint string_values (kvs : list (String.string * json)) : bool :=
  match kvs with
  | [] => true
  | (_, JStr _) :: r => string_values r
  | _ => false
  end.

(** [z.record(z.string(), z.string())]; the value is kept as the object. *)
Definition record (v : option json) : option json :=
  match v with
  | Some (JObj kvs) => if string_values kvs then Some (JObj kvs) else None
  | _ => None
  end.

(** [.optional()]. *)
Definition optional {A} (p : option json -> option A) (v : option json)
    : option (option A) :=
  match v with
  | None => Some None
  | _ => option_map Some (p v)
  end.

(** [.nullable().optional()]. *)
Definition nullable_optional {A} (p : option json -> option A) (v : option json)
    : option (maybe A) :=
  match v with
  | None => Some Missing
  | Some JNull => Some IsNull
  | _ => option_map Has (p v)
  end.

(** [z.object({...})] reads the fields of an object and drops the rest. *)
Definition object (v : json) : option (list (String.string * json)) :=
  match v with JObj kvs => Some kvs | _ => None end.

End Zod.

Notation "'let*' x ':=' e 'in' k" :=
  (match e with Some x => k | None => None end)
  (at level 10, x name, e at level 100, k at level 200).

Record CreateUserInput := {
  cu_email : string; cu_password_hash : string; cu_name : maybe string }.

Record UpdateUserProfileInput := {
  up_user_id : string;
  up_profile_picture_url : maybe string;
  up_cover_image_url : maybe string;
  up_bio : maybe string;
  up_contact_email : maybe string;
  up_phone_number : maybe string;
  up_social_media_links : maybe json }.

Record CreateUserSettingsInput := {
  cs_user_id : string;
  cs_color_scheme : maybe json;
  cs_chosen_template : maybe string;
  cs_font_selection : maybe string }.

Record CreateProjectInput := {
  cp_user_id : string; cp_title : string; cp_description : maybe string;
  cp_images : maybe (list string); cp_project_url : maybe string }.

Record CreateSkillInput := {
  ck_user_id : string; ck_skill_name : string; ck_proficiency_level : option Z }.

Record CreateExperienceTimelineInput := {
  ce_user_id : string; ce_title : string; ce_description : maybe string;
  ce_start_date : string; ce_end_date : maybe string }.

Record CreateTestimonialInput := {
  ct_user_id : string; ct_client_name : string; ct_feedback : maybe string }.

Record CreateBlogPostInput := {
  cb_user_id : string; cb_title : string; cb_content : maybe string }.

Record CreateCommentInput := {
  cc_project_id : string; cc_user_name : maybe string; cc_content : string }.

Record CreateVisitorMessageInput := {
  cv_user_id : string; cv_visitor_email : maybe string; cv_visitor_message : string }.

Section Schemas.
Variable P : platform.

Definition createUserInputSchema (v : json) : option CreateUserInput :=
  let* o := Zod.object v in
  let* e := Zod.format (is_email P) (assoc "email" o) in
  let* p := Zod.string (assoc "password_hash" o) in
  let* n := Zod.nullable_optional Zod.string (assoc "name" o) in
  Some {| cu_email := e; cu_password_hash := p; cu_name := n |}.

Definition updateUserProfileInputSchema (v : json) : option UpdateUserProfileInput :=
  let* o := Zod.object v in
  let* u := Zod.string (assoc "user_id" o) in
  let* pic := Zod.nullable_optional Zod.string (assoc "profile_picture_url" o) in
  let* cov := Zod.nullable_optional Zod.string (assoc "cover_image_url" o) in
  let* b := Zod.nullable_optional Zod.string (assoc "bio" o) in
  let* ce := Zod.nullable_optional (Zod.format (is_email P)) (assoc "contact_email" o) in
  let* ph := Zod.nullable_optional Zod.string (assoc "phone_number" o) in
  let* sm := Zod.nullable_optional Zod.record (assoc "social_media_links" o) in
  Some {| up_user_id := u; up_profile_picture_url := pic;
          up_cover_image_url := cov; up_bio := b; up_contact_email := ce;
          up_phone_number := ph; up_social_media_links := sm |}.

Definition createUserSettingsInputSchema (v : json) : option CreateUserSettingsInput :=
  let* o := Zod.object v in
  let* u := Zod.string (assoc "user_id" o) in
  let* cs := Zod.nullable_optional Zod.record (assoc "color_scheme" o) in
  let* t := Zod.nullable_optional Zod.string (assoc "chosen_template" o) in
  let* f := Zod.nullable_optional Zod.string (assoc "font_selection" o) in
  Some {| cs_user_id := u; cs_color_scheme := cs; cs_chosen_template := t;
          cs_font_selection := f |}.

Definition createProjectInputSchema (v : json) : option CreateProjectInput :=
  let* o := Zod.object v in
  let* u := Zod.string (assoc "user_id" o) in
  let* t := Zod.string (assoc "title" o) in
  let* d := Zod.nullable_optional Zod.string (assoc "description" o) in
  let* i := Zod.nullable_optional Zod.array (assoc "images" o) in
  let* l := Zod.nullable_optional (Zod.format (is_url P)) (assoc "project_url" o) in
  Some {| cp_user_id := u; cp_title := t; cp_description := d; cp_images := i;
          cp_project_url := l |}.

Definition createSkillInputSchema (v : json) : option CreateSkillInput :=
  let* o := Zod.object v in
  let* u := Zod.string (assoc "user_id" o) in
  let* n := Zod.string (assoc "skill_name" o) in
  let* l := Zod.optional Zod.int (assoc "proficiency_level" o) in
  Some {| ck_user_id := u; ck_skill_name := n; ck_proficiency_level := l |}.

(** [z.coerce.date()]: [undefined] gives an invalid date. *)
Definition date (v : option json) : option string :=
  match v with Some j => coerce_date P j | None => None end.

Definition createExperienceTimelineInputSchema (v : json)
    : option CreateExperienceTimelineInput :=
  let* o := Zod.object v in
  let* u := Zod.string (assoc "user_id" o) in
  let* t := Zod.string (assoc "title" o) in
  let* d := Zod.nullable_optional Zod.string (assoc "description" o) in
  let* s := date (assoc "start_date" o) in
  let* e := Zod.nullable_optional date (assoc "end_date" o) in
  Some {| ce_user_id := u; ce_title := t; ce_description := d;
          ce_start_date := s; ce_end_date := e |}.

Definition createTestimonialInputSchema (v : json) : option CreateTestimonialInput :=
  let* o := Zod.object v in
  let* u := Zod.string (assoc "user_id" o) in
  let* n := Zod.string (assoc "client_name" o) in
  let* f := Zod.nullable_optional Zod.string (assoc "feedback" o) in
  Some {| ct_user_id := u; ct_client_name := n; ct_feedback := f |}.

Definition createBlogPostInputSchema (v : json) : option CreateBlogPostInput :=
  let* o := Zod.object v in
  let* u := Zod.string (assoc "user_id" o) in
  let* t := Zod.string (assoc "title" o) in
  let* c := Zod.nullable_optional Zod.string (assoc "content" o) in
  Some {| cb_user_id := u; cb_title := t; cb_content := c |}.

Definition createCommentInputSchema (v : json) : option CreateCommentInput :=
  let* o := Zod.object v in
  let* p := Zod.string (assoc "project_id" o) in
  let* n := Zod.nullable_optional Zod.string (assoc "user_name" o) in
  let* c := Zod.string (assoc "content" o) in
  Some {| cc_project_id := p; cc_user_name := n; cc_content := c |}.

Definition createVisitorMessageInputSchema (v : json)
    : option CreateVisitorMessageInput :=
  let* o := Zod.object v in
  let* u := Zod.string (assoc "user_id" o) in
  let* e := Zod.nullable_optional (Zod.format (is_email P)) (assoc "visitor_email" o) in
  let* m := Zod.string (assoc "visitor_message" o) in
  Some {| cv_user_id := u; cv_visitor_email := e; cv_visitor_message := m |}.

End Schemas.

(* ================================================================== *)
(** ** Statements *)
(* ================================================================== *)

(** [INSERT ... RETURNING]: the row is added when the constraints of the
    table hold, and handed back. *)
Definition insert_returning {A} (ok : Db -> bool) (get : Db -> list A)
    (set : list A -> Db -> Db) (row : A) : M (list A) :=
  fun d =>
    if ok d then (Next [row], set (get d ++ [row])%list d)
    else (Throw DatabaseError, d).

(** [UPDATE ... SET ... WHERE key = $n RETURNING]. *)
Definition update_returning {A} (get : Db -> list A) (set : list A -> Db -> Db)
    (key : A -> string) (k : string) (f : A -> A) : M (list A) :=
  fun d =>
    let t := update_where key k f (get d) in
    (Next (where_eq key k t), set t d).

(** [DELETE FROM ... WHERE key = $1] on a table nothing refers to. *)
Definition delete_from {A} (get : Db -> list A) (set : list A -> Db -> Db)
    (key : A -> string) (k : string) : M unit :=
  execute (fun d => Some (set (delete_where key k (get d)) d)).

(** [comments.project_id REFERENCES projects]: a project that still has
    comments cannot be deleted. *)
Definition delete_project_row (project_id : string) (d : Db) : option Db :=
  if andb (present Project.project_id project_id (projects d))
          (present Comment.project_id project_id (comments d))
  then None
  else Some (set_projects (delete_where Project.project_id project_id (projects d)) d).

Definition user_exists (user_id : string) (d : Db) : bool :=
  present User.user_id user_id (users d).

(** [users]: primary key [user_id], [email] unique. *)
Definition users_ok (u : User.t) (d : Db) : bool :=
  andb (negb (present User.user_id (User.user_id u) (users d)))
       (negb (present User.email (User.email u) (users d))).

Definition user_profiles_ok (r : UserProfile.t) (d : Db) : bool :=
  andb (negb (present UserProfile.user_id (UserProfile.user_id r) (user_profiles d)))
       (user_exists (UserProfile.user_id r) d).

Definition projects_ok (r : Project.t) (d : Db) : bool :=
  andb (negb (present Project.project_id (Project.project_id r) (projects d)))
       (user_exists (Project.user_id r) d).

Definition skills_ok (r : Skill.t) (d : Db) : bool :=
  andb (negb (present Skill.skill_id (Skill.skill_id r) (skills d)))
       (user_exists (Skill.user_id r) d).

Definition experience_ok (r : Experience.t) (d : Db) : bool :=
  andb (negb (present Experience.experience_id (Experience.experience_id r)
                (experience_timeline d)))
       (user_exists (Experience.user_id r) d).

Definition testimonials_ok (r : Testimonial.t) (d : Db) : bool :=
  andb (negb (present Testimonial.testimonial_id (Testimonial.testimonial_id r)
                (testimonials d)))
       (user_exists (Testimonial.user_id r) d).

Definition blog_posts_ok (r : BlogPost.t) (d : Db) : bool :=
  andb (negb (present BlogPost.post_id (BlogPost.post_id r) (blog_posts d)))
       (user_exists (BlogPost.user_id r) d).

Definition comments_ok (r : Comment.t) (d : Db) : bool :=
  andb (negb (present Comment.comment_id (Comment.comment_id r) (comments d)))
       (present Project.project_id (Comment.project_id r) (projects d)).

Definition visitor_messages_ok (r : VisitorMessage.t) (d : Db) : bool :=
  andb (negb (present VisitorMessage.message_id (VisitorMessage.message_id r)
                (visitor_messages d)))
       (user_exists (VisitorMessage.user_id r) d).

Definition analytics_ok (r : Analytics.t) (d : Db) : bool :=
  andb (negb (present Analytics.analytics_id (Analytics.analytics_id r) (analytics d)))
       (user_exists (Analytics.user_id r) d).

(** [INSERT INTO user_settings ... ON CONFLICT (user_id) DO UPDATE SET ...]:
    the three columns of an existing row are replaced; the template, when
    given, must be in the catalogue. *)
Definition upsert_user_settings (r : UserSettings.t) (d : Db) : option Db :=
  let template_ok :=
    match UserSettings.chosen_template r with
    | None => true
    | Some t => present ProjectTemplate.template_id t (project_templates d)
    end in
  if negb template_ok then None
  else if present UserSettings.user_id (UserSettings.user_id r) (user_settings d)
  then Some (set_user_settings
               (update_where UserSettings.user_id (UserSettings.user_id r)
                  (fun _ => r) (user_settings d)) d)
  else if user_exists (UserSettings.user_id r) d
  then Some (set_user_settings (user_settings d ++ [r])%list d)
  else None.

(* ================================================================== *)
(** ** Rows as response bodies *)
(* ================================================================== *)

Definition text (v : option string) : json :=
  match v with Some s => JStr s | None => JNull end.

Definition user_json (u : User.t) : json :=
  JObj [("user_id", JStr (User.user_id u)); ("email", JStr (User.email u));
        ("name", text (User.name u)); ("created_at", JStr (User.created_at u))].

Definition project_json (r : Project.t) (images : json) : json :=
  JObj [("project_id", JStr (Project.project_id r));
        ("user_id", JStr (Project.user_id r));
        ("title", JStr (Project.title r));
        ("description", text (Project.description r));
        ("images", images);
        ("project_url", text (Project.project_url r))].

Definition skill_json (r : Skill.t) : json :=
  JObj [("skill_id", JStr (Skill.skill_id r)); ("user_id", JStr (Skill.user_id r));
        ("skill_name", JStr (Skill.skill_name r));
        ("proficiency_level",
          match Skill.proficiency_level r with Some n => JNum n | None => JNull end)].

Definition experience_json (r : Experience.t) : json :=
  JObj [("experience_id", JStr (Experience.experience_id r));
        ("user_id", JStr (Experience.user_id r));
        ("title", JStr (Experience.title r));
        ("description", text (Experience.description r));
        ("start_date", JStr (Experience.start_date r));
        ("end_date", text (Experience.end_date r))].

Definition testimonial_json (r : Testimonial.t) : json :=
  JObj [("testimonial_id", JStr (Testimonial.testimonial_id r));
        ("user_id", JStr (Testimonial.user_id r));
        ("client_name", JStr (Testimonial.client_name r));
        ("feedback", text (Testimonial.feedback r))].

Definition blog_post_json (r : BlogPost.t) : json :=
  JObj [("post_id", JStr (BlogPost.post_id r)); ("user_id", JStr (BlogPost.user_id r));
        ("title", JStr (BlogPost.title r)); ("content", text (BlogPost.content r));
        ("created_at", JStr (BlogPost.created_at r))].

Definition comment_json (r : Comment.t) : json :=
  JObj [("comment_id", JStr (Comment.comment_id r));
        ("project_id", JStr (Comment.project_id r));
        ("user_name", text (Comment.user_name r));
        ("content", JStr (Comment.content r));
        ("created_at", JStr (Comment.created_at r))].

Definition analytics_json (r : Analytics.t) (popular interaction : json) : json :=
  JObj [("analytics_id", JStr (Analytics.analytics_id r));
        ("user_id", JStr (Analytics.user_id r));
        ("visit_count", JNum (Analytics.visit_count r));
        ("popular_projects", popular);
        ("interaction_data", interaction)].

Definition message_json (m : string) : json := JObj [("message", JStr m)].

(** [result.rows[0]]; reading a column of a missing row throws. *)
Definition first_row {A} (rows : list A) : M A :=
  match rows with r :: _ => ret r | [] => throw TypeError end.

(** [col ? JSON.parse(col) : fallback] on a json column, which the driver
    has already decoded. *)
Definition decode_column (col : option json) (fallback : json) : M json :=
  match col with
  | None => ret fallback
  | Some v =>
      if truthy v then
        match JSON_parse v with
        | Some j => ret j
        | None => throw SyntaxError
        end
      else ret fallback
  end.

(** [project.images ? JSON.parse(project.images).images || [] : []]. *)
Definition decode_images (col : option json) : M json :=
  match col with
  | None => ret (JArr [])
  | Some v =>
      if truthy v then
        match JSON_parse v with
        | None => throw SyntaxError
        | Some JNull => throw TypeError
        | Some (JObj kvs) =>
            match assoc "images" kvs with
            | Some x => ret (if truthy x then x else JArr [])
            | None => ret (JArr [])
            end
        | Some _ => ret (JArr [])
        end
      else ret (JArr [])
  end.

(* ================================================================== *)
(** ** The expression of the contact-counter statement *)
(* ================================================================== *)

(** The fragment of the store's expression language that the [UPDATE
    analytics] statement of the contact handler is written in: how the
    operators of the expression are resolved when the statement is
    analysed, and what a resolved expression computes on a row. *)
Module Sql.

Inductive ty : Type := TJson | TJsonb | TText | TInt | TUnknown.

Inductive value : Type :=
| VNull
| VJson (j : json)
| VText (s : string)
| VInt (n : Z).

Inductive expr : Type :=
| Column (t : ty)
| Literal (s : string)
| Number (n : Z)
| Cast (e : expr) (t : ty)
| Coalesce (a b : expr)
| Concat (a b : expr)
| FieldText (e : expr) (k : string)
| Add (a b : expr).

Definition ty_eqb (a b : ty) : bool :=
  match a, b with
  | TJson, TJson | TJsonb, TJsonb | TText, TText | TInt, TInt
  | TUnknown, TUnknown => true
  | _, _ => false
  end.

Definition integer_text (s : string) : option Z :=
  match JsonText.number (Str.chars (Str.trim s)) with
  | Some (JNum n, []) => Some n
  | _ => None
  end.

(** A quoted literal is read by the input routine of the type it is
    resolved to, when the statement is analysed. *)
Definition literal_ok (t : ty) (s : string) : bool :=
  match t with
  | TJson | TJsonb =>
      match JsonText.parse s with Some _ => true | None => false end
  | TInt => match integer_text s with Some _ => true | None => false end
  | TText | TUnknown => true
  end.

(** Explicit casts between resolved types. *)
Definition castable (from to : ty) : bool :=
  match from, to with
  | TJson, TJsonb | TJsonb, TJson | TText, TInt | TInt, TText
  | TText, TJson | TText, TJsonb | TJson, TText | TJsonb, TText => true
  | _, _ => ty_eqb from to
  end.

(** The operand an operator is resolved with: a literal takes the type
    asked for if its text reads as one, anything else must have it. *)
Definition operand (e : expr) (have want : ty) : bool :=
  match e with
  | Literal s => literal_ok want s
  | _ => ty_eqb have want
  end.

(** [a || b]: [jsonb || jsonb] and the text concatenations; a literal of
    unknown type next to a [jsonb] operand is taken as [jsonb]. *)
Definition concat_ty (ta tb : ty) : option (ty * ty * ty) :=
  match ta, tb with
  | TJsonb, TJsonb | TJsonb, TUnknown | TUnknown, TJsonb =>
      Some (TJsonb, TJsonb, TJsonb)
  | TText, TText | TText, TUnknown | TUnknown, TText | TUnknown, TUnknown =>
      Some (TText, TText, TText)
  | TText, TInt | TUnknown, TInt => Some (TText, TInt, TText)
  | TInt, TText | TInt, TUnknown => Some (TInt, TText, TText)
  | _, _ => None
  end.

Fixpoint typeof (e : expr) : option ty :=
  match e with
  | Column t => Some t
  | Literal _ => Some TUnknown
  | Number _ => Some TInt
  | Cast (Literal s) t => if literal_ok t s then Some t else None
  | Cast e' t =>
      match typeof e' with
      | Some t' => if castable t' t then Some t else None
      | None => None
      end
  | Coalesce a b =>
      match typeof a, typeof b with
      | Some ta, Some tb =>
          let t := match ta with TUnknown => tb | _ => ta end in
          if andb (operand a ta t) (operand b tb t) then Some t else None
      | _, _ => None
      end
  | Concat a b =>
      match typeof a, typeof b with
      | Some ta, Some tb =>
          match concat_ty ta tb with
          | Some (wa, wb, t) =>
              if andb (operand a ta wa) (operand b tb wb) then Some t else None
          | None => None
          end
      | _, _ => None
      end
  | FieldText e' _ =>
      match typeof e' with
      | Some TJson | Some TJsonb => Some TText
      | _ => None
      end
  | Add a b =>
      match typeof a, typeof b with
      | Some TInt, Some TInt => Some TInt
      | _, _ => None
      end
  end.

Definition quoted (s : string) : string := Str.quoted s.

(** The text of a json value, as [->>] and the text casts give it. *)
Fixpoint print (j : json) : string :=
  match j with
  | JNull => "null"
  | JBool true => "true"
  | JBool false => "false"
  | JNum n => Str.of_Z n
  | JStr s => quoted s
  | JArr xs =>
      "[" ++ (fix go (l : list json) : string :=
                match l with
                | [] => ""
                | [x] => print x
                | x :: r => print x ++ ", " ++ go r
                end) xs ++ "]"
  | JObj kvs =>
      "{" ++ (fix go (l : list (string * json)) : string :=
                match l with
                | [] => ""
                | [(k, v)] => quoted k ++ ": " ++ print v
                | (k, v) :: r => quoted k ++ ": " ++ print v ++ ", " ++ go r
                end) kvs ++ "}"
  end.

(** [jsonb || jsonb]: the keys of the right object replace those of the
    left one; arrays are appended. *)
Definition merge (a b : json) : json :=
  match a, b with
  | JObj ka, JObj kb =>
      JObj (filter (fun kv : string * json =>
                      match assoc (fst kv) kb with Some _ => false | None => true end)
                   ka ++ kb)
  | JArr xa, JArr xb => JArr (xa ++ xb)
  | JArr xa, _ => JArr (xa ++ [b])
  | _, JArr xb => JArr (a :: xb)
  | _, _ => JArr [a; b]
  end.

Definition as_string (v : value) : option string :=
  match v with
  | VNull => None
  | VJson j => Some (print j)
  | VText s => Some s
  | VInt n => Some (Str.of_Z n)
  end.

(** The value of a resolved expression on a row whose column holds
    [col]; [None] is an error raised while the row is computed. *)
Fixpoint eval (col : option json) (e : expr) : option value :=
  match e with
  | Column _ => Some (match col with Some j => VJson j | None => VNull end)
  | Literal s => Some (VText s)
  | Number n => Some (VInt n)
  | Cast e' t =>
      match eval col e' with
      | Some VNull => Some VNull
      | Some (VText s) =>
          match t with
          | TJson | TJsonb => option_map VJson (JsonText.parse s)
          | TInt => option_map VInt (integer_text s)
          | _ => Some (VText s)
          end
      | Some (VJson j) =>
          match t with
          | TText => Some (VText (print j))
          | _ => Some (VJson j)
          end
      | Some (VInt n) =>
          match t with
          | TText => Some (VText (Str.of_Z n))
          | _ => Some (VInt n)
          end
      | None => None
      end
  | Coalesce a b =>
      match eval col a with
      | Some VNull => eval col b
      | r => r
      end
  | Concat a b =>
      match eval col a, eval col b with
      | Some VNull, Some _ | Some _, Some VNull => Some VNull
      | Some (VJson x), Some (VJson y) => Some (VJson (merge x y))
      | Some (VJson x), Some (VText s) =>
          option_map (fun y => VJson (merge x y)) (JsonText.parse s)
      | Some (VText s), Some (VJson y) =>
          option_map (fun x => VJson (merge x y)) (JsonText.parse s)
      | Some x, Some y =>
          match as_string x, as_string y with
          | Some s, Some t => Some (VText (s ++ t))
          | _, _ => Some VNull
          end
      | _, _ => None
      end
  | FieldText e' k =>
      match eval col e' with
      | Some (VJson (JObj kvs)) =>
          match assoc k kvs with
          | Some JNull | None => Some VNull
          | Some (JStr s) => Some (VText s)
          | Some j => Some (VText (print j))
          end
      | Some _ => Some VNull
      | None => None
      end
  | Add a b =>
      match eval col a, eval col b with
      | Some (VInt x), Some (VInt y) => Some (VInt (x + y))
      | Some _, Some _ => Some VNull
      | _, _ => None
      end
  end.

(** What a [json] column takes on assignment. *)
Definition assignable (t : ty) : bool :=
  match t with TJson | TJsonb | TUnknown => true | _ => false end.

Definition stored (v : value) : option (option json) :=
  match v with
  | VNull => Some None
  | VJson j => Some (Some j)
  | VText s => option_map Some (JsonText.parse s)
  | VInt n => Some (Some (JNum n))
  end.

(** [COALESCE(interaction_data::jsonb, '{}'::jsonb) || '{"contacts": ' ||
    (COALESCE((interaction_data::jsonb->>'contacts')::int, 0) + 1) || '}'];
    [||] associates to the left. *)
Definition contacts_increment : expr :=
  Concat
    (Concat
       (Concat
          (Coalesce (Cast (Column TJson) TJsonb) (Cast (Literal "{}") TJsonb))
          (Literal ("{" ++ Str.quoted "contacts" ++ ": ")))
       (Add (Coalesce
               (Cast (FieldText (Cast (Column TJson) TJsonb) "contacts") TInt)
               (Number 0))
            (Number 1)))
    (Literal "}").

Fixpoint set_rows (user_id : string) (e : expr) (t : list Analytics.t)
    : option (list Analytics.t) :=
  match t with
  | [] => Some []
  | r :: rest =>
      match set_rows user_id e rest with
      | None => None
      | Some rest' =>
          if String.eqb (Analytics.user_id r) user_id then
            match eval (Analytics.interaction_data r) e with
            | Some v =>
                match stored v with
                | Some col =>
                    Some ({| Analytics.analytics_id := Analytics.analytics_id r;
                             Analytics.user_id := Analytics.user_id r;
                             Analytics.visit_count := Analytics.visit_count r;
                             Analytics.popular_projects := Analytics.popular_projects r;
                             Analytics.interaction_data := col |} :: rest')
                | None => None
                end
            | None => None
            end
          else Some (r :: rest')
      end
  end.

(** [UPDATE analytics SET interaction_data = e WHERE user_id = $1]: the
    statement is analysed first, then run on the rows it matches. *)
Definition update_interaction_data (e : expr) (user_id : string) (d : Db)
    : option Db :=
  match typeof e with
  | Some t =>
      if assignable t then
        match set_rows user_id e (analytics d) with
        | Some rows => Some (set_analytics rows d)
        | None => None
        end
      else None
  | None => None
  end.

End Sql.

(* ================================================================== *)
(** ** Uploaded files *)
(* ================================================================== *)

Module Upload.

(** The part of the multipart request multer looks at. *)
Record file := { originalname : string; mimetype : string; size : Z }.

(** A file on disk. *)
Record stored := { path : string; bytes : Z }.

(** [Date.now()] and [Math.round(Math.random() * 1E9)]. *)
Record draw := { date_now : Z; random : Z }.

(** [req.file]. *)
Record accepted := { filename : string; original : string; length : Z }.

Record scan := {
  startDot : Z; startPart : Z; end_ : Z; matchedSlash : bool; preDotState : Z }.

(** The loop of Node's [path.extname], from the last character to the
    first; [i] is the index of the head of the reversed list. *)
Fixpoint extname_loop (rev_chars : list ascii) (i : Z) (s : scan) : scan :=
  match rev_chars with
  | [] => s
  | ch :: rest =>
      if Ascii.eqb ch "/" then
        if negb (matchedSlash s) then
          {| startDot := startDot s; startPart := i + 1; end_ := end_ s;
             matchedSlash := matchedSlash s; preDotState := preDotState s |}
        else extname_loop rest (i - 1) s
      else
        let s1 :=
          if end_ s =? -1 then
            {| startDot := startDot s; startPart := startPart s; end_ := i + 1;
               matchedSlash := false; preDotState := preDotState s |}
          else s in
        let s2 :=
          if Ascii.eqb ch "." then
            if startDot s1 =? -1 then
              {| startDot := i; startPart := startPart s1; end_ := end_ s1;
                 matchedSlash := matchedSlash s1; preDotState := preDotState s1 |}
            else if negb (preDotState s1 =? 1) then
              {| startDot := startDot s1; startPart := startPart s1;
                 end_ := end_ s1; matchedSlash := matchedSlash s1;
                 preDotState := 1 |}
            else s1
          else if negb (startDot s1 =? -1) then
            {| startDot := startDot s1; startPart := startPart s1;
               end_ := end_ s1; matchedSlash := matchedSlash s1;
               preDotState := -1 |}
          else s1 in
        extname_loop rest (i - 1) s2
  end.

(** [path.extname]. *)
Definition extname (p : string) : string :=
  let l := Str.chars p in
  let s := extname_loop (rev l) (Z.of_nat (List.length l) - 1)
             {| startDot := -1; startPart := 0; end_ := -1;
                matchedSlash := true; preDotState := 0 |} in
  if orb (orb (startDot s =? -1) (end_ s =? -1))
         (orb (preDotState s =? 0)
              (andb (preDotState s =? 1)
                    (andb (startDot s =? end_ s - 1)
                          (startDot s =? startPart s + 1))))
  then ""
  else substring (Z.to_nat (startDot s)) (Z.to_nat (end_ s - startDot s)) p.

(** [/jpeg|jpg|png|gif|webp/.test(s)]. *)
Definition allowedTypes (s : string) : bool :=
  existsb (fun w => Str.contains w s) ["jpeg"; "jpg"; "png"; "gif"; "webp"].

Definition fileFilter (f : file) : bool :=
  let ext_ok := allowedTypes (Str.toLowerCase (extname (originalname f))) in
  let mime_ok := allowedTypes (mimetype f) in
  andb mime_ok ext_ok.

Definition fileSize : Z := 5 * 1024 * 1024.

Definition uploadsDir : string := "storage/uploads".
Definition profilesDir : string := uploadsDir ++ "/profiles".
Definition projectsDir : string := uploadsDir ++ "/projects".

Definition destination (type : string) : string :=
  let uploadType := if String.eqb type "" then "general" else type in
  if String.eqb uploadType "profile" then profilesDir
  else if String.eqb uploadType "project" then projectsDir
  else uploadsDir.

Definition generated_name (r : draw) (f : file) : string :=
  let uniqueSuffix := Str.of_Z (date_now r) ++ "-" ++ Str.of_Z (random r) in
  uniqueSuffix ++ extname (originalname f).

(** [upload.single('file')]: the filter runs before anything is written;
    a file over the limit is removed again; otherwise the file is on disk
    under the generated name. An error goes to [next(err)]. *)
Definition single (type : string) (r : draw) (f : option file)
    (disk : list stored) : (exn + option accepted) * list stored :=
  match f with
  | None => (inr None, disk)
  | Some f =>
      if negb (fileFilter f) then (inl (Error_ "Only image files are allowed"), disk)
      else if fileSize <? size f then (inl MulterError, disk)
      else
        let name := generated_name r f in
        (inr (Some {| filename := name; original := originalname f;
                      length := size f |}),
         (disk ++ [{| path := destination type ++ "/" ++ name;
                      bytes := size f |}])%list)
  end.

End Upload.

(* ================================================================== *)
(** ** The server *)
(* ================================================================== *)

(** [req.user]: the columns the middleware selects. *)
Record Principal := {
  pr_user_id : string; pr_email : string; pr_name : option string;
  pr_created_at : string }.

Definition principal_of (u : User.t) : Principal :=
  {| pr_user_id := User.user_id u; pr_email := User.email u;
     pr_name := User.name u; pr_created_at := User.created_at u |}.

(** [authHeader && authHeader.split(' ')[1]]. *)
Definition token_of (rq : request) : option string :=
  match authorization rq with
  | None => None
  | Some h => nth_error (Str.split_space h) 1
  end.

(** [req.body.email] and the like. *)
Definition property (k : string) (b : json) : option json :=
  match b with JObj kvs => assoc k kvs | _ => None end.

Definition falsy (v : option json) : bool :=
  match v with None => true | Some j => negb (truthy j) end.

(** [validatedData.images ? JSON.stringify({ images: ... }) : null], as the
    json column holds it. *)
Definition imagesJson (images : maybe (list string)) : option json :=
  match images with
  | Has l => Some (JObj [("images", JArr (map JStr l))])
  | _ => None
  end.

(** [SET title = $1, description = $2, images = $3, project_url = $4] of
    [PATCH /api/projects/:project_id]: all four columns come from the
    validated payload. *)
Definition overwrite (v : CreateProjectInput) (r : Project.t) : Project.t :=
  {| Project.project_id := Project.project_id r;
     Project.user_id := Project.user_id r;
     Project.title := cp_title v;
     Project.description := to_sql (cp_description v);
     Project.images := imagesJson (cp_images v);
     Project.project_url := to_sql (cp_project_url v) |}.

Section Server.
Variable P : platform.
Variable c : clock.

(** The [authenticateToken] middleware up to [next()]: the response it
    sends itself, or the principal it stores in [req.user]. *)
Definition auth_check (rq : request) (d : Db) : response + Principal :=
  match token_of rq with
  | None => inl (failure c 401 "Access token required" None "AUTH_TOKEN_MISSING")
  | Some token =>
      if String.eqb token "" then
        inl (failure c 401 "Access token required" None "AUTH_TOKEN_MISSING")
      else
        match jwt_verify P token with
        | None =>
            inl (failure c 403 "Invalid or expired token" (Some JsonWebTokenError)
                   "AUTH_TOKEN_INVALID")
        | Some sub =>
            match where_eq User.user_id sub (users d) with
            | [] => inl (failure c 401 "Invalid token" None "AUTH_TOKEN_INVALID")
            | u :: _ => inr (principal_of u)
            end
        end
  end.

(** [authenticateToken] in front of a route handler [next]. *)
Definition authenticateToken (rq : request)
    (next : Principal -> Db -> response * Db) : Db -> response * Db :=
  fun d =>
    match auth_check rq d with
    | inl denied => (denied, d)
    | inr user => next user d
    end.

(** The principal a request is authenticated as, if any. *)
Definition authenticated (rq : request) (d : Db) : option Principal :=
  match auth_check rq d with
  | inl _ => None
  | inr user => Some user
  end.

(** [POST /api/auth/register]. *)
Definition register (rq : request) : Db -> response * Db :=
  handler c (
    validatedData <- parsed (createUserInputSchema P (req_body rq)) ;;
    let email := cu_email validatedData in
    let password := cu_password_hash validatedData in
    let name := cu_name validatedData in
    existingUser <- query (fun d => where_eq User.email email (users d)) ;;
    match existingUser with
    | _ :: _ =>
        reply (failure c 400 "User with this email already exists" None
                 "USER_ALREADY_EXISTS")
    | [] =>
        let row :=
          {| User.user_id := uuid c;
             User.email := Str.trim (Str.toLowerCase email);
             User.password_hash := password;
             User.name := match name with
                          | Has n => if String.eqb n "" then None else Some n
                          | _ => None
                          end;
             User.created_at := now c |} in
        result <- insert_returning (users_ok row) users set_users row ;;
        user <- first_row result ;;
        let profile :=
          {| UserProfile.user_id := uuid c;
             UserProfile.profile_picture_url := None;
             UserProfile.cover_image_url := None;
             UserProfile.bio := None;
             UserProfile.contact_email := None;
             UserProfile.phone_number := None;
             UserProfile.social_media_links := None |} in
        insert_returning (user_profiles_ok profile) user_profiles
          set_user_profiles profile ;;;
        let token := jwt_sign P (User.user_id user) (User.email user) in
        reply (json_reply 200
                 (JObj [("user", user_json user); ("token", JStr token)]))
    end).

Definition reset_message : string :=
  "If an account with that email exists, a password reset link has been sent.".

(** [POST /api/auth/password-reset]. *)
Definition password_reset (rq : request) : Db -> response * Db :=
  handler c (
    let email := property "email" (req_body rq) in
    if falsy email then
      reply (failure c 400 "Email is required" None "MISSING_REQUIRED_FIELDS")
    else
      match email with
      | Some (JStr e) =>
          result <- query (fun d =>
                      where_eq User.email (Str.trim (Str.toLowerCase e)) (users d)) ;;
          match result with
          | [] => reply (json_reply 200 (message_json reset_message))
          | _ :: _ => reply (json_reply 200 (message_json reset_message))
          end
      | _ => throw TypeError
      end).

(** The pairs [Object.entries(validatedData)] goes through. *)
Definition profile_entries (v : UpdateUserProfileInput) : list (string * maybe json) :=
  let str (m : maybe string) : maybe json :=
    match m with Missing => Missing | IsNull => IsNull | Has s => Has (JStr s) end in
  [("user_id", Has (JStr (up_user_id v)));
   ("profile_picture_url", str (up_profile_picture_url v));
   ("cover_image_url", str (up_cover_image_url v));
   ("bio", str (up_bio v));
   ("contact_email", str (up_contact_email v));
   ("phone_number", str (up_phone_number v));
   ("social_media_links", up_social_media_links v)].

(** [updateFields] with [values]: one assignment per key other than
    [user_id] whose value is not [undefined]. *)
Definition updateFields (v : UpdateUserProfileInput) : list (string * option json) :=
  flat_map (fun kv : string * maybe json =>
              let (key, value) := kv in
              if String.eqb key "user_id" then []
              else match value with
                   | Missing => []
                   | IsNull => [(key, None)]
                   | Has j => [(key, Some j)]
                   end)
           (profile_entries v).

Definition as_text (v : option json) : option string :=
  match v with Some (JStr s) => Some s | _ => None end.

(** [SET key = $n] on a row of [user_profiles]. *)
Definition assign (r : UserProfile.t) (kv : string * option json) : UserProfile.t :=
  let (key, v) := kv in
  let upd pic cov b ce ph sm :=
    {| UserProfile.user_id := UserProfile.user_id r;
       UserProfile.profile_picture_url := pic;
       UserProfile.cover_image_url := cov;
       UserProfile.bio := b;
       UserProfile.contact_email := ce;
       UserProfile.phone_number := ph;
       UserProfile.social_media_links := sm |} in
  let pic := UserProfile.profile_picture_url r in
  let cov := UserProfile.cover_image_url r in
  let b := UserProfile.bio r in
  let ce := UserProfile.contact_email r in
  let ph := UserProfile.phone_number r in
  let sm := UserProfile.social_media_links r in
  if String.eqb key "profile_picture_url" then upd (as_text v) cov b ce ph sm
  else if String.eqb key "cover_image_url" then upd pic (as_text v) b ce ph sm
  else if String.eqb key "bio" then upd pic cov (as_text v) ce ph sm
  else if String.eqb key "contact_email" then upd pic cov b (as_text v) ph sm
  else if String.eqb key "phone_number" then upd pic cov b ce (as_text v) sm
  else if String.eqb key "social_media_links" then upd pic cov b ce ph v
  else r.

(** [PATCH /api/users/:user_id]. *)
Definition patch_user (user_id : string) (rq : request) : Db -> response * Db :=
  authenticateToken rq (fun user => handler c (
    if negb (String.eqb (pr_user_id user) user_id) then
      reply (failure c 403 "Cannot update another user's profile" None "FORBIDDEN")
    else
      validatedData <- parsed (updateUserProfileInputSchema P
                                 (with_param "user_id" user_id (req_body rq))) ;;
      match updateFields validatedData with
      | [] => reply (failure c 400 "No fields to update" None "NO_UPDATE_FIELDS")
      | fields =>
          result <- update_returning user_profiles set_user_profiles
                      UserProfile.user_id user_id
                      (fun r => fold_left assign fields r) ;;
          match result with
          | [] => reply (failure c 404 "User profile not found" None
                           "PROFILE_NOT_FOUND")
          | _ :: _ => reply (json_reply 200
                               (message_json "Profile updated successfully"))
          end
      end)).

(** [PATCH /api/users/:user_id/settings]. *)
Definition patch_settings (user_id : string) (rq : request) : Db -> response * Db :=
  authenticateToken rq (fun user => handler c (
    if negb (String.eqb (pr_user_id user) user_id) then
      reply (failure c 403 "Cannot update another user's settings" None "FORBIDDEN")
    else
      validatedData <- parsed (createUserSettingsInputSchema
                                 (with_param "user_id" user_id (req_body rq))) ;;
      execute (upsert_user_settings
                 {| UserSettings.user_id := cs_user_id validatedData;
                    UserSettings.color_scheme := to_sql (cs_color_scheme validatedData);
                    UserSettings.chosen_template :=
                      to_sql (cs_chosen_template validatedData);
                    UserSettings.font_selection :=
                      to_sql (cs_font_selection validatedData) |}) ;;;
      reply (json_reply 200 (message_json "Settings updated successfully")))).

(** [POST /api/users/:user_id/projects]. *)
Definition create_project (user_id : string) (rq : request) : Db -> response * Db :=
  authenticateToken rq (fun user => handler c (
    if negb (String.eqb (pr_user_id user) user_id) then
      reply (failure c 403 "Cannot create project for another user" None "FORBIDDEN")
    else
      validatedData <- parsed (createProjectInputSchema P
                                 (with_param "user_id" user_id (req_body rq))) ;;
      let row :=
        {| Project.project_id := uuid c;
           Project.user_id := cp_user_id validatedData;
           Project.title := cp_title validatedData;
           Project.description := to_sql (cp_description validatedData);
           Project.images := imagesJson (cp_images validatedData);
           Project.project_url := to_sql (cp_project_url validatedData) |} in
      result <- insert_returning (projects_ok row) projects set_projects row ;;
      project <- first_row result ;;
      images <- decode_images (Project.images project) ;;
      reply (json_reply 201 (project_json project images)))).

(** [PATCH /api/projects/:project_id]. *)
Definition patch_project (project_id : string) (rq : request)
    : Db -> response * Db :=
  authenticateToken rq (fun user => handler c (
    ownerCheck <- query (fun d =>
                    where_eq Project.project_id project_id (projects d)) ;;
    match ownerCheck with
    | [] => reply (failure c 404 "Project not found" None "PROJECT_NOT_FOUND")
    | owner :: _ =>
        if negb (String.eqb (Project.user_id owner) (pr_user_id user)) then
          reply (failure c 403 "Cannot update another user's project" None
                   "FORBIDDEN")
        else
          validatedData <- parsed (createProjectInputSchema P (req_body rq)) ;;
          result <- update_returning projects set_projects
                      Project.project_id project_id
                      (overwrite validatedData) ;;
          project <- first_row result ;;
          images <- decode_images (Project.images project) ;;
          reply (json_reply 200 (project_json project images))
    end)).

(** [DELETE /api/projects/:project_id]. *)
Definition delete_project (project_id : string) (rq : request)
    : Db -> response * Db :=
  authenticateToken rq (fun user => handler c (
    ownerCheck <- query (fun d =>
                    where_eq Project.project_id project_id (projects d)) ;;
    match ownerCheck with
    | [] => reply (failure c 404 "Project not found" None "PROJECT_NOT_FOUND")
    | owner :: _ =>
        if negb (String.eqb (Project.user_id owner) (pr_user_id user)) then
          reply (failure c 403 "Cannot delete another user's project" None
                   "FORBIDDEN")
        else
          delete_from comments set_comments Comment.project_id project_id ;;;
          execute (delete_project_row project_id) ;;;
          reply {| status := 204; body := Empty |}
    end)).

(** [POST /api/users/:user_id/skills]. *)
Definition create_skill (user_id : string) (rq : request) : Db -> response * Db :=
  authenticateToken rq (fun user => handler c (
    if negb (String.eqb (pr_user_id user) user_id) then
      reply (failure c 403 "Cannot create skill for another user" None "FORBIDDEN")
    else
      validatedData <- parsed (createSkillInputSchema
                                 (with_param "user_id" user_id (req_body rq))) ;;
      let row :=
        {| Skill.skill_id := uuid c;
           Skill.user_id := ck_user_id validatedData;
           Skill.skill_name := ck_skill_name validatedData;
           Skill.proficiency_level := ck_proficiency_level validatedData |} in
      result <- insert_returning (skills_ok row) skills set_skills row ;;
      skill <- first_row result ;;
      reply (json_reply 201 (skill_json skill)))).

(** [PATCH /api/skills/:skill_id]. *)
Definition patch_skill (skill_id : string) (rq : request) : Db -> response * Db :=
  authenticateToken rq (fun user => handler c (
    ownerCheck <- query (fun d => where_eq Skill.skill_id skill_id (skills d)) ;;
    match ownerCheck with
    | [] => reply (failure c 404 "Skill not found" None "SKILL_NOT_FOUND")
    | owner :: _ =>
        if negb (String.eqb (Skill.user_id owner) (pr_user_id user)) then
          reply (failure c 403 "Cannot update another user's skill" None "FORBIDDEN")
        else
          validatedData <- parsed (createSkillInputSchema (req_body rq)) ;;
          result <- update_returning skills set_skills Skill.skill_id skill_id
                      (fun r =>
                         {| Skill.skill_id := Skill.skill_id r;
                            Skill.user_id := Skill.user_id r;
                            Skill.skill_name := ck_skill_name validatedData;
                            Skill.proficiency_level :=
                              ck_proficiency_level validatedData |}) ;;
          skill <- first_row result ;;
          reply (json_reply 200 (skill_json skill))
    end)).

(** [DELETE /api/skills/:skill_id]. *)
Definition delete_skill (skill_id : string) (rq : request) : Db -> response * Db :=
  authenticateToken rq (fun user => handler c (
    ownerCheck <- query (fun d => where_eq Skill.skill_id skill_id (skills d)) ;;
    match ownerCheck with
    | [] => reply (failure c 404 "Skill not found" None "SKILL_NOT_FOUND")
    | owner :: _ =>
        if negb (String.eqb (Skill.user_id owner) (pr_user_id user)) then
          reply (failure c 403 "Cannot delete another user's skill" None "FORBIDDEN")
        else
          delete_from skills set_skills Skill.skill_id skill_id ;;;
          reply {| status := 204; body := Empty |}
    end)).

(** [POST /api/users/:user_id/experience]. *)
Definition create_experience (user_id : string) (rq : request)
    : Db -> response * Db :=
  authenticateToken rq (fun user => handler c (
    if negb (String.eqb (pr_user_id user) user_id) then
      reply (failure c 403 "Cannot create experience for another user" None
               "FORBIDDEN")
    else
      validatedData <- parsed (createExperienceTimelineInputSchema P
                                 (with_param "user_id" user_id (req_body rq))) ;;
      let row :=
        {| Experience.experience_id := uuid c;
           Experience.user_id := ce_user_id validatedData;
           Experience.title := ce_title validatedData;
           Experience.description := to_sql (ce_description validatedData);
           Experience.start_date := ce_start_date validatedData;
           Experience.end_date := to_sql (ce_end_date validatedData) |} in
      result <- insert_returning (experience_ok row) experience_timeline
                  set_experience_timeline row ;;
      experience <- first_row result ;;
      reply (json_reply 201 (experience_json experience)))).

(** [PATCH /api/experience/:experience_id]. *)
Definition patch_experience (experience_id : string) (rq : request)
    : Db -> response * Db :=
  authenticateToken rq (fun user => handler c (
    ownerCheck <- query (fun d =>
                    where_eq Experience.experience_id experience_id
                      (experience_timeline d)) ;;
    match ownerCheck with
    | [] => reply (failure c 404 "Experience not found" None "EXPERIENCE_NOT_FOUND")
    | owner :: _ =>
        if negb (String.eqb (Experience.user_id owner) (pr_user_id user)) then
          reply (failure c 403 "Cannot update another user's experience" None
                   "FORBIDDEN")
        else
          validatedData <- parsed (createExperienceTimelineInputSchema P
                                     (req_body rq)) ;;
          result <- update_returning experience_timeline set_experience_timeline
                      Experience.experience_id experience_id
                      (fun r =>
                         {| Experience.experience_id := Experience.experience_id r;
                            Experience.user_id := Experience.user_id r;
                            Experience.title := ce_title validatedData;
                            Experience.description :=
                              to_sql (ce_description validatedData);
                            Experience.start_date := ce_start_date validatedData;
                            Experience.end_date :=
                              to_sql (ce_end_date validatedData) |}) ;;
          experience <- first_row result ;;
          reply (json_reply 200 (experience_json experience))
    end)).

(** [DELETE /api/experience/:experience_id]. *)
Definition delete_experience (experience_id : string) (rq : request)
    : Db -> response * Db :=
  authenticateToken rq (fun user => handler c (
    ownerCheck <- query (fun d =>
                    where_eq Experience.experience_id experience_id
                      (experience_timeline d)) ;;
    match ownerCheck with
    | [] => reply (failure c 404 "Experience not found" None "EXPERIENCE_NOT_FOUND")
    | owner :: _ =>
        if negb (String.eqb (Experience.user_id owner) (pr_user_id user)) then
          reply (failure c 403 "Cannot delete another user's experience" None
                   "FORBIDDEN")
        else
          delete_from experience_timeline set_experience_timeline
            Experience.experience_id experience_id ;;;
          reply {| status := 204; body := Empty |}
    end)).

(** [POST /api/users/:user_id/testimonials]. *)
Definition create_testimonial (user_id : string) (rq : request)
    : Db -> response * Db :=
  authenticateToken rq (fun user => handler c (
    if negb (String.eqb (pr_user_id user) user_id) then
      reply (failure c 403 "Cannot create testimonial for another user" None
               "FORBIDDEN")
    else
      validatedData <- parsed (createTestimonialInputSchema
                                 (with_param "user_id" user_id (req_body rq))) ;;
      let row :=
        {| Testimonial.testimonial_id := uuid c;
           Testimonial.user_id := ct_user_id validatedData;
           Testimonial.client_name := ct_client_name validatedData;
           Testimonial.feedback := to_sql (ct_feedback validatedData) |} in
      result <- insert_returning (testimonials_ok row) testimonials
                  set_testimonials row ;;
      testimonial <- first_row result ;;
      reply (json_reply 201 (testimonial_json testimonial)))).

(** [PATCH /api/testimonials/:testimonial_id]. *)
Definition patch_testimonial (testimonial_id : string) (rq : request)
    : Db -> response * Db :=
  authenticateToken rq (fun user => handler c (
    ownerCheck <- query (fun d =>
                    where_eq Testimonial.testimonial_id testimonial_id
                      (testimonials d)) ;;
    match ownerCheck with
    | [] => reply (failure c 404 "Testimonial not found" None
                     "TESTIMONIAL_NOT_FOUND")
    | owner :: _ =>
        if negb (String.eqb (Testimonial.user_id owner) (pr_user_id user)) then
          reply (failure c 403 "Cannot update another user's testimonial" None
                   "FORBIDDEN")
        else
          validatedData <- parsed (createTestimonialInputSchema (req_body rq)) ;;
          result <- update_returning testimonials set_testimonials
                      Testimonial.testimonial_id testimonial_id
                      (fun r =>
                         {| Testimonial.testimonial_id := Testimonial.testimonial_id r;
                            Testimonial.user_id := Testimonial.user_id r;
                            Testimonial.client_name := ct_client_name validatedData;
                            Testimonial.feedback :=
                              to_sql (ct_feedback validatedData) |}) ;;
          testimonial <- first_row result ;;
          reply (json_reply 200 (testimonial_json testimonial))
    end)).

(** [DELETE /api/testimonials/:testimonial_id]. *)
Definition delete_testimonial (testimonial_id : string) (rq : request)
    : Db -> response * Db :=
  authenticateToken rq (fun user => handler c (
    ownerCheck <- query (fun d =>
                    where_eq Testimonial.testimonial_id testimonial_id
                      (testimonials d)) ;;
    match ownerCheck with
    | [] => reply (failure c 404 "Testimonial not found" None
                     "TESTIMONIAL_NOT_FOUND")
    | owner :: _ =>
        if negb (String.eqb (Testimonial.user_id owner) (pr_user_id user)) then
          reply (failure c 403 "Cannot delete another user's testimonial" None
                   "FORBIDDEN")
        else
          delete_from testimonials set_testimonials
            Testimonial.testimonial_id testimonial_id ;;;
          reply {| status := 204; body := Empty |}
    end)).

(** [POST /api/users/:user_id/blog-posts]. *)
Definition create_blog_post (user_id : string) (rq : request)
    : Db -> response * Db :=
  authenticateToken rq (fun user => handler c (
    if negb (String.eqb (pr_user_id user) user_id) then
      reply (failure c 403 "Cannot create blog post for another user" None
               "FORBIDDEN")
    else
      validatedData <- parsed (createBlogPostInputSchema
                                 (with_param "user_id" user_id (req_body rq))) ;;
      let row :=
        {| BlogPost.post_id := uuid c;
           BlogPost.user_id := cb_user_id validatedData;
           BlogPost.title := cb_title validatedData;
           BlogPost.content := to_sql (cb_content validatedData);
           BlogPost.created_at := now c |} in
      result <- insert_returning (blog_posts_ok row) blog_posts set_blog_posts row ;;
      post <- first_row result ;;
      reply (json_reply 201 (blog_post_json post)))).

(** [PATCH /api/blog-posts/:post_id]. *)
Definition patch_blog_post (post_id : string) (rq : request)
    : Db -> response * Db :=
  authenticateToken rq (fun user => handler c (
    ownerCheck <- query (fun d => where_eq BlogPost.post_id post_id (blog_posts d)) ;;
    match ownerCheck with
    | [] => reply (failure c 404 "Blog post not found" None "POST_NOT_FOUND")
    | owner :: _ =>
        if negb (String.eqb (BlogPost.user_id owner) (pr_user_id user)) then
          reply (failure c 403 "Cannot update another user's blog post" None
                   "FORBIDDEN")
        else
          validatedData <- parsed (createBlogPostInputSchema (req_body rq)) ;;
          result <- update_returning blog_posts set_blog_posts
                      BlogPost.post_id post_id
                      (fun r =>
                         {| BlogPost.post_id := BlogPost.post_id r;
                            BlogPost.user_id := BlogPost.user_id r;
                            BlogPost.title := cb_title validatedData;
                            BlogPost.content := to_sql (cb_content validatedData);
                            BlogPost.created_at := BlogPost.created_at r |}) ;;
          post <- first_row result ;;
          reply (json_reply 200 (blog_post_json post))
    end)).

(** [DELETE /api/blog-posts/:post_id]. *)
Definition delete_blog_post (post_id : string) (rq : request)
    : Db -> response * Db :=
  authenticateToken rq (fun user => handler c (
    ownerCheck <- query (fun d => where_eq BlogPost.post_id post_id (blog_posts d)) ;;
    match ownerCheck with
    | [] => reply (failure c 404 "Blog post not found" None "POST_NOT_FOUND")
    | owner :: _ =>
        if negb (String.eqb (BlogPost.user_id owner) (pr_user_id user)) then
          reply (failure c 403 "Cannot delete another user's blog post" None
                   "FORBIDDEN")
        else
          delete_from blog_posts set_blog_posts BlogPost.post_id post_id ;;;
          reply {| status := 204; body := Empty |}
    end)).

(** [POST /api/projects/:project_id/comments]. *)
Definition create_comment (project_id : string) (rq : request)
    : Db -> response * Db :=
  handler c (
    projectCheck <- query (fun d =>
                      where_eq Project.project_id project_id (projects d)) ;;
    match projectCheck with
    | [] => reply (failure c 404 "Project not found" None "PROJECT_NOT_FOUND")
    | _ :: _ =>
        validatedData <- parsed (createCommentInputSchema
                                   (with_param "project_id" project_id
                                      (req_body rq))) ;;
        let row :=
          {| Comment.comment_id := uuid c;
             Comment.project_id := cc_project_id validatedData;
             Comment.user_name := to_sql (cc_user_name validatedData);
             Comment.content := cc_content validatedData;
             Comment.created_at := now c |} in
        result <- insert_returning (comments_ok row) comments set_comments row ;;
        comment <- first_row result ;;
        reply (json_reply 201 (comment_json comment))
    end).

Definition initial_popular_projects : json := JObj [("popular", JArr [])].

Definition initial_interaction_data : json :=
  JObj [("views", JNum 0); ("comments", JNum 0); ("contacts", JNum 0)].

(** [GET /api/analytics/:user_id], with no statement of another request
    between its own; [analytics_step] has the handler statement by
    statement. *)
Definition get_analytics (user_id : string) (rq : request) : Db -> response * Db :=
  authenticateToken rq (fun user => handler c (
    if negb (String.eqb (pr_user_id user) user_id) then
      reply (failure c 403 "Cannot view another user's analytics" None "FORBIDDEN")
    else
      let select := query (fun d => where_eq Analytics.user_id user_id (analytics d)) in
      first <- select ;;
      result <- match first with
                | [] =>
                    let row :=
                      {| Analytics.analytics_id := uuid c;
                         Analytics.user_id := user_id;
                         Analytics.visit_count := 0;
                         Analytics.popular_projects := Some initial_popular_projects;
                         Analytics.interaction_data :=
                           Some initial_interaction_data |} in
                    insert_returning (analytics_ok row) analytics set_analytics row ;;;
                    select
                | _ :: _ => ret first
                end ;;
      row <- first_row result ;;
      popular <- decode_column (Analytics.popular_projects row)
                   initial_popular_projects ;;
      interaction <- decode_column (Analytics.interaction_data row)
                       initial_interaction_data ;;
      reply (json_reply 200 (analytics_json row popular interaction)))).

(** [POST /api/contact/:user_id]. *)
Definition contact (user_id : string) (rq : request) : Db -> response * Db :=
  handler c (
    userCheck <- query (fun d => where_eq User.user_id user_id (users d)) ;;
    match userCheck with
    | [] => reply (failure c 404 "User not found" None "USER_NOT_FOUND")
    | _ :: _ =>
        validatedData <- parsed (createVisitorMessageInputSchema P
                                   (with_param "user_id" user_id (req_body rq))) ;;
        let row :=
          {| VisitorMessage.message_id := uuid c;
             VisitorMessage.user_id := cv_user_id validatedData;
             VisitorMessage.visitor_email := to_sql (cv_visitor_email validatedData);
             VisitorMessage.visitor_message := cv_visitor_message validatedData;
             VisitorMessage.sent_at := now c |} in
        insert_returning (visitor_messages_ok row) visitor_messages
          set_visitor_messages row ;;;
        execute (Sql.update_interaction_data Sql.contacts_increment user_id) ;;;
        reply (json_reply 200 (message_json "Message sent successfully"))
    end).

(** [POST /api/upload/:type]: [authenticateToken], then
    [upload.single('file')], then the route handler.  An error the upload
    middleware passes on is answered by the framework, as the application
    has no error-handling middleware: status 500 and an error page. *)
Definition upload (type : string) (rq : request) (f : option Upload.file)
    (r : Upload.draw) (d : Db) (disk : list Upload.stored)
    : response * list Upload.stored :=
  match auth_check rq d with
  | inl denied => (denied, disk)
  | inr _ =>
      match Upload.single type r f disk with
      | (inl err, disk') => ({| status := 500; body := ErrorPage err |}, disk')
      | (inr None, disk') =>
          (failure c 400 "No file uploaded" None "NO_FILE_UPLOADED", disk')
      | (inr (Some file), disk') =>
          let fileUrl := "/uploads/" ++ type ++ "/" ++ Upload.filename file in
          (json_reply 200
             (JObj [("url", JStr fileUrl);
                    ("filename", JStr (Upload.filename file));
                    ("originalName", JStr (Upload.original file));
                    ("size", JNum (Upload.length file))]),
           disk')
      end
  end.

End Server.

(* ================================================================== *)
(** ** Routes *)
(* ================================================================== *)

(** The routes of the server that take a JSON body or act on an owned
    resource, with their path parameter. *)
Inductive route : Type :=
| Register
| PasswordReset
| PatchUser (user_id : string)
| PatchSettings (user_id : string)
| CreateProject (user_id : string)
| PatchProject (project_id : string)
| DeleteProject (project_id : string)
| CreateSkill (user_id : string)
| PatchSkill (skill_id : string)
| DeleteSkill (skill_id : string)
| CreateExperience (user_id : string)
| PatchExperience (experience_id : string)
| DeleteExperience (experience_id : string)
| CreateTestimonial (user_id : string)
| PatchTestimonial (testimonial_id : string)
| DeleteTestimonial (testimonial_id : string)
| CreateBlogPost (user_id : string)
| PatchBlogPost (post_id : string)
| DeleteBlogPost (post_id : string)
| CreateComment (project_id : string)
| GetAnalytics (user_id : string)
| Contact (user_id : string).

(** A route on a request whose body the JSON body parser has handed over
    as [req.body]: the middleware of the route and its handler, run with no
    statement of another request in between.  [express_app] puts the body
    parser in front. *)
Definition serve (P : platform) (c : clock) (r : route) (rq : request)
    : Db -> response * Db :=
  match r with
  | Register => register P c rq
  | PasswordReset => password_reset c rq
  | PatchUser u => patch_user P c u rq
  | PatchSettings u => patch_settings P c u rq
  | CreateProject u => create_project P c u rq
  | PatchProject p => patch_project P c p rq
  | DeleteProject p => delete_project P c p rq
  | CreateSkill u => create_skill P c u rq
  | PatchSkill k => patch_skill P c k rq
  | DeleteSkill k => delete_skill P c k rq
  | CreateExperience u => create_experience P c u rq
  | PatchExperience e => patch_experience P c e rq
  | DeleteExperience e => delete_experience P c e rq
  | CreateTestimonial u => create_testimonial P c u rq
  | PatchTestimonial t => patch_testimonial P c t rq
  | DeleteTestimonial t => delete_testimonial P c t rq
  | CreateBlogPost u => create_blog_post P c u rq
  | PatchBlogPost b => patch_blog_post P c b rq
  | DeleteBlogPost b => delete_blog_post P c b rq
  | CreateComment p => create_comment c p rq
  | GetAnalytics u => get_analytics P c u rq
  | Contact u => contact P c u rq
  end.

(** The routes on an owned resource: every one of them is behind
    [authenticateToken] and compares the principal with an owner. *)
Definition owned (r : route) : bool :=
  match r with
  | Register | PasswordReset | CreateComment _ | Contact _ => false
  | _ => true
  end.

(** An owner: a user, or none because the row does not exist ([NoRow]) or
    the route is open to everybody ([Public]). *)
Inductive target : Type :=
| Owner (user_id : string)
| NoRow
| Public.

Definition row_owner {A} (owner : A -> string) (rows : list A) : target :=
  match rows with
  | r :: _ => Owner (owner r)
  | [] => NoRow
  end.

(** The owner the ownership check of a route compares the principal with:
    the path parameter ([req.user.user_id !== user_id]), or the owner of the
    row the path parameter identifies ([ownerCheck.rows[0].user_id]).  On
    the settings update and on the five create routes this is the path
    parameter, while the row that is written is the one the validated
    payload names: see [written_owner]. *)
Definition owner_of (r : route) (d : Db) : target :=
  match r with
  | Register | PasswordReset | CreateComment _ | Contact _ => Public
  | PatchUser u | PatchSettings u | CreateProject u | CreateSkill u
  | CreateExperience u | CreateTestimonial u | CreateBlogPost u
  | GetAnalytics u => Owner u
  | PatchProject p | DeleteProject p =>
      row_owner Project.user_id (where_eq Project.project_id p (projects d))
  | PatchSkill k | DeleteSkill k =>
      row_owner Skill.user_id (where_eq Skill.skill_id k (skills d))
  | PatchExperience e | DeleteExperience e =>
      row_owner Experience.user_id
        (where_eq Experience.experience_id e (experience_timeline d))
  | PatchTestimonial t | DeleteTestimonial t =>
      row_owner Testimonial.user_id
        (where_eq Testimonial.testimonial_id t (testimonials d))
  | PatchBlogPost b | DeleteBlogPost b =>
      row_owner BlogPost.user_id (where_eq BlogPost.post_id b (blog_posts d))
  end.

(** What the route hands to [schema.parse], and whether the schema takes
    it; [None] for a route that parses nothing. *)
Definition validation (P : platform) (r : route) (rq : request) : option bool :=
  let ok {A} (v : option A) := match v with Some _ => true | None => false end in
  let b := req_body rq in
  match r with
  | Register => Some (ok (createUserInputSchema P b))
  | PatchUser u => Some (ok (updateUserProfileInputSchema P (with_param "user_id" u b)))
  | PatchSettings u => Some (ok (createUserSettingsInputSchema (with_param "user_id" u b)))
  | CreateProject u => Some (ok (createProjectInputSchema P (with_param "user_id" u b)))
  | PatchProject _ => Some (ok (createProjectInputSchema P b))
  | CreateSkill u => Some (ok (createSkillInputSchema (with_param "user_id" u b)))
  | PatchSkill _ => Some (ok (createSkillInputSchema b))
  | CreateExperience u =>
      Some (ok (createExperienceTimelineInputSchema P (with_param "user_id" u b)))
  | PatchExperience _ => Some (ok (createExperienceTimelineInputSchema P b))
  | CreateTestimonial u =>
      Some (ok (createTestimonialInputSchema (with_param "user_id" u b)))
  | PatchTestimonial _ => Some (ok (createTestimonialInputSchema b))
  | CreateBlogPost u => Some (ok (createBlogPostInputSchema (with_param "user_id" u b)))
  | PatchBlogPost _ => Some (ok (createBlogPostInputSchema b))
  | CreateComment p => Some (ok (createCommentInputSchema (with_param "project_id" p b)))
  | Contact u => Some (ok (createVisitorMessageInputSchema P (with_param "user_id" u b)))
  | PasswordReset | DeleteProject _ | DeleteSkill _ | DeleteExperience _
  | DeleteTestimonial _ | DeleteBlogPost _ | GetAnalytics _ => None
  end.

(** The stages in front of the validator let the request through: an owned
    route has an authenticated principal who is the owner, a comment has
    its project and a contact message its user. *)
Definition reaches_validator (P : platform) (c : clock) (r : route) (rq : request) (d : Db)
    : bool :=
  match r with
  | Register | PasswordReset => true
  | CreateComment p => present Project.project_id p (projects d)
  | Contact u => present User.user_id u (users d)
  | _ =>
      match authenticated P c rq d, owner_of r d with
      | Some user, Owner o => String.eqb o (pr_user_id user)
      | _, _ => false
      end
  end.

(** The failure kinds of the error taxonomy that the pipeline tells apart;
    [UnknownPrincipal] is a verified credential whose user is gone. *)
Inductive failure_kind : Type :=
| CredentialMissing
| CredentialInvalid
| UnknownPrincipal
| Forbidden
| NotFound
| ValidationError.

(** A request that fails in one of those ways, stage by stage. *)
Inductive rejected (P : platform) (c : clock) (r : route) (rq : request) (d : Db)
    : failure_kind -> Prop :=
| rejected_no_token :
    owned r = true ->
    (token_of rq = None \/ token_of rq = Some "") ->
    rejected P c r rq d CredentialMissing
| rejected_bad_token : forall token,
    owned r = true ->
    token_of rq = Some token -> token <> "" -> jwt_verify P token = None ->
    rejected P c r rq d CredentialInvalid
| rejected_unknown_user : forall token sub,
    owned r = true ->
    token_of rq = Some token -> token <> "" -> jwt_verify P token = Some sub ->
    where_eq User.user_id sub (users d) = [] ->
    rejected P c r rq d UnknownPrincipal
| rejected_not_owner : forall user o,
    authenticated P c rq d = Some user ->
    owner_of r d = Owner o -> o <> pr_user_id user ->
    rejected P c r rq d Forbidden
| rejected_no_row : forall user,
    authenticated P c rq d = Some user ->
    owner_of r d = NoRow ->
    rejected P c r rq d NotFound
| rejected_by_schema :
    reaches_validator P c r rq d = true ->
    validation P r rq = Some false ->
    rejected P c r rq d ValidationError.

(** The status and error code the server answers each kind with. *)
Definition status_of (k : failure_kind) : Z :=
  match k with
  | CredentialMissing => 401
  | CredentialInvalid => 403
  | UnknownPrincipal => 401
  | Forbidden => 403
  | NotFound => 404
  | ValidationError => 500
  end.

Definition not_found_code (r : route) : string :=
  match r with
  | PatchProject _ | DeleteProject _ => "PROJECT_NOT_FOUND"
  | PatchSkill _ | DeleteSkill _ => "SKILL_NOT_FOUND"
  | PatchExperience _ | DeleteExperience _ => "EXPERIENCE_NOT_FOUND"
  | PatchTestimonial _ | DeleteTestimonial _ => "TESTIMONIAL_NOT_FOUND"
  | PatchBlogPost _ | DeleteBlogPost _ => "POST_NOT_FOUND"
  | _ => ""
  end.

Definition code_of (r : route) (k : failure_kind) : string :=
  match k with
  | CredentialMissing => "AUTH_TOKEN_MISSING"
  | CredentialInvalid | UnknownPrincipal => "AUTH_TOKEN_INVALID"
  | Forbidden => "FORBIDDEN"
  | NotFound => not_found_code r
  | ValidationError => "INTERNAL_SERVER_ERROR"
  end.

Definition error_code_of (r : response) : option string :=
  match body r with
  | Failure e => error_code e
  | _ => None
  end.

(* ================================================================== *)
(** ** A concrete platform and the seeded store *)
(* ================================================================== *)

(** An instance of the library checks to run the server on, and the rows
    the schema file seeds the tables with. *)
Module Sample.

Definition email_shape (s : string) : bool :=
  andb (Str.contains "@" s)
       (andb (Str.contains "." s) (negb (Str.contains " " s))).

Definition url_shape (s : string) : bool :=
  orb (Str.starts_with (Str.chars "http://") (Str.chars s))
      (Str.starts_with (Str.chars "https://") (Str.chars s)).

Definition date_of (v : json) : option string :=
  match v with
  | JStr s =>
      match Str.chars s with
      | ch :: _ => if JsonText.is_digit ch then Some s else None
      | [] => None
      end
  | _ => None
  end.

(** Tokens are ["jwt."] followed by the user id. *)
Definition verify (t : string) : option string :=
  if Str.starts_with (Str.chars "jwt.") (Str.chars t)
  then Some (substring 4 (String.length t - 4) t)
  else None.

Definition sign (user_id email : string) : string := "jwt." ++ user_id.

Definition libs : platform :=
  {| is_email := email_shape; is_url := url_shape; coerce_date := date_of;
     jwt_verify := verify; jwt_sign := sign |}.

Definition at_noon : clock :=
  {| now := "2023-10-06T12:00:00.000Z";
     uuid := "7f1c2d3e-0000-4000-8000-000000000001" |}.

Definition later : clock :=
  {| now := "2023-10-06T12:05:00.000Z";
     uuid := "7f1c2d3e-0000-4000-8000-000000000002" |}.

(** A request carrying the token of [user_id]. *)
Definition as_user (user_id : string) (b : json) : request :=
  {| authorization := Some ("Bearer jwt." ++ user_id); req_body := b |}.

Definition anonymous (b : json) : request :=
  {| authorization := None; req_body := b |}.

Definition seed : Db :=
  {| users :=
       [ {| User.user_id := "user1"; User.email := "john.doe@example.com";
            User.password_hash := "password123"; User.name := Some "John Doe";
            User.created_at := "2023-10-05" |};
         {| User.user_id := "user2"; User.email := "jane.smith@example.com";
            User.password_hash := "admin123"; User.name := Some "Jane Smith";
            User.created_at := "2023-10-05" |} ];
     user_profiles :=
       [ {| UserProfile.user_id := "user1";
            UserProfile.profile_picture_url :=
              Some "https://picsum.photos/seed/user1/200";
            UserProfile.cover_image_url :=
              Some "https://picsum.photos/seed/user1cover/800/300";
            UserProfile.bio := Some "This is John Doe's bio.";
            UserProfile.contact_email := Some "john.contact@example.com";
            UserProfile.phone_number := Some "1234567890";
            UserProfile.social_media_links :=
              Some (JObj [("twitter", JStr "https://twitter.com/johndoe")]) |};
         {| UserProfile.user_id := "user2";
            UserProfile.profile_picture_url :=
              Some "https://picsum.photos/seed/user2/200";
            UserProfile.cover_image_url :=
              Some "https://picsum.photos/seed/user2cover/800/300";
            UserProfile.bio := Some "This is Jane Smith's bio.";
            UserProfile.contact_email := Some "jane.contact@example.com";
            UserProfile.phone_number := Some "0987654321";
            UserProfile.social_media_links :=
              Some (JObj [("twitter", JStr "https://twitter.com/janesmith")]) |} ];
     project_templates :=
       [ {| ProjectTemplate.template_id := "template1";
            ProjectTemplate.name := "Portfolio Template";
            ProjectTemplate.layout := "<layout_data>" |};
         {| ProjectTemplate.template_id := "template2";
            ProjectTemplate.name := "Blog Template";
            ProjectTemplate.layout := "<layout_data>" |} ];
     user_settings :=
       [ {| UserSettings.user_id := "user1";
            UserSettings.color_scheme := Some (JObj [("background", JStr "dark")]);
            UserSettings.chosen_template := Some "template1";
            UserSettings.font_selection := Some "Arial" |};
         {| UserSettings.user_id := "user2";
            UserSettings.color_scheme := Some (JObj [("background", JStr "light")]);
            UserSettings.chosen_template := Some "template2";
            UserSettings.font_selection := Some "Helvetica" |} ];
     projects :=
       [ {| Project.project_id := "project1"; Project.user_id := "user1";
            Project.title := "Amazing Project";
            Project.description :=
              Some "This is a description of an amazing project.";
            Project.images :=
              Some (JObj [("images",
                           JArr [JStr "https://picsum.photos/seed/project1/200"])]);
            Project.project_url := Some "https://example.com/amazing-project" |};
         {| Project.project_id := "project2"; Project.user_id := "user2";
            Project.title := "Fantastic Creation";
            Project.description :=
              Some "This is a description of a fantastic creation.";
            Project.images :=
              Some (JObj [("images",
                           JArr [JStr "https://picsum.photos/seed/project2/200"])]);
            Project.project_url := Some "https://example.com/fantastic-creation" |} ];
     skills :=
       [ {| Skill.skill_id := "skill1"; Skill.user_id := "user1";
            Skill.skill_name := "Python"; Skill.proficiency_level := Some 8 |};
         {| Skill.skill_id := "skill2"; Skill.user_id := "user1";
            Skill.skill_name := "JavaScript"; Skill.proficiency_level := Some 7 |} ];
     experience_timeline :=
       [ {| Experience.experience_id := "exp1"; Experience.user_id := "user1";
            Experience.title := "Software Engineer";
            Experience.description :=
              Some "Worked on developing software solutions.";
            Experience.start_date := "2020-01-01";
            Experience.end_date := Some "2022-12-31" |};
         {| Experience.experience_id := "exp2"; Experience.user_id := "user2";
            Experience.title := "Web Developer";
            Experience.description := Some "Created and maintained websites.";
            Experience.start_date := "2019-05-01";
            Experience.end_date := Some "2021-08-31" |} ];
     testimonials :=
       [ {| Testimonial.testimonial_id := "test1"; Testimonial.user_id := "user1";
            Testimonial.client_name := "Acme Corp";
            Testimonial.feedback :=
              Some "John did a fantastic job on our project!" |};
         {| Testimonial.testimonial_id := "test2"; Testimonial.user_id := "user2";
            Testimonial.client_name := "Coding Inc";
            Testimonial.feedback :=
              Some "Jane is a great developer and very professional." |} ];
     blog_posts :=
       [ {| BlogPost.post_id := "post1"; BlogPost.user_id := "user1";
            BlogPost.title := "How to Code";
            BlogPost.content :=
              Some "This blog post explains the basics of coding.";
            BlogPost.created_at := "2023-10-05" |};
         {| BlogPost.post_id := "post2"; BlogPost.user_id := "user2";
            BlogPost.title := "A Guide to Web Development";
            BlogPost.content :=
              Some "This post covers essential tips for web development.";
            BlogPost.created_at := "2023-10-05" |} ];
     comments :=
       [ {| Comment.comment_id := "comment1"; Comment.project_id := "project1";
            Comment.user_name := Some "Alice"; Comment.content := "Great project!";
            Comment.created_at := "2023-10-05" |};
         {| Comment.comment_id := "comment2"; Comment.project_id := "project2";
            Comment.user_name := Some "Bob";
            Comment.content := "Really impressive work.";
            Comment.created_at := "2023-10-05" |} ];
     visitor_messages :=
       [ {| VisitorMessage.message_id := "message1";
            VisitorMessage.user_id := "user1";
            VisitorMessage.visitor_email := Some "alice@example.com";
            VisitorMessage.visitor_message := "Inquiring about your services.";
            VisitorMessage.sent_at := "2023-10-05" |};
         {| VisitorMessage.message_id := "message2";
            VisitorMessage.user_id := "user2";
            VisitorMessage.visitor_email := Some "bob@example.com";
            VisitorMessage.visitor_message :=
              "Interested in collaborating with you.";
            VisitorMessage.sent_at := "2023-10-05" |} ];
     analytics :=
       [ {| Analytics.analytics_id := "analytics1"; Analytics.user_id := "user1";
            Analytics.visit_count := 100;
            Analytics.popular_projects :=
              Some (JObj [("popular", JArr [JStr "project1"])]);
            Analytics.interaction_data :=
              Some (JObj [("clicks", JNum 50); ("likes", JNum 30)]) |};
         {| Analytics.analytics_id := "analytics2"; Analytics.user_id := "user2";
            Analytics.visit_count := 200;
            Analytics.popular_projects :=
              Some (JObj [("popular", JArr [JStr "project2"])]);
            Analytics.interaction_data :=
              Some (JObj [("clicks", JNum 70); ("shares", JNum 20)]) |} ] |}.

(** The seeded store before any analytics row exists. *)
Definition seed_without_analytics : Db := set_analytics [] seed.

End Sample.

(** The requests the properties below are run on. *)
Module Scenario.
Import Sample.

Definition john : Principal :=
  {| pr_user_id := "user1"; pr_email := "john.doe@example.com";
     pr_name := Some "John Doe"; pr_created_at := "2023-10-05" |}.

Definition title_only : json := JObj [("title", JStr "X")].

Definition title_with_owner : json :=
  JObj [("user_id", JStr "user1"); ("title", JStr "X")].

Definition signup (email : string) : json :=
  JObj [("email", JStr email); ("password_hash", JStr "secret"); ("name", JStr "A")].


Definition photo : Upload.file :=
  {| Upload.originalname := "me.PNG"; Upload.mimetype := "image/png";
     Upload.size := 5 * 1024 * 1024 |}.

Definition dice : Upload.draw :=
  {| Upload.date_now := 1696593600000; Upload.random := 123456789 |}.
End Scenario.

(* ================================================================== *)
(** ** Login and the public reads *)
(* ================================================================== *)

(** [ORDER BY]: rows are put in place one by one; [le a b] says that [a]
    may come before [b]. *)
Fixpoint place {A} (le : A -> A -> bool) (x : A) (l : list A) : list A :=
  match l with
  | [] => [x]
  | y :: r => if le x y then x :: l else y :: place le x r
  end.

Definition order_by {A} (le : A -> A -> bool) (l : list A) : list A :=
  fold_right (place le) [] l.

Definition profile_json (r : UserProfile.t) : json :=
  JObj [("user_id", JStr (UserProfile.user_id r));
        ("profile_picture_url", text (UserProfile.profile_picture_url r));
        ("cover_image_url", text (UserProfile.cover_image_url r));
        ("bio", text (UserProfile.bio r));
        ("contact_email", text (UserProfile.contact_email r));
        ("phone_number", text (UserProfile.phone_number r));
        ("social_media_links",
          match UserProfile.social_media_links r with
          | Some j => j
          | None => JNull
          end)].

(** [password !== user.password_hash] is false. *)
Definition same_password (password : option json) (hash : string) : bool :=
  match password with
  | Some (JStr p) => String.eqb p hash
  | _ => false
  end.

(** [projects.map(project => ({...project, images: ...}))]. *)
Fixpoint decode_projects (rows : list Project.t) : M (list json) :=
  match rows with
  | [] => ret []
  | r :: rest =>
      images <- decode_images (Project.images r) ;;
      others <- decode_projects rest ;;
      ret (project_json r images :: others)
  end.

Section Reads.
Variable P : platform.
Variable c : clock.

(** How the store compares two texts in [ORDER BY]: [collate a b] when [a]
    sorts no later than [b]. *)
Variable collate : string -> string -> bool.

(** [POST /api/auth/login]. *)
Definition login (rq : request) : Db -> response * Db :=
  handler c (
    let email := property "email" (req_body rq) in
    let password := property "password" (req_body rq) in
    if orb (falsy email) (falsy password) then
      reply (failure c 400 "Email and password are required" None
               "MISSING_REQUIRED_FIELDS")
    else
      match email with
      | Some (JStr e) =>
          result <- query (fun d =>
                      where_eq User.email (Str.trim (Str.toLowerCase e)) (users d)) ;;
          match result with
          | [] => reply (failure c 400 "Invalid email or password" None
                           "INVALID_CREDENTIALS")
          | user :: _ =>
              if negb (same_password password (User.password_hash user)) then
                reply (failure c 400 "Invalid email or password" None
                         "INVALID_CREDENTIALS")
              else
                let token := jwt_sign P (User.user_id user) (User.email user) in
                reply (json_reply 200
                         (JObj [("user", user_json user); ("token", JStr token)]))
          end
      | _ => throw TypeError
      end).

(** [GET /api/users/:user_id]: the profile joined with its user. *)
Definition get_user (user_id : string) : Db -> response * Db :=
  handler c (
    result <- query (fun d =>
                flat_map (fun up =>
                            map (fun _ => up)
                              (where_eq User.user_id (UserProfile.user_id up) (users d)))
                  (where_eq UserProfile.user_id user_id (user_profiles d))) ;;
    match result with
    | [] => reply (failure c 404 "User not found" None "USER_NOT_FOUND")
    | profile :: _ => reply (json_reply 200 (profile_json profile))
    end).

(** [GET /api/users/:user_id/projects]. *)
Definition get_projects (user_id : string) : Db -> response * Db :=
  handler c (
    result <- query (fun d =>
                order_by (fun a b => collate (Project.title a) (Project.title b))
                  (where_eq Project.user_id user_id (projects d))) ;;
    projects <- decode_projects result ;;
    reply (json_reply 200 (JArr projects))).

(** [GET /api/projects/:project_id]. *)
Definition get_project (project_id : string) : Db -> response * Db :=
  handler c (
    result <- query (fun d => where_eq Project.project_id project_id (projects d)) ;;
    match result with
    | [] => reply (failure c 404 "Project not found" None "PROJECT_NOT_FOUND")
    | project :: _ =>
        images <- decode_images (Project.images project) ;;
        reply (json_reply 200 (project_json project images))
    end).

(** [GET /api/users/:user_id/skills]. *)
Definition get_skills (user_id : string) : Db -> response * Db :=
  handler c (
    result <- query (fun d =>
                order_by (fun a b => collate (Skill.skill_name a) (Skill.skill_name b))
                  (where_eq Skill.user_id user_id (skills d))) ;;
    reply (json_reply 200 (JArr (map skill_json result)))).

(** [GET /api/users/:user_id/experience], latest start first. *)
Definition get_experience (user_id : string) : Db -> response * Db :=
  handler c (
    result <- query (fun d =>
                order_by (fun a b =>
                            collate (Experience.start_date b) (Experience.start_date a))
                  (where_eq Experience.user_id user_id (experience_timeline d))) ;;
    reply (json_reply 200 (JArr (map experience_json result)))).

(** [GET /api/users/:user_id/testimonials]. *)
Definition get_testimonials (user_id : string) : Db -> response * Db :=
  handler c (
    result <- query (fun d =>
                order_by (fun a b =>
                            collate (Testimonial.client_name a)
                              (Testimonial.client_name b))
                  (where_eq Testimonial.user_id user_id (testimonials d))) ;;
    reply (json_reply 200 (JArr (map testimonial_json result)))).

(** [GET /api/users/:user_id/blog-posts], newest first. *)
Definition get_blog_posts (user_id : string) : Db -> response * Db :=
  handler c (
    result <- query (fun d =>
                order_by (fun a b =>
                            collate (BlogPost.created_at b) (BlogPost.created_at a))
                  (where_eq BlogPost.user_id user_id (blog_posts d))) ;;
    reply (json_reply 200 (JArr (map blog_post_json result)))).

(** [GET /api/projects/:project_id/comments], newest first. *)
Definition get_comments (project_id : string) : Db -> response * Db :=
  handler c (
    result <- query (fun d =>
                order_by (fun a b =>
                            collate (Comment.created_at b) (Comment.created_at a))
                  (where_eq Comment.project_id project_id (comments d))) ;;
    reply (json_reply 200 (JArr (map comment_json result)))).

End Reads.

(** [app.use('/uploads', express.static(uploadsDir))]: the file a request
    path under [/uploads/] is read from. *)
Definition served_file (url : string) : option string :=
  if Str.starts_with (Str.chars "/uploads/") (Str.chars url)
  then Some (Upload.uploadsDir ++ "/" ++ substring 9 (String.length url - 9) url)
  else None.

(* ================================================================== *)
(** ** What the schema asks of the store *)
(* ================================================================== *)

(** No two rows of a table share the value of [key]. *)
Definition unique {A} (key : A -> string) (t : list A) : Prop := NoDup (map key t).

(** The primary keys and [UNIQUE (email)]. *)
Record keys_unique (d : Db) : Prop := {
  ku_users : unique User.user_id (users d);
  ku_emails : unique User.email (users d);
  ku_user_profiles : unique UserProfile.user_id (user_profiles d);
  ku_project_templates : unique ProjectTemplate.template_id (project_templates d);
  ku_user_settings : unique UserSettings.user_id (user_settings d);
  ku_projects : unique Project.project_id (projects d);
  ku_skills : unique Skill.skill_id (skills d);
  ku_experience : unique Experience.experience_id (experience_timeline d);
  ku_testimonials : unique Testimonial.testimonial_id (testimonials d);
  ku_blog_posts : unique BlogPost.post_id (blog_posts d);
  ku_comments : unique Comment.comment_id (comments d);
  ku_visitor_messages : unique VisitorMessage.message_id (visitor_messages d);
  ku_analytics : unique Analytics.analytics_id (analytics d)
}.

(** Every row of [t] names a user of [d]. *)
Definition owned_by_users {A} (owner : A -> string) (t : list A) (d : Db) : Prop :=
  Forall (fun r => user_exists (owner r) d = true) t.

(** The [REFERENCES] clauses. *)
Record references_hold (d : Db) : Prop := {
  rh_user_profiles : owned_by_users UserProfile.user_id (user_profiles d) d;
  rh_user_settings : owned_by_users UserSettings.user_id (user_settings d) d;
  rh_templates :
    Forall (fun r => match UserSettings.chosen_template r with
                     | Some t => present ProjectTemplate.template_id t
                                   (project_templates d) = true
                     | None => True
                     end) (user_settings d);
  rh_projects : owned_by_users Project.user_id (projects d) d;
  rh_skills : owned_by_users Skill.user_id (skills d) d;
  rh_experience : owned_by_users Experience.user_id (experience_timeline d) d;
  rh_testimonials : owned_by_users Testimonial.user_id (testimonials d) d;
  rh_blog_posts : owned_by_users BlogPost.user_id (blog_posts d) d;
  rh_comments :
    Forall (fun r => present Project.project_id (Comment.project_id r) (projects d)
                     = true) (comments d);
  rh_visitor_messages : owned_by_users VisitorMessage.user_id (visitor_messages d) d;
  rh_analytics : owned_by_users Analytics.user_id (analytics d) d
}.

(** The statements of the handlers that write, each with what the store
    checks or the handler has established when it runs. *)
Inductive write (d : Db) : Db -> Prop :=
| write_user : forall row,
    users_ok row d = true ->
    write d (set_users (users d ++ [row]) d)
| write_user_profile : forall row,
    user_profiles_ok row d = true ->
    write d (set_user_profiles (user_profiles d ++ [row]) d)
| write_profile_columns : forall k f,
    (forall r, UserProfile.user_id (f r) = UserProfile.user_id r) ->
    write d (set_user_profiles (update_where UserProfile.user_id k f (user_profiles d)) d)
| write_user_settings : forall row d',
    upsert_user_settings row d = Some d' ->
    write d d'
| write_project : forall row,
    projects_ok row d = true ->
    write d (set_projects (projects d ++ [row]) d)
| write_project_columns : forall k v,
    write d (set_projects
               (update_where Project.project_id k (overwrite v) (projects d)) d)
| write_no_comments : forall k,
    write d (set_comments (delete_where Comment.project_id k (comments d)) d)
| write_no_project : forall k d',
    delete_project_row k d = Some d' ->
    write d d'
| write_skill : forall row,
    skills_ok row d = true ->
    write d (set_skills (skills d ++ [row]) d)
| write_skill_columns : forall k f,
    (forall r, Skill.skill_id (f r) = Skill.skill_id r /\
               Skill.user_id (f r) = Skill.user_id r) ->
    write d (set_skills (update_where Skill.skill_id k f (skills d)) d)
| write_no_skill : forall k,
    write d (set_skills (delete_where Skill.skill_id k (skills d)) d)
| write_experience : forall row,
    experience_ok row d = true ->
    write d (set_experience_timeline (experience_timeline d ++ [row]) d)
| write_experience_columns : forall k f,
    (forall r, Experience.experience_id (f r) = Experience.experience_id r /\
               Experience.user_id (f r) = Experience.user_id r) ->
    write d (set_experience_timeline
               (update_where Experience.experience_id k f (experience_timeline d)) d)
| write_no_experience : forall k,
    write d (set_experience_timeline
               (delete_where Experience.experience_id k (experience_timeline d)) d)
| write_testimonial : forall row,
    testimonials_ok row d = true ->
    write d (set_testimonials (testimonials d ++ [row]) d)
| write_testimonial_columns : forall k f,
    (forall r, Testimonial.testimonial_id (f r) = Testimonial.testimonial_id r /\
               Testimonial.user_id (f r) = Testimonial.user_id r) ->
    write d (set_testimonials
               (update_where Testimonial.testimonial_id k f (testimonials d)) d)
| write_no_testimonial : forall k,
    write d (set_testimonials
               (delete_where Testimonial.testimonial_id k (testimonials d)) d)
| write_blog_post : forall row,
    blog_posts_ok row d = true ->
    write d (set_blog_posts (blog_posts d ++ [row]) d)
| write_blog_post_columns : forall k f,
    (forall r, BlogPost.post_id (f r) = BlogPost.post_id r /\
               BlogPost.user_id (f r) = BlogPost.user_id r) ->
    write d (set_blog_posts (update_where BlogPost.post_id k f (blog_posts d)) d)
| write_no_blog_post : forall k,
    write d (set_blog_posts (delete_where BlogPost.post_id k (blog_posts d)) d)
| write_comment : forall row,
    comments_ok row d = true ->
    write d (set_comments (comments d ++ [row]) d)
| write_visitor_message : forall row,
    visitor_messages_ok row d = true ->
    write d (set_visitor_messages (visitor_messages d ++ [row]) d)
| write_analytics : forall row,
    analytics_ok row d = true ->
    where_eq Analytics.user_id (Analytics.user_id row) (analytics d) = [] ->
    write d (set_analytics (analytics d ++ [row]) d).

(** A run of such statements. *)
Inductive writes (d : Db) : Db -> Prop :=
| writes_none : writes d d
| writes_more : forall d1 d2, write d d1 -> writes d1 d2 -> writes d d2.

(** The routes that only ever touch rows of the principal: the profile
    update, update and delete of a row, and the analytics read. *)
Definition isolating (r : route) : bool :=
  match r with
  | PatchUser _ | GetAnalytics _
  | PatchProject _ | DeleteProject _ | PatchSkill _ | DeleteSkill _
  | PatchExperience _ | DeleteExperience _ | PatchTestimonial _
  | DeleteTestimonial _ | PatchBlogPost _ | DeleteBlogPost _ => true
  | _ => false
  end.

(** The rows of [t] that belong to somebody other than [u]. *)
Definition of_others {A} (owner : A -> string) (u : string) (t : list A) : list A :=
  filter (fun r => negb (String.eqb (owner r) u)) t.

(** The keys of the body a route's schema reads. *)
Definition schema_keys (r : route) : list string :=
  match r with
  | Register => ["email"; "password_hash"; "name"]
  | PasswordReset => ["email"]
  | PatchUser _ =>
      ["user_id"; "profile_picture_url"; "cover_image_url"; "bio"; "contact_email";
       "phone_number"; "social_media_links"]
  | PatchSettings _ => ["user_id"; "color_scheme"; "chosen_template"; "font_selection"]
  | CreateProject _ | PatchProject _ =>
      ["user_id"; "title"; "description"; "images"; "project_url"]
  | CreateSkill _ | PatchSkill _ => ["user_id"; "skill_name"; "proficiency_level"]
  | CreateExperience _ | PatchExperience _ =>
      ["user_id"; "title"; "description"; "start_date"; "end_date"]
  | CreateTestimonial _ | PatchTestimonial _ => ["user_id"; "client_name"; "feedback"]
  | CreateBlogPost _ | PatchBlogPost _ => ["user_id"; "title"; "content"]
  | CreateComment _ => ["project_id"; "user_name"; "content"]
  | Contact _ => ["user_id"; "visitor_email"; "visitor_message"]
  | DeleteProject _ | DeleteSkill _ | DeleteExperience _ | DeleteTestimonial _
  | DeleteBlogPost _ | GetAnalytics _ => []
  end.

(** What a principal [u] cannot call its own: the rows of the owned tables
    that belong to other users, the users and the messages. *)
Record foreign := {
  f_users : list User.t;
  f_user_profiles : list UserProfile.t;
  f_user_settings : list UserSettings.t;
  f_projects : list Project.t;
  f_skills : list Skill.t;
  f_experience : list Experience.t;
  f_testimonials : list Testimonial.t;
  f_blog_posts : list BlogPost.t;
  f_visitor_messages : list VisitorMessage.t;
  f_analytics : list Analytics.t
}.

Definition foreign_rows (u : string) (d : Db) : foreign :=
  {| f_users := users d;
     f_user_profiles := of_others UserProfile.user_id u (user_profiles d);
     f_user_settings := of_others UserSettings.user_id u (user_settings d);
     f_projects := of_others Project.user_id u (projects d);
     f_skills := of_others Skill.user_id u (skills d);
     f_experience := of_others Experience.user_id u (experience_timeline d);
     f_testimonials := of_others Testimonial.user_id u (testimonials d);
     f_blog_posts := of_others BlogPost.user_id u (blog_posts d);
     f_visitor_messages := visitor_messages d;
     f_analytics := of_others Analytics.user_id u (analytics d) |}.

(** What a column holds after a partial update: left alone when the field
    is absent, emptied when it is [null], replaced otherwise. *)
Definition keep_or {A} (field : maybe A) (old : option A) : option A :=
  match field with
  | Missing => old
  | IsNull => None
  | Has a => Some a
  end.

Definition string_field (m : maybe string) : maybe json :=
  match m with
  | Missing => Missing
  | IsNull => IsNull
  | Has s => Has (JStr s)
  end.

(** The profile row [INSERT INTO user_profiles (user_id)] creates. *)
Definition blank_profile (user_id : string) : UserProfile.t :=
  {| UserProfile.user_id := user_id;
     UserProfile.profile_picture_url := None;
     UserProfile.cover_image_url := None;
     UserProfile.bio := None;
     UserProfile.contact_email := None;
     UserProfile.phone_number := None;
     UserProfile.social_media_links := None |}.

(** The row [INSERT INTO users] of the registration handler sends. *)
Definition registered (c : clock) (v : CreateUserInput) : User.t :=
  {| User.user_id := uuid c;
     User.email := Str.trim (Str.toLowerCase (cu_email v));
     User.password_hash := cu_password_hash v;
     User.name := match cu_name v with
                  | Has n => if String.eqb n "" then None else Some n
                  | _ => None
                  end;
     User.created_at := now c |}.

(** A login request. *)
Definition credentials (email password : string) : json :=
  JObj [("email", JStr email); ("password", JStr password)].

(** A profile row after a partial update with the validated payload [v]. *)
Definition merged (v : UpdateUserProfileInput) (r : UserProfile.t) : UserProfile.t :=
  {| UserProfile.user_id := UserProfile.user_id r;
     UserProfile.profile_picture_url :=
       keep_or (up_profile_picture_url v) (UserProfile.profile_picture_url r);
     UserProfile.cover_image_url :=
       keep_or (up_cover_image_url v) (UserProfile.cover_image_url r);
     UserProfile.bio := keep_or (up_bio v) (UserProfile.bio r);
     UserProfile.contact_email :=
       keep_or (up_contact_email v) (UserProfile.contact_email r);
     UserProfile.phone_number :=
       keep_or (up_phone_number v) (UserProfile.phone_number r);
     UserProfile.social_media_links :=
       keep_or (up_social_media_links v) (UserProfile.social_media_links r) |}.

(** The columns of [user_profiles] a profile update can set. *)
Definition profile_columns : list string :=
  ["profile_picture_url"; "cover_image_url"; "bio"; "contact_email"; "phone_number";
   "social_media_links"].

(** The row [INSERT INTO projects] of the create handler sends. *)
Definition new_project (c : clock) (v : CreateProjectInput) : Project.t :=
  {| Project.project_id := uuid c;
     Project.user_id := cp_user_id v;
     Project.title := cp_title v;
     Project.description := to_sql (cp_description v);
     Project.images := imagesJson (cp_images v);
     Project.project_url := to_sql (cp_project_url v) |}.

(** The row [INSERT INTO comments] sends. *)
Definition new_comment (c : clock) (v : CreateCommentInput) : Comment.t :=
  {| Comment.comment_id := uuid c;
     Comment.project_id := cc_project_id v;
     Comment.user_name := to_sql (cc_user_name v);
     Comment.content := cc_content v;
     Comment.created_at := now c |}.

(** The routes that insert a row of an owned table. *)
Definition creating (r : route) : bool :=
  match r with
  | CreateProject _ | CreateSkill _ | CreateExperience _ | CreateTestimonial _
  | CreateBlogPost _ => true
  | _ => false
  end.

(** The update route of the row a create route has inserted under [id]. *)
Definition its_row (r : route) (id : string) : route :=
  match r with
  | CreateProject _ => PatchProject id
  | CreateSkill _ => PatchSkill id
  | CreateExperience _ => PatchExperience id
  | CreateTestimonial _ => PatchTestimonial id
  | CreateBlogPost _ => PatchBlogPost id
  | _ => r
  end.

(** A list read answers 200 with the rows [mine], each once, in an order
    that respects [before]. *)
Definition lists {A} (answer : response * Db) (d : Db) (encode : A -> json)
    (mine : list A) (before : A -> A -> Prop) : Prop :=
  exists rows,
    answer = (json_reply 200 (JArr (map encode rows)), d) /\
    Permutation rows mine /\
    Sorted before rows.

(** The responses of the catalogue: a JSON body with 200 or 201, no body
    with 204, an error response that carries an error code, with the
    details of a caught error on a 500 and on the 403 of a token that does
    not verify, and without details on 400, 401, 403 and 404, or the error
    page of the framework with the 400 or the 413 of the body parser. *)
Definition catalogued (r : response) : bool :=
  match body r with
  | Body _ => orb (status r =? 200) (status r =? 201)
  | Empty => status r =? 204
  | Failure e =>
      match error_code e, details e with
      | None, _ => false
      | Some _, Some _ => orb (status r =? 500) (status r =? 403)
      | Some _, None => existsb (Z.eqb (status r)) [400; 401; 403; 404]
      end
  | ErrorPage _ => orb (status r =? 400) (status r =? 413)
  end.

(** A statement that never sends the response itself. *)
Definition silent {A} (m : M A) : Prop :=
  forall d, match fst (m d) with Reply _ => False | _ => True end.

(** A handler body whose response, when it gets to one, satisfies [Q]. *)
Definition finishes (Q : response -> bool) (h : M response) : Prop :=
  forall d, match fst (h d) with
            | Next r | Reply r => Q r = true
            | Throw _ => True
            end.

(** A statement that leaves the store alone. *)
Definition reads {A} (m : M A) : Prop := forall d, snd (m d) = d.

(** A handler body all of whose runs are runs of [write] statements. *)
Definition effects {A} (m : M A) : Prop := forall d, writes d (snd (m d)).

(** The row the settings upsert sends. *)
Definition settings_row (v : CreateUserSettingsInput) : UserSettings.t :=
  {| UserSettings.user_id := cs_user_id v;
     UserSettings.color_scheme := to_sql (cs_color_scheme v);
     UserSettings.chosen_template := to_sql (cs_chosen_template v);
     UserSettings.font_selection := to_sql (cs_font_selection v) |}.



(* ================================================================== *)
(** ** The analytics read, statement by statement *)
(* ================================================================== *)

(** The row the analytics read inserts for a user who has none. *)
Definition zero_analytics (c : clock) (user_id : string) : Analytics.t :=
  {| Analytics.analytics_id := uuid c;
     Analytics.user_id := user_id;
     Analytics.visit_count := 0;
     Analytics.popular_projects := Some initial_popular_projects;
     Analytics.interaction_data := Some initial_interaction_data |}.

(** Where the handler of [GET /api/analytics/:user_id] stands between two
    of its [await pool.query(...)], once [authenticateToken] and the
    comparison with the path parameter have let the request through: about
    to run the first [SELECT], the [INSERT], the second [SELECT], or done
    with the response sent. *)
Inductive analytics_task : Type :=
| FirstSelect
| Insert
| SecondSelect
| Sent (r : response).

(** From [result.rows] to the response, inside the [try]. *)
Definition analytics_answer (c : clock) (rows : list Analytics.t)
    : Db -> response * Db :=
  handler c (
    row <- first_row rows ;;
    popular <- decode_column (Analytics.popular_projects row)
                 initial_popular_projects ;;
    interaction <- decode_column (Analytics.interaction_data row)
                     initial_interaction_data ;;
    reply (json_reply 200 (analytics_json row popular interaction))).

(** One statement of the handler on the store as it is when the statement
    runs; another request may have run statements since the previous one. *)
Definition analytics_step (c : clock) (user_id : string) (t : analytics_task)
    (d : Db) : analytics_task * Db :=
  match t with
  | FirstSelect =>
      match where_eq Analytics.user_id user_id (analytics d) with
      | [] => (Insert, d)
      | rows => (Sent (fst (analytics_answer c rows d)), d)
      end
  | Insert =>
      if analytics_ok (zero_analytics c user_id) d
      then (SecondSelect,
            set_analytics (analytics d ++ [zero_analytics c user_id])%list d)
      else (Sent (failure c 500 "Internal server error" (Some DatabaseError)
                    "INTERNAL_SERVER_ERROR"), d)
  | SecondSelect =>
      (Sent (fst (analytics_answer c
                    (where_eq Analytics.user_id user_id (analytics d)) d)), d)
  | Sent r => (Sent r, d)
  end.

(** [n] statements in a row, with no other request in between. *)
Fixpoint analytics_run (c : clock) (user_id : string) (n : nat)
    (t : analytics_task) (d : Db) : analytics_task * Db :=
  match n with
  | O => (t, d)
  | S n' => let (t', d') := analytics_step c user_id t d in
            analytics_run c user_id n' t' d'
  end.

(* ================================================================== *)
(** ** The body parser in front of the routes *)
(* ================================================================== *)

(** What reaches [app.use(express.json({ limit: "5mb" }))] from a request to
    one of the routes: the [Authorization] header and the text of the body,
    sent as [application/json] in UTF-8 and not compressed (the empty text
    for a request without a body). *)
Record arrival := { sent_authorization : option string; sent_text : string }.

(** [limit: "5mb"], in bytes. *)
Definition body_limit : Z := 5 * 1024 * 1024.

(** The first character of the text that is not a space, a tab, a line feed
    or a carriage return. *)
Fixpoint first_char (l : list ascii) : option ascii :=
  match l with
  | [] => None
  | ch :: r =>
      if orb (orb (Ascii.eqb ch " ") (Ascii.eqb ch "009"))
             (orb (Ascii.eqb ch "010") (Ascii.eqb ch "013"))
      then first_char r
      else Some ch
  end.

(** The JSON body parser in its default strict mode, with [reader] for the
    [JSON.parse] it calls: a text over the limit is refused with 413; the
    empty text gives [{}]; a text that does not start with an object or an
    array, or that [reader] does not take, is refused with 400.  A refusal
    goes to [next(err)], and as the application has no error-handling
    middleware the framework answers with the status of the error and an
    error page. *)
Definition express_json (reader : string -> option json) (a : arrival)
    : response + request :=
  let parsed_as (b : json) : response + request :=
    inr {| authorization := sent_authorization a; req_body := b |} in
  let refused : response + request :=
    inl {| status := 400; body := ErrorPage SyntaxError |} in
  if body_limit <? Z.of_nat (String.length (sent_text a)) then
    inl {| status := 413; body := ErrorPage (Error_ "request entity too large") |}
  else if String.eqb (sent_text a) "" then parsed_as (JObj [])
  else
    match first_char (Str.chars (sent_text a)) with
    | Some ch =>
        if orb (Ascii.eqb ch "{") (Ascii.eqb ch "[") then
          match reader (sent_text a) with
          | Some b => parsed_as b
          | None => refused
          end
        else refused
    | None => refused
    end.

(** A request to route [r] as the application answers it: the body parser,
    then the route.  The middleware registered before it (request logging,
    the CORS headers, the static files of [public], which hold nothing under
    [/api]) passes such a request on. *)
Definition express_app (P : platform) (c : clock) (reader : string -> option json)
    (r : route) (a : arrival) : Db -> response * Db :=
  fun d =>
    match express_json reader a with
    | inl page => (page, d)
    | inr rq => serve P c r rq d
    end.


(** The owner of the row a request writes where that is not the owner the
    route compares the principal with: the settings update and the five
    create routes write the row of [validatedData.user_id], which is the
    [user_id] of the body when the body has one. *)
Definition written_owner (P : platform) (r : route) (rq : request) (d : Db) : target :=
  let named {A} (user_id : A -> string) (v : option A) (u : string) : target :=
    match v with Some x => Owner (user_id x) | None => Owner u end in
  let b := req_body rq in
  match r with
  | PatchSettings u =>
      named cs_user_id (createUserSettingsInputSchema (with_param "user_id" u b)) u
  | CreateProject u =>
      named cp_user_id (createProjectInputSchema P (with_param "user_id" u b)) u
  | CreateSkill u =>
      named ck_user_id (createSkillInputSchema (with_param "user_id" u b)) u
  | CreateExperience u =>
      named ce_user_id
        (createExperienceTimelineInputSchema P (with_param "user_id" u b)) u
  | CreateTestimonial u =>
      named ct_user_id (createTestimonialInputSchema (with_param "user_id" u b)) u
  | CreateBlogPost u =>
      named cb_user_id (createBlogPostInputSchema (with_param "user_id" u b)) u
  | _ => owner_of r d
  end.

(* ================================================================== *)
(** ** Properties *)
(* ================================================================== *)

Unset Implicit Arguments.

(** *** Tables and strings *)

Lemma eqb_differs (a b : string) : a <> b -> String.eqb a b = false.
Proof. intro H. now apply String.eqb_neq. Qed.

Lemma eqb_sym_true (a b : string) : String.eqb a b = true -> String.eqb b a = true.
Proof. rewrite String.eqb_sym. auto. Qed.


Lemma row_owner_inv {A} (owner : A -> string) rows o :
  row_owner owner rows = Owner o -> exists r rest, rows = r :: rest /\ owner r = o.
Proof.
  destruct rows as [|r rest]; simpl; intro H; [discriminate|].
  inversion H. eauto.
Qed.

Lemma row_owner_none {A} (owner : A -> string) rows :
  row_owner owner rows = NoRow -> rows = [].
Proof. destruct rows; simpl; [reflexivity | discriminate]. Qed.

Lemma present_where_eq {A} (key : A -> string) k t :
  present key k t = true -> exists r rest, where_eq key k t = r :: rest.
Proof.
  induction t as [|x t IH]; simpl; [discriminate|].
  destruct (String.eqb (key x) k); simpl; eauto.
Qed.

Lemma where_eq_delete_where {A} (key : A -> string) k t :
  where_eq key k (delete_where key k t) = [].
Proof.
  unfold where_eq, delete_where. induction t as [|x t IH]; simpl; [reflexivity|].
  destruct (String.eqb (key x) k) eqn:E; simpl; [exact IH|].
  now rewrite E.
Qed.

Lemma present_delete_where {A} (key : A -> string) k t :
  present key k (delete_where key k t) = false.
Proof.
  unfold present, delete_where. induction t as [|x t IH]; simpl; [reflexivity|].
  destruct (String.eqb (key x) k) eqn:E; simpl; [exact IH|].
  now rewrite E.
Qed.

Lemma where_eq_update_where {A} (key : A -> string) k (f : A -> A) t :
  (forall r, key (f r) = key r) ->
  where_eq key k (update_where key k f t) = map f (where_eq key k t).
Proof.
  intro Hk. unfold where_eq, update_where.
  induction t as [|x t IH]; simpl; [reflexivity|].
  destruct (String.eqb (key x) k) eqn:E.
  - rewrite Hk, E. simpl. now rewrite IH.
  - rewrite E. exact IH.
Qed.

Lemma update_where_twice {A} (key : A -> string) k (f : A -> A) t :
  (forall r, key (f r) = key r) -> (forall r, f (f r) = f r) ->
  update_where key k f (update_where key k f t) = update_where key k f t.
Proof.
  intros Hk Hf. unfold update_where. rewrite map_map. apply map_ext. intro r.
  destruct (String.eqb (key r) k) eqn:E.
  - rewrite Hk, E. apply Hf.
  - now rewrite E.
Qed.

(** *** The middleware *)

Lemma authenticated_check P c rq d user :
  authenticated P c rq d = Some user -> auth_check P c rq d = inr user.
Proof.
  unfold authenticated. destruct (auth_check P c rq d); congruence.
Qed.

Ltac enter_handler H :=
  unfold authenticateToken; rewrite (authenticated_check _ _ _ _ _ H);
  unfold handler, try_catch, bind, query, reply; cbv beta iota.

Ltac unfold_routes :=
  unfold register, password_reset, patch_user, patch_settings, create_project,
    patch_project, delete_project, create_skill, patch_skill, delete_skill,
    create_experience, patch_experience, delete_experience, create_testimonial,
    patch_testimonial, delete_testimonial, create_blog_post, patch_blog_post,
    delete_blog_post, create_comment, get_analytics, contact.

Lemma no_token_check P c rq d :
  token_of rq = None \/ token_of rq = Some "" ->
  auth_check P c rq d =
    inl (failure c 401 "Access token required" None "AUTH_TOKEN_MISSING").
Proof.
  unfold auth_check. intros [-> | ->]; reflexivity.
Qed.

Lemma bad_token_check P c rq d token :
  token_of rq = Some token -> token <> "" -> jwt_verify P token = None ->
  auth_check P c rq d =
    inl (failure c 403 "Invalid or expired token" (Some JsonWebTokenError)
           "AUTH_TOKEN_INVALID").
Proof.
  unfold auth_check. intros -> Hne ->. now rewrite (eqb_differs _ _ Hne).
Qed.

Lemma unknown_user_check P c rq d token sub :
  token_of rq = Some token -> token <> "" -> jwt_verify P token = Some sub ->
  where_eq User.user_id sub (users d) = [] ->
  auth_check P c rq d = inl (failure c 401 "Invalid token" None "AUTH_TOKEN_INVALID").
Proof.
  unfold auth_check. intros -> Hne -> ->. now rewrite (eqb_differs _ _ Hne).
Qed.

Lemma denied_status P c rq d resp :
  auth_check P c rq d = inl resp -> status resp = 401 \/ status resp = 403.
Proof.
  unfold auth_check.
  destruct (token_of rq) as [token|]; [|intro H; inversion H; simpl; auto].
  destruct (String.eqb token ""); [intro H; inversion H; simpl; auto|].
  destruct (jwt_verify P token); [|intro H; inversion H; simpl; auto].
  destruct (where_eq User.user_id s (users d)); intro H; inversion H; simpl; auto.
Qed.

(** An owned route never gets past a request the middleware turns down. *)
Lemma denied_response P c r rq d resp :
  owned r = true -> auth_check P c rq d = inl resp ->
  serve P c r rq d = (resp, d).
Proof.
  intros Ho Hd.
  destruct r; simpl in Ho; try discriminate; simpl serve; unfold_routes;
    unfold authenticateToken; rewrite Hd; reflexivity.
Qed.

(** Whatever a handler body throws is answered with status 500. *)
Lemma thrown_is_500 c (h : M response) d e d' :
  h d = (Throw e, d') ->
  handler c h d =
    (failure c 500 "Internal server error" (Some e) "INTERNAL_SERVER_ERROR", d').
Proof. unfold handler, try_catch. now intros ->. Qed.

(** *** Ownership and existence *)

(** The comparison with the owner comes before the body is looked at. *)
Lemma forbidden_response P c r rq d user o :
  authenticated P c rq d = Some user ->
  owner_of r d = Owner o ->
  o <> pr_user_id user ->
  exists msg, serve P c r rq d = (failure c 403 msg None "FORBIDDEN", d).
Proof.
  intros Hauth Hown Hneq.
  destruct r; simpl in Hown; try discriminate;
    try (injection Hown as ->);
    try (apply row_owner_inv in Hown; destruct Hown as (row & rest & Hrows & <-));
    simpl serve; unfold_routes; enter_handler Hauth.
  all: try (rewrite (eqb_differs _ _ (not_eq_sym Hneq)); eexists; reflexivity).
  all: rewrite Hrows; rewrite (eqb_differs _ _ Hneq); eexists; reflexivity.
Qed.

(** So does the lookup of the row. *)
Lemma not_found_response P c r rq d user :
  authenticated P c rq d = Some user ->
  owner_of r d = NoRow ->
  exists msg, serve P c r rq d = (failure c 404 msg None (not_found_code r), d).
Proof.
  intros Hauth Hown.
  destruct r; simpl in Hown; try discriminate;
    apply row_owner_none in Hown;
    simpl serve; unfold_routes; enter_handler Hauth;
    rewrite Hown; eexists; reflexivity.
Qed.

(** What the ownership checks do enforce: on every route that acts on an
    owned resource, a request of an authenticated principal whose id differs
    from the owner the route compares it with is answered 403 [FORBIDDEN]
    and the store is left as it was, whatever the body of the request is. *)
Lemma ownership_forbidden P c r rq d user o :
  authenticated P c rq d = Some user ->
  owner_of r d = Owner o ->
  o <> pr_user_id user ->
  status (fst (serve P c r rq d)) = 403 /\
  error_code_of (fst (serve P c r rq d)) = Some "FORBIDDEN" /\
  snd (serve P c r rq d) = d.
Proof.
  intros Hauth Hown Hneq.
  destruct (forbidden_response P c r rq d user o Hauth Hown Hneq) as [msg E].
  rewrite E. repeat split; reflexivity.
Qed.

(** The second seeded user's project, deleted by the first one. *)
Lemma ownership_forbidden_witness :
  authenticated Sample.libs Sample.at_noon
    (Sample.as_user "user1" (JObj [])) Sample.seed = Some Scenario.john /\
  owner_of (DeleteProject "project2") Sample.seed = Owner "user2" /\
  "user2" <> pr_user_id Scenario.john /\
  status (fst (serve Sample.libs Sample.at_noon (DeleteProject "project2")
                 (Sample.as_user "user1" (JObj [])) Sample.seed)) = 403 /\
  error_code_of (fst (serve Sample.libs Sample.at_noon (DeleteProject "project2")
                        (Sample.as_user "user1" (JObj [])) Sample.seed))
    = Some "FORBIDDEN" /\
  snd (serve Sample.libs Sample.at_noon (DeleteProject "project2")
         (Sample.as_user "user1" (JObj [])) Sample.seed) = Sample.seed.
Proof.
  split; [reflexivity|]. split; [reflexivity|]. split; [discriminate|].
  apply (ownership_forbidden Sample.libs Sample.at_noon (DeleteProject "project2")
           (Sample.as_user "user1" (JObj [])) Sample.seed Scenario.john "user2");
    [reflexivity | reflexivity | discriminate].
Defined.

(** C2. On update and delete of a project, skill, experience, testimonial
    or blog post, a path parameter that names no row is answered 404 with
    the store unchanged, for every authenticated principal: the lookup comes
    before the comparison with the owner, so nobody gets 403 for a missing
    resource. *)
Theorem missing_resource_not_found P c r rq d user :
  authenticated P c rq d = Some user ->
  owner_of r d = NoRow ->
  status (fst (serve P c r rq d)) = 404 /\
  error_code_of (fst (serve P c r rq d)) = Some (not_found_code r) /\
  snd (serve P c r rq d) = d.
Proof.
  intros Hauth Hown.
  destruct (not_found_response P c r rq d user Hauth Hown) as [msg E].
  rewrite E. destruct r; simpl in Hown; try discriminate; repeat split; reflexivity.
Qed.

(** A skill id that is not in the seeded store. *)
Lemma missing_resource_not_found_witness :
  authenticated Sample.libs Sample.at_noon
    (Sample.as_user "user1" Scenario.title_only) Sample.seed = Some Scenario.john /\
  owner_of (PatchSkill "skill9") Sample.seed = NoRow /\
  status (fst (serve Sample.libs Sample.at_noon (PatchSkill "skill9")
                 (Sample.as_user "user1" Scenario.title_only) Sample.seed)) = 404 /\
  error_code_of (fst (serve Sample.libs Sample.at_noon (PatchSkill "skill9")
                        (Sample.as_user "user1" Scenario.title_only) Sample.seed))
    = Some "SKILL_NOT_FOUND" /\
  snd (serve Sample.libs Sample.at_noon (PatchSkill "skill9")
         (Sample.as_user "user1" Scenario.title_only) Sample.seed) = Sample.seed.
Proof.
  split; [reflexivity|]. split; [reflexivity|].
  apply (missing_resource_not_found Sample.libs Sample.at_noon (PatchSkill "skill9")
           (Sample.as_user "user1" Scenario.title_only) Sample.seed Scenario.john);
    reflexivity.
Defined.

(** The row [PATCH /api/users/:user_id/settings] writes is the one named by
    [user_id] in the body when the body has that key. *)
Lemma settings_row_named_by_body :
  let rq := Sample.as_user "user1"
              (JObj [("user_id", JStr "user2"); ("font_selection", JStr "Courier")]) in
  let res := patch_settings Sample.libs Sample.at_noon "user1" rq Sample.seed in
  status (fst res) = 200 /\
  where_eq UserSettings.user_id "user2" (user_settings (snd res)) =
    [ {| UserSettings.user_id := "user2"; UserSettings.color_scheme := None;
         UserSettings.chosen_template := None;
         UserSettings.font_selection := Some "Courier" |} ].
Proof. vm_compute. split; reflexivity. Qed.

(** *** Validation and the error mapping *)

Lemma reaches_validator_owned P c r rq d :
  owned r = true -> reaches_validator P c r rq d = true ->
  exists user o, authenticated P c rq d = Some user /\ owner_of r d = Owner o /\
                 String.eqb o (pr_user_id user) = true.
Proof.
  intros Ho Ha.
  assert (H : match authenticated P c rq d, owner_of r d with
              | Some user, Owner o => String.eqb o (pr_user_id user)
              | _, _ => false
              end = true).
  { destruct r; simpl in Ho; try discriminate; exact Ha. }
  destruct (authenticated P c rq d) as [user|]; [|discriminate].
  destruct (owner_of r d) as [o| |]; try discriminate.
  eauto.
Qed.

(** [schema.parse] throws inside the [try] of the handler. *)
Lemma schema_rejection_response P c r rq d :
  reaches_validator P c r rq d = true ->
  validation P r rq = Some false ->
  fst (serve P c r rq d) =
    failure c 500 "Internal server error" (Some ZodError) "INTERNAL_SERVER_ERROR" /\
  snd (serve P c r rq d) = d.
Proof.
  intros Ha Hv.
  destruct (owned r) eqn:Ho.
  - destruct (reaches_validator_owned _ _ _ _ _ Ho Ha) as (user & o & Hauth & Hown & Heq).
    destruct r; simpl in Ho, Hv; try discriminate; simpl in Hown;
      try (injection Hown as <-);
      try (apply row_owner_inv in Hown; destruct Hown as (row & rest & Hrows & <-));
      simpl serve; unfold_routes; enter_handler Hauth.
    all: try rewrite Hrows.
    all: try rewrite Heq; try rewrite (eqb_sym_true _ _ Heq); cbv beta iota; simpl negb; cbv iota.
    all: match type of Hv with
         | Some (match ?e with _ => _ end) = _ => destruct e; [discriminate|]
         end.
    all: simpl; auto.
  - destruct r; simpl in Ho, Hv; try discriminate; simpl serve; unfold_routes;
      unfold handler, try_catch, bind, query, reply; cbv beta iota.
    + destruct (createUserInputSchema P (req_body rq)); [discriminate|]. simpl; auto.
    + simpl in Ha. apply present_where_eq in Ha. destruct Ha as (x & rest & ->).
      match type of Hv with
      | Some (match ?e with _ => _ end) = _ => destruct e; [discriminate|]
      end. simpl; auto.
    + simpl in Ha. apply present_where_eq in Ha. destruct Ha as (x & rest & ->).
      match type of Hv with
      | Some (match ?e with _ => _ end) = _ => destruct e; [discriminate|]
      end. simpl; auto.
Qed.

(** C5, as stated, fails: the owner creating a skill with an empty body is
    rejected by the schema and answered 500, not 400. *)
Lemma validation_error_is_500 :
  reaches_validator Sample.libs Sample.at_noon (CreateSkill "user1")
    (Sample.as_user "user1" (JObj [])) Sample.seed = true /\
  validation Sample.libs (CreateSkill "user1") (Sample.as_user "user1" (JObj []))
    = Some false /\
  status (fst (serve Sample.libs Sample.at_noon (CreateSkill "user1")
                 (Sample.as_user "user1" (JObj [])) Sample.seed)) = 500 /\
  status (fst (serve Sample.libs Sample.at_noon (CreateSkill "user1")
                 (Sample.as_user "user1" (JObj [])) Sample.seed)) <> 400.
Proof. vm_compute. repeat split; try reflexivity. discriminate. Qed.

(** C5, amended. A request the schema rejects is answered 500
    [INTERNAL_SERVER_ERROR] with the store unchanged, like anything else a
    handler throws; a missing credential is answered 401, a credential that
    does not verify 403, a verified credential of a user that is gone 401,
    a principal other than the owner 403 and a missing resource 404. *)
Theorem failure_statuses P c :
  (forall r rq d k,
      rejected P c r rq d k ->
      status (fst (serve P c r rq d)) = status_of k /\
      error_code_of (fst (serve P c r rq d)) = Some (code_of r k) /\
      snd (serve P c r rq d) = d) /\
  (forall (h : M response) d e d',
      h d = (Throw e, d') ->
      status (fst (handler c h d)) = 500 /\
      error_code_of (fst (handler c h d)) = Some "INTERNAL_SERVER_ERROR" /\
      snd (handler c h d) = d').
Proof.
  split.
  - intros r rq d k H. destruct H as [Ho Ht | token Ho Ht Hne Hv
                                     | token sub Ho Ht Hne Hv Hu
                                     | user o Ha Hown Hneq | user Ha Hown | Ha Hv].
    + rewrite (denied_response P c r rq d _ Ho (no_token_check P c rq d Ht)).
      simpl. auto.
    + rewrite (denied_response P c r rq d _ Ho (bad_token_check P c rq d token Ht Hne Hv)).
      simpl. auto.
    + rewrite (denied_response P c r rq d _ Ho
                 (unknown_user_check P c rq d token sub Ht Hne Hv Hu)).
      simpl. auto.
    + destruct (forbidden_response P c r rq d user o Ha Hown Hneq) as [msg ->].
      repeat split; reflexivity.
    + destruct (not_found_response P c r rq d user Ha Hown) as [msg ->].
      destruct r; simpl in Hown; try discriminate; repeat split; reflexivity.
    + destruct (schema_rejection_response P c r rq d Ha Hv) as [-> ->].
      simpl. auto.
  - intros h d e d' H. rewrite (thrown_is_500 c h d e d' H). simpl. auto.
Qed.

(** A profile update whose contact address is not an email address. *)
Lemma failure_statuses_witness :
  rejected Sample.libs Sample.at_noon (PatchUser "user1")
    (Sample.as_user "user1" (JObj [("contact_email", JStr "nobody")])) Sample.seed
    ValidationError /\
  status (fst (serve Sample.libs Sample.at_noon (PatchUser "user1")
                 (Sample.as_user "user1" (JObj [("contact_email", JStr "nobody")]))
                 Sample.seed)) = 500 /\
  error_code_of (fst (serve Sample.libs Sample.at_noon (PatchUser "user1")
                 (Sample.as_user "user1" (JObj [("contact_email", JStr "nobody")]))
                 Sample.seed)) = Some "INTERNAL_SERVER_ERROR" /\
  snd (serve Sample.libs Sample.at_noon (PatchUser "user1")
         (Sample.as_user "user1" (JObj [("contact_email", JStr "nobody")]))
         Sample.seed) = Sample.seed.
Proof.
  assert (H : rejected Sample.libs Sample.at_noon (PatchUser "user1")
                (Sample.as_user "user1" (JObj [("contact_email", JStr "nobody")]))
                Sample.seed ValidationError)
    by (apply rejected_by_schema; reflexivity).
  split; [exact H|].
  exact (proj1 (failure_statuses Sample.libs Sample.at_noon) _ _ _ _ H).
Defined.

(** *** Updating a project *)

(** Whatever the owner's valid payload leaves out is written as NULL. *)
Lemma patch_project_writes_every_column P c project_id rq d user v :
  authenticated P c rq d = Some user ->
  owner_of (PatchProject project_id) d = Owner (pr_user_id user) ->
  createProjectInputSchema P (req_body rq) = Some v ->
  snd (patch_project P c project_id rq d) =
    set_projects (update_where Project.project_id project_id (overwrite v) (projects d)) d.
Proof.
  intros Hauth Hown Hv. simpl in Hown.
  apply row_owner_inv in Hown. destruct Hown as (row & rest & Hrows & Heq).
  unfold patch_project. enter_handler Hauth.
  rewrite Hrows, Heq, String.eqb_refl, Hv.
  unfold parsed, ret, update_returning, first_row. cbv beta iota zeta delta [negb].
  fold (overwrite v).
  set (t' := update_where _ _ _ (projects d)).
  destruct (where_eq Project.project_id project_id t') as [|a l].
  - reflexivity.
  - unfold ret, decode_images. destruct (Project.images a) as [j|]; [|reflexivity].
    destruct (truthy j); [|reflexivity].
    destruct (JSON_parse j) as [[| | | | |kvs]|]; try reflexivity.
    destruct (assoc "images" kvs); reflexivity.
Qed.

(** A request that is turned down leaves the store alone. *)
Lemma patch_project_refused P c project_id rq d :
  (forall user, authenticated P c rq d = Some user ->
                owner_of (PatchProject project_id) d <> Owner (pr_user_id user)) \/
  createProjectInputSchema P (req_body rq) = None ->
  snd (patch_project P c project_id rq d) = d.
Proof.
  intros H. unfold patch_project, authenticateToken.
  destruct (auth_check P c rq d) as [resp|user] eqn:Ea; [reflexivity|].
  unfold handler, try_catch, bind, query, reply. cbv beta iota.
  destruct (where_eq Project.project_id project_id (projects d)) as [|row rest] eqn:Er;
    [reflexivity|].
  destruct (String.eqb (Project.user_id row) (pr_user_id user)) eqn:Eo; [|reflexivity].
  cbv beta iota delta [negb].
  destruct H as [H | H].
  - exfalso. apply (H user).
    + unfold authenticated. now rewrite Ea.
    + simpl. rewrite Er. simpl. apply String.eqb_eq in Eo. now rewrite Eo.
  - rewrite H. reflexivity.
Qed.

(** Sending the same [PATCH] again changes nothing further. *)
Lemma patch_project_twice P c project_id rq d :
  snd (patch_project P c project_id rq (snd (patch_project P c project_id rq d))) =
  snd (patch_project P c project_id rq d).
Proof.
  destruct (authenticated P c rq d) as [user|] eqn:Ea.
  2:{ rewrite (patch_project_refused P c project_id rq d) by (left; congruence).
      apply patch_project_refused. left. congruence. }
  destruct (createProjectInputSchema P (req_body rq)) as [v|] eqn:Ev.
  2:{ rewrite (patch_project_refused P c project_id rq d) by (right; exact Ev).
      apply patch_project_refused. now right. }
  destruct (owner_of (PatchProject project_id) d) as [o| |] eqn:Eo.
  2,3: rewrite (patch_project_refused P c project_id rq d)
         by (left; intros u Hu; congruence);
       apply patch_project_refused; left; intros u Hu; congruence.
  destruct (String.eqb o (pr_user_id user)) eqn:Eu.
  2:{ assert (o <> pr_user_id user) by now apply String.eqb_neq.
      rewrite (patch_project_refused P c project_id rq d)
        by (left; intros u Hu; congruence).
      apply patch_project_refused. left. intros u Hu. congruence. }
  apply String.eqb_eq in Eu. subst o.
  rewrite (patch_project_writes_every_column P c project_id rq d user v Ea Eo Ev).
  set (d1 := set_projects _ d).
  assert (Ea1 : authenticated P c rq d1 = Some user) by exact Ea.
  assert (Eo1 : owner_of (PatchProject project_id) d1 = Owner (pr_user_id user)).
  { simpl in Eo |- *. rewrite where_eq_update_where by reflexivity.
    destruct (where_eq Project.project_id project_id (projects d)); [discriminate|].
    exact Eo. }
  rewrite (patch_project_writes_every_column P c project_id rq d1 user v Ea1 Eo1 Ev).
  unfold d1. simpl. rewrite update_where_twice by reflexivity. reflexivity.
Qed.

(** C3. [PATCH /api/projects/project1] by its owner on the seeded store.
    With the body [{title: "X"}] the create schema asks for [user_id], the
    request is answered 500 and the title is not written.  With [user_id]
    added the update goes through and the description, the images and the
    URL, absent from the payload, are overwritten with NULL. *)
Theorem patch_project_title_only :
  let once := patch_project Sample.libs Sample.at_noon "project1"
                (Sample.as_user "user1" Scenario.title_only) Sample.seed in
  let full := patch_project Sample.libs Sample.at_noon "project1"
                (Sample.as_user "user1" Scenario.title_with_owner) Sample.seed in
  (fst once = failure Sample.at_noon 500 "Internal server error" (Some ZodError)
                "INTERNAL_SERVER_ERROR" /\
   snd once = Sample.seed) /\
  (status (fst full) = 200 /\
   where_eq Project.project_id "project1" (projects (snd full)) =
     [ {| Project.project_id := "project1"; Project.user_id := "user1";
          Project.title := "X"; Project.description := None;
          Project.images := None; Project.project_url := None |} ]).
Proof. vm_compute. repeat split; reflexivity. Qed.

(** *** Registration *)

(** The existence check looks the address up as typed, the insert stores
    it lower-cased: when only the latter is taken the unique constraint
    answers. *)
Lemma register_unnormalised_lookup P c rq d v :
  createUserInputSchema P (req_body rq) = Some v ->
  where_eq User.email (cu_email v) (users d) = [] ->
  present User.email (Str.trim (Str.toLowerCase (cu_email v))) (users d) = true ->
  register P c rq d =
    (failure c 500 "Internal server error" (Some DatabaseError)
       "INTERNAL_SERVER_ERROR", d).
Proof.
  intros Hv Hraw Hnorm.
  unfold register, handler, try_catch, bind, query, parsed, ret. rewrite Hv.
  cbv beta iota. rewrite Hraw. unfold insert_returning, users_ok.
  cbn [User.email User.user_id]. rewrite Hnorm.
  rewrite andb_false_r. reflexivity.
Qed.

(** C4. Registering [a@x.com] and then [A@x.com] on the seeded store: the
    first request is answered 200 and stores the lower-cased address; the
    second one is looked up as typed, misses that row, runs into the unique
    constraint on insert and is answered 500 rather than 400; no second row
    is stored. *)
Theorem register_case_variant :
  let first := register Sample.libs Sample.at_noon
                 (Sample.anonymous (Scenario.signup "a@x.com")) Sample.seed in
  let second := register Sample.libs Sample.later
                  (Sample.anonymous (Scenario.signup "A@x.com")) (snd first) in
  status (fst first) = 200 /\
  map User.email (users (snd first)) =
    ["john.doe@example.com"; "jane.smith@example.com"; "a@x.com"] /\
  fst second = failure Sample.later 500 "Internal server error" (Some DatabaseError)
                 "INTERNAL_SERVER_ERROR" /\
  status (fst second) <> 400 /\
  snd second = snd first.
Proof. vm_compute. repeat split; try reflexivity. discriminate. Qed.

(** *** Deleting a project *)

(** The store refuses to drop a project that still has comments. *)
Lemma project_with_comments_stays project_id d :
  present Project.project_id project_id (projects d) = true ->
  present Comment.project_id project_id (comments d) = true ->
  delete_project_row project_id d = None.
Proof. unfold delete_project_row. now intros -> ->. Qed.

(** Once its comments are gone the project can be deleted. *)
Lemma delete_project_after_comments project_id d :
  delete_project_row project_id
    (set_comments (delete_where Comment.project_id project_id (comments d)) d) =
  Some (set_projects (delete_where Project.project_id project_id (projects d))
          (set_comments (delete_where Comment.project_id project_id (comments d)) d)).
Proof.
  unfold delete_project_row. simpl.
  rewrite present_delete_where. now rewrite andb_false_r.
Qed.

(** C6. [DELETE /api/projects/:project_id] by the owner is answered 204
    with an empty body; the comments of the project are deleted first, the
    project row is deleted from the store without them, and afterwards no
    comment and no project with that id is left. *)
Theorem delete_project_cascade P c project_id rq d user :
  authenticated P c rq d = Some user ->
  owner_of (DeleteProject project_id) d = Owner (pr_user_id user) ->
  let res := delete_project P c project_id rq d in
  let without_comments :=
    set_comments (delete_where Comment.project_id project_id (comments d)) d in
  fst res = {| status := 204; body := Empty |} /\
  delete_project_row project_id without_comments = Some (snd res) /\
  List.length (where_eq Comment.project_id project_id (comments (snd res))) = 0%nat /\
  where_eq Project.project_id project_id (projects (snd res)) = [] /\
  comments (snd res) = delete_where Comment.project_id project_id (comments d) /\
  projects (snd res) = delete_where Project.project_id project_id (projects d).
Proof.
  intros Hauth Hown. simpl in Hown.
  apply row_owner_inv in Hown. destruct Hown as (row & rest & Hrows & Heq).
  cbv zeta. unfold delete_project. enter_handler Hauth.
  rewrite Hrows, Heq, String.eqb_refl.
  unfold delete_from, execute. cbv beta iota delta [negb].
  rewrite delete_project_after_comments.
  cbv beta iota delta [fst snd].
  cbn [comments projects set_projects set_comments].
  rewrite !where_eq_delete_where. repeat split; reflexivity.
Qed.

(** Only the owner's request is answered 204. *)
Lemma delete_project_204_owner P c project_id rq d :
  status (fst (delete_project P c project_id rq d)) = 204 ->
  exists user, authenticated P c rq d = Some user /\
               owner_of (DeleteProject project_id) d = Owner (pr_user_id user).
Proof.
  unfold delete_project, authenticateToken, authenticated.
  destruct (auth_check P c rq d) as [resp|user] eqn:E.
  - simpl. intro H. destruct (denied_status P c rq d resp E); lia.
  - unfold handler, try_catch, bind, query, reply. cbv beta iota. simpl owner_of.
    destruct (where_eq Project.project_id project_id (projects d)) as [|row rest];
      [simpl; discriminate|].
    destruct (String.eqb (Project.user_id row) (pr_user_id user)) eqn:Eo;
      [|simpl; discriminate].
    intros _. exists user. split; [reflexivity|].
    simpl. apply String.eqb_eq in Eo. now rewrite Eo.
Qed.

(** The first seeded project, which has a comment, deleted by its owner. *)
Lemma delete_project_cascade_witness :
  authenticated Sample.libs Sample.at_noon
    (Sample.as_user "user1" (JObj [])) Sample.seed = Some Scenario.john /\
  owner_of (DeleteProject "project1") Sample.seed = Owner (pr_user_id Scenario.john) /\
  fst (delete_project Sample.libs Sample.at_noon "project1"
         (Sample.as_user "user1" (JObj [])) Sample.seed)
    = {| status := 204; body := Empty |} /\
  List.length (where_eq Comment.project_id "project1"
                 (comments (snd (delete_project Sample.libs Sample.at_noon "project1"
                                   (Sample.as_user "user1" (JObj [])) Sample.seed))))
    = 0%nat.
Proof.
  split; [reflexivity|]. split; [reflexivity|].
  destruct (delete_project_cascade Sample.libs Sample.at_noon "project1"
              (Sample.as_user "user1" (JObj [])) Sample.seed Scenario.john
              eq_refl eq_refl) as (H1 & _ & H3 & _).
  split; [exact H1 | exact H3].
Defined.

(** *** Analytics *)

(** [JSON.parse] of an object reads ["[object Object]"]. *)
Lemma JSON_parse_object kvs : JSON_parse (JObj kvs) = None.
Proof. reflexivity. Qed.

(** On the text of the column the same expression would succeed. *)
Lemma decode_column_of_text d :
  decode_column (Some (JStr (Sql.print initial_popular_projects)))
    initial_popular_projects d = (Next initial_popular_projects, d).
Proof. reflexivity. Qed.

Lemma decode_column_of_object kvs fallback d :
  decode_column (Some (JObj kvs)) fallback d = (Throw SyntaxError, d).
Proof. reflexivity. Qed.

(** The first read of a principal without a row inserts the zeroed row
    and then fails on decoding it. *)
Lemma get_analytics_first_read P c user_id rq d user :
  authenticated P c rq d = Some user ->
  pr_user_id user = user_id ->
  where_eq Analytics.user_id user_id (analytics d) = [] ->
  present Analytics.analytics_id (uuid c) (analytics d) = false ->
  let row := {| Analytics.analytics_id := uuid c;
                Analytics.user_id := user_id;
                Analytics.visit_count := 0;
                Analytics.popular_projects := Some initial_popular_projects;
                Analytics.interaction_data := Some initial_interaction_data |} in
  get_analytics P c user_id rq d =
    (failure c 500 "Internal server error" (Some SyntaxError)
       "INTERNAL_SERVER_ERROR",
     set_analytics (analytics d ++ [row])%list d).
Proof.
  intros Hauth Hid Hnone Hfresh row.
  assert (Hex : user_exists user_id d = true).
  { unfold authenticated, auth_check in Hauth.
    destruct (token_of rq) as [t|]; [|discriminate].
    destruct (String.eqb t ""); [discriminate|].
    destruct (jwt_verify P t) as [sub|]; [|discriminate].
    destruct (where_eq User.user_id sub (users d)) as [|u rest] eqn:E; [discriminate|].
    injection Hauth as <-. simpl in Hid. subst user_id.
    unfold user_exists, present, where_eq in *.
    assert (In u (filter (fun r => String.eqb (User.user_id r) sub) (users d)))
      by (rewrite E; left; reflexivity).
    apply filter_In in H. destruct H as [Hin Hk].
    apply existsb_exists. exists u. split; [exact Hin|].
    apply String.eqb_eq in Hk. rewrite Hk. apply String.eqb_refl. }
  unfold get_analytics. enter_handler Hauth.
  rewrite Hid, String.eqb_refl. cbv beta iota delta [negb].
  rewrite Hnone. unfold insert_returning, analytics_ok. fold row.
  cbn [Analytics.analytics_id Analytics.user_id row].
  rewrite Hfresh, Hex. cbv beta iota delta [negb andb].
  cbn [analytics set_analytics].
  unfold where_eq. rewrite filter_app. fold (where_eq Analytics.user_id user_id (analytics d)).
  rewrite Hnone. cbn [filter app Analytics.user_id row]. rewrite String.eqb_refl.
  reflexivity.
Qed.

(** C7. [GET /api/analytics/user1] by [user1] on the seeded store without
    analytics rows: the row with zeroed counters is inserted, but the
    response is 500, as the handler runs [JSON.parse] on columns the driver
    has already decoded; a second read finds the row, adds none and is
    answered 500 as well. *)
Theorem analytics_first_read_fails :
  let zero := {| Analytics.analytics_id := uuid Sample.at_noon;
                 Analytics.user_id := "user1"; Analytics.visit_count := 0;
                 Analytics.popular_projects := Some (JObj [("popular", JArr [])]);
                 Analytics.interaction_data :=
                   Some (JObj [("views", JNum 0); ("comments", JNum 0);
                               ("contacts", JNum 0)]) |} in
  let first := get_analytics Sample.libs Sample.at_noon "user1"
                 (Sample.as_user "user1" (JObj [])) Sample.seed_without_analytics in
  let second := get_analytics Sample.libs Sample.later "user1"
                  (Sample.as_user "user1" (JObj [])) (snd first) in
  fst first = failure Sample.at_noon 500 "Internal server error" (Some SyntaxError)
                "INTERNAL_SERVER_ERROR" /\
  analytics (snd first) = [zero] /\
  fst second = failure Sample.later 500 "Internal server error" (Some SyntaxError)
                 "INTERNAL_SERVER_ERROR" /\
  snd second = snd first.
Proof. vm_compute. repeat split; reflexivity. Qed.

(** *** Uploads *)




(** *** Password reset *)

Lemma password_reset_acknowledges c rq e d :
  property "email" (req_body rq) = Some (JStr e) -> e <> "" ->
  password_reset c rq d = (json_reply 200 (message_json reset_message), d).
Proof.
  intros He Hne. unfold password_reset, handler, try_catch. rewrite He.
  unfold falsy, truthy. rewrite (eqb_differs _ _ Hne).
  cbv beta iota delta [negb]. unfold bind, query, reply.
  destruct (where_eq User.email (Str.trim (Str.toLowerCase e)) (users d)); reflexivity.
Qed.

(** C9. [POST /api/auth/password-reset] with an email that belongs to a
    user and with one that does not: both requests are answered 200 with the
    same acknowledgement and neither changes the store.  The email is a
    non-empty string, the one the handler does not answer "Email is
    required" to. *)
Theorem password_reset_indistinguishable c1 c2 rq1 rq2 e1 e2 d :
  property "email" (req_body rq1) = Some (JStr e1) -> e1 <> "" ->
  property "email" (req_body rq2) = Some (JStr e2) -> e2 <> "" ->
  where_eq User.email (Str.trim (Str.toLowerCase e1)) (users d) <> [] ->
  where_eq User.email (Str.trim (Str.toLowerCase e2)) (users d) = [] ->
  fst (password_reset c1 rq1 d) = fst (password_reset c2 rq2 d) /\
  status (fst (password_reset c1 rq1 d)) = 200 /\
  body (fst (password_reset c1 rq1 d)) = Body (message_json reset_message) /\
  snd (password_reset c1 rq1 d) = d /\ snd (password_reset c2 rq2 d) = d.
Proof.
  intros H1 N1 H2 N2 _ _.
  rewrite (password_reset_acknowledges c1 rq1 e1 d H1 N1).
  rewrite (password_reset_acknowledges c2 rq2 e2 d H2 N2).
  simpl. auto.
Qed.

(** The address of the first seeded user, in another case, and an unknown
    one. *)
Lemma password_reset_indistinguishable_witness :
  let known := Sample.anonymous (JObj [("email", JStr "John.Doe@Example.com ")]) in
  let unknown := Sample.anonymous (JObj [("email", JStr "nobody@example.com")]) in
  where_eq User.email (Str.trim (Str.toLowerCase "John.Doe@Example.com "))
    (users Sample.seed) <> [] /\
  where_eq User.email (Str.trim (Str.toLowerCase "nobody@example.com"))
    (users Sample.seed) = [] /\
  fst (password_reset Sample.at_noon known Sample.seed) =
  fst (password_reset Sample.later unknown Sample.seed) /\
  status (fst (password_reset Sample.at_noon known Sample.seed)) = 200.
Proof.
  assert (H1 : where_eq User.email (Str.trim (Str.toLowerCase "John.Doe@Example.com "))
                 (users Sample.seed) <> []) by (vm_compute; discriminate).
  assert (H2 : where_eq User.email (Str.trim (Str.toLowerCase "nobody@example.com"))
                 (users Sample.seed) = []) by reflexivity.
  assert (N1 : "John.Doe@Example.com " <> "") by discriminate.
  assert (N2 : "nobody@example.com" <> "") by discriminate.
  destruct (password_reset_indistinguishable Sample.at_noon Sample.later
              (Sample.anonymous (JObj [("email", JStr "John.Doe@Example.com ")]))
              (Sample.anonymous (JObj [("email", JStr "nobody@example.com")]))
              "John.Doe@Example.com " "nobody@example.com" Sample.seed
              eq_refl N1 eq_refl N2 H1 H2) as (E & S & _).
  cbv zeta. split; [exact H1|]. split; [exact H2|]. split; [exact E | exact S].
Defined.

(** *** The contact form *)

(** The literal ['{"contacts": '] next to a [jsonb] operand is read as
    [jsonb], which it is not: the statement does not pass analysis. *)
Lemma contacts_increment_rejected user_id d :
  Sql.update_interaction_data Sql.contacts_increment user_id d = None.
Proof. reflexivity. Qed.

(** With a well-formed literal on the right the same operator merges the
    counter into the column. *)
Lemma jsonb_concat_merges :
  let e := Sql.Concat
             (Sql.Coalesce (Sql.Cast (Sql.Column Sql.TJson) Sql.TJsonb)
                (Sql.Cast (Sql.Literal "{}") Sql.TJsonb))
             (Sql.Literal ("{" ++ Str.quoted "contacts" ++ ": 1}")) in
  Sql.typeof e = Some Sql.TJsonb /\
  Sql.eval (Some (JObj [("clicks", JNum 50); ("likes", JNum 30)])) e =
    Some (Sql.VJson (JObj [("clicks", JNum 50); ("likes", JNum 30);
                           ("contacts", JNum 1)])).
Proof. split; reflexivity. Qed.

(** A valid contact message is stored and the request fails on the next
    statement, for every store. *)
Lemma contact_statement_fails P c user_id rq d v :
  present User.user_id user_id (users d) = true ->
  createVisitorMessageInputSchema P (with_param "user_id" user_id (req_body rq))
    = Some v ->
  let row := {| VisitorMessage.message_id := uuid c;
                VisitorMessage.user_id := cv_user_id v;
                VisitorMessage.visitor_email := to_sql (cv_visitor_email v);
                VisitorMessage.visitor_message := cv_visitor_message v;
                VisitorMessage.sent_at := now c |} in
  visitor_messages_ok row d = true ->
  contact P c user_id rq d =
    (failure c 500 "Internal server error" (Some DatabaseError)
       "INTERNAL_SERVER_ERROR",
     set_visitor_messages (visitor_messages d ++ [row])%list d).
Proof.
  intros Hu Hv row Hok.
  apply present_where_eq in Hu. destruct Hu as (u & rest & Hu).
  unfold contact, handler, try_catch, bind, query, parsed, ret. rewrite Hu, Hv.
  cbv beta iota. unfold insert_returning. fold row. rewrite Hok.
  unfold execute. rewrite contacts_increment_rejected. reflexivity.
Qed.

(** C10. [POST /api/contact/user1] with a valid message, on the seeded
    store without analytics rows and on the seeded store: the message row is
    inserted, then the statement that increments the contact counter is
    rejected by the store and the request is answered 500; the analytics
    table is unchanged in both, so the counter of an existing row is not
    incremented. *)
Theorem contact_counter_statement_fails :
  let rq := Sample.anonymous (JObj [("visitor_message", JStr "hi")]) in
  let sent := {| VisitorMessage.message_id := uuid Sample.at_noon;
                 VisitorMessage.user_id := "user1";
                 VisitorMessage.visitor_email := None;
                 VisitorMessage.visitor_message := "hi";
                 VisitorMessage.sent_at := now Sample.at_noon |} in
  let fresh := contact Sample.libs Sample.at_noon "user1" rq
                 Sample.seed_without_analytics in
  let counted := contact Sample.libs Sample.at_noon "user1" rq Sample.seed in
  (fst fresh = failure Sample.at_noon 500 "Internal server error"
                 (Some DatabaseError) "INTERNAL_SERVER_ERROR" /\
   visitor_messages (snd fresh) = (visitor_messages Sample.seed ++ [sent])%list /\
   analytics (snd fresh) = []) /\
  (status (fst counted) = 500 /\
   visitor_messages (snd counted) = (visitor_messages Sample.seed ++ [sent])%list /\
   analytics (snd counted) = analytics Sample.seed).
Proof. vm_compute. repeat split; reflexivity. Qed.

(* ================================================================== *)
(** ** Further properties *)
(* ================================================================== *)

(** *** What a handler writes *)

Lemma snd_handler c (h : M response) d : snd (handler c h d) = snd (h d).
Proof.
  unfold handler, try_catch. destruct (h d) as [[r | r | e] d']; reflexivity.
Qed.

Lemma writes_one d d' : write d d' -> writes d d'.
Proof. intro H. eapply writes_more; [exact H | apply writes_none]. Qed.

Lemma writes_trans d1 d2 d3 : writes d1 d2 -> writes d2 d3 -> writes d1 d3.
Proof.
  induction 1 as [|d0 d1 d2 Hw Hws IH]; [auto|].
  intro H. eapply writes_more; [exact Hw | auto].
Qed.

Lemma effects_ret {A} (a : A) : effects (ret a).
Proof. intro d. apply writes_none. Qed.

Lemma effects_reply {A} r : effects (@reply A r).
Proof. intro d. apply writes_none. Qed.

Lemma effects_throw {A} e : effects (@throw A e).
Proof. intro d. apply writes_none. Qed.

Lemma effects_query {A} (f : Db -> A) : effects (query f).
Proof. intro d. apply writes_none. Qed.

Lemma effects_parsed {A} (v : option A) : effects (parsed v).
Proof. destruct v; [apply effects_ret | apply effects_throw]. Qed.

Lemma effects_first_row {A} (rows : list A) : effects (first_row rows).
Proof. destruct rows; [apply effects_throw | apply effects_ret]. Qed.

Lemma decode_images_reads col d : snd (decode_images col d) = d.
Proof.
  unfold decode_images. destruct col as [v|]; [|reflexivity].
  destruct (truthy v); [|reflexivity].
  destruct (JSON_parse v) as [[| | | | |kvs]|]; try reflexivity.
  destruct (assoc "images" kvs); reflexivity.
Qed.

Lemma decode_column_reads col fallback d : snd (decode_column col fallback d) = d.
Proof.
  unfold decode_column. destruct col as [v|]; [|reflexivity].
  destruct (truthy v); [|reflexivity].
  destruct (JSON_parse v); reflexivity.
Qed.

Lemma effects_decode_images col : effects (decode_images col).
Proof. intro d. rewrite decode_images_reads. apply writes_none. Qed.

Lemma effects_decode_column col fallback : effects (decode_column col fallback).
Proof. intro d. rewrite decode_column_reads. apply writes_none. Qed.

Lemma effects_bind {A B} (m : M A) (k : A -> M B) :
  effects m -> (forall a, effects (k a)) -> effects (bind m k).
Proof.
  intros Hm Hk d. unfold bind. specialize (Hm d).
  destruct (m d) as [[a | r | e] d']; simpl in *; auto.
  eapply writes_trans; [exact Hm | apply Hk].
Qed.

Lemma effects_execute (f : Db -> option Db) :
  (forall d d', f d = Some d' -> write d d') -> effects (execute f).
Proof.
  intros H d. unfold execute. destruct (f d) as [d'|] eqn:E; simpl.
  - apply writes_one. auto.
  - apply writes_none.
Qed.

Lemma effects_insert {A} (ok : A -> Db -> bool) get set (row : A) :
  (forall d, ok row d = true -> write d (set (get d ++ [row])%list d)) ->
  effects (insert_returning (ok row) get set row).
Proof.
  intros H d. unfold insert_returning. destruct (ok row d) eqn:E; simpl.
  - apply writes_one. auto.
  - apply writes_none.
Qed.

Lemma effects_update {A} get set (key : A -> string) k f :
  (forall d, write d (set (update_where key k f (get d)) d)) ->
  effects (update_returning get set key k f).
Proof. intros H d. unfold update_returning. simpl. apply writes_one. apply H. Qed.

Lemma effects_delete {A} get set (key : A -> string) k :
  (forall d, write d (set (delete_where key k (get d)) d)) ->
  effects (delete_from get set key k).
Proof.
  intro H. unfold delete_from. apply effects_execute.
  intros d d' E. injection E as <-. apply H.
Qed.

Lemma assign_keeps_user r kv : UserProfile.user_id (assign r kv) = UserProfile.user_id r.
Proof.
  destruct kv as [key v]. unfold assign.
  repeat match goal with
         | |- context [if ?b then _ else _] => destruct b
         end; reflexivity.
Qed.

Lemma assigns_keep_user fields r :
  UserProfile.user_id (fold_left assign fields r) = UserProfile.user_id r.
Proof.
  revert r. induction fields as [|kv fields IH]; intro r; simpl; [reflexivity|].
  rewrite IH. apply assign_keeps_user.
Qed.

Lemma contacts_increment_never user_id d d' :
  Sql.update_interaction_data Sql.contacts_increment user_id d = Some d' -> write d d'.
Proof. intro H. rewrite contacts_increment_rejected in H. discriminate. Qed.

Ltac effects_step :=
  match goal with
  | |- effects (bind _ _) => apply effects_bind; [|intro]
  | |- effects (ret _) => apply effects_ret
  | |- effects (reply _) => apply effects_reply
  | |- effects (throw _) => apply effects_throw
  | |- effects (query _) => apply effects_query
  | |- effects (parsed _) => apply effects_parsed
  | |- effects (first_row _) => apply effects_first_row
  | |- effects (decode_images _) => apply effects_decode_images
  | |- effects (decode_column _ _) => apply effects_decode_column
  | |- effects (insert_returning _ _ _ _) =>
      apply effects_insert; intros; constructor; assumption
  | |- effects (update_returning _ _ _ _ _) =>
      apply effects_update; intros; constructor; intros;
      try apply assigns_keep_user; try (split; reflexivity)
  | |- effects (delete_from _ _ _ _) => apply effects_delete; intros; constructor
  | |- effects (execute (upsert_user_settings _)) =>
      apply effects_execute; intros; eapply write_user_settings; eassumption
  | |- effects (execute (delete_project_row _)) =>
      apply effects_execute; intros; eapply write_no_project; eassumption
  | |- effects (execute (Sql.update_interaction_data _ _)) =>
      apply effects_execute; intros; eapply contacts_increment_never; eassumption
  | |- effects (match ?x with _ => _ end) => destruct x
  | |- effects (if ?b then _ else _) => destruct b
  end.

Lemma authenticated_route P c rq next d :
  (forall user, writes d (snd (next user d))) ->
  writes d (snd (authenticateToken P c rq next d)).
Proof.
  intro H. unfold authenticateToken.
  destruct (auth_check P c rq d); [apply writes_none | apply H].
Qed.

Ltac by_effects :=
  match goal with
  | |- writes ?d (snd (?m ?d)) =>
      let H := fresh "H" in
      assert (H : effects m) by (repeat effects_step); apply H
  end.

(** The analytics read inserts only when its select found no row. *)
Lemma get_analytics_writes P c user_id rq d :
  writes d (snd (get_analytics P c user_id rq d)).
Proof.
  unfold get_analytics. apply authenticated_route. intro user.
  rewrite snd_handler.
  destruct (negb (String.eqb (pr_user_id user) user_id)); [apply writes_none|].
  unfold bind at 1. unfold query at 1. cbv beta iota.
  destruct (where_eq Analytics.user_id user_id (analytics d)) as [|row rest] eqn:E.
  - unfold bind at 1. unfold bind at 1. unfold insert_returning.
    match goal with |- context [analytics_ok ?r d] => set (zero := r) end.
    destruct (analytics_ok zero d) eqn:Eok; [|apply writes_none].
    unfold query. cbv beta iota.
    eapply writes_more; [apply write_analytics; [exact Eok | exact E] |].
    by_effects.
  - by_effects.
Qed.

Lemma serve_writes P c r rq d : writes d (snd (serve P c r rq d)).
Proof.
  destruct r; simpl serve;
    try solve [ unfold_routes; try apply authenticated_route; intros;
                rewrite snd_handler; by_effects ].
  apply get_analytics_writes.
Qed.

(** *** Keys and references *)

Lemma present_false_not_in {A} (key : A -> string) k t :
  present key k t = false -> ~ In k (map key t).
Proof.
  unfold present. induction t as [|x t IH]; simpl; [tauto|].
  intros H [E | Hin].
  - rewrite E, String.eqb_refl in H. discriminate.
  - apply orb_false_elim in H. tauto.
Qed.

Lemma present_true_in {A} (key : A -> string) k t :
  present key k t = true -> exists r, In r t /\ key r = k.
Proof.
  unfold present. intro H. apply existsb_exists in H. destruct H as (r & Hin & E).
  exists r. split; [exact Hin | now apply String.eqb_eq].
Qed.

Lemma in_present {A} (key : A -> string) r t : In r t -> present key (key r) t = true.
Proof.
  intro H. unfold present. apply existsb_exists. exists r.
  split; [exact H | apply String.eqb_refl].
Qed.

Lemma unique_app {A} (key : A -> string) t row :
  unique key t -> present key (key row) t = false -> unique key (t ++ [row]).
Proof.
  unfold unique. intros Hu Hp. rewrite map_app. simpl.
  apply present_false_not_in in Hp.
  induction (map key t) as [|x l IH]; simpl.
  - constructor; [tauto | constructor].
  - inversion Hu as [|? ? Hx Hl]; subst. constructor.
    + rewrite in_app_iff. simpl. intros [H | [H | []]]; [tauto|].
      apply Hp. left. auto.
    + apply IH; [exact Hl|]. intro H. apply Hp. right. exact H.
Qed.

Lemma map_update_where {A B} (key : A -> string) (g : A -> B) k f t :
  (forall r, g (f r) = g r) -> map g (update_where key k f t) = map g t.
Proof.
  intro H. unfold update_where. rewrite map_map. apply map_ext. intro r.
  destruct (String.eqb (key r) k); auto.
Qed.

Lemma unique_filter {A} (key : A -> string) (p : A -> bool) t :
  unique key t -> unique key (filter p t).
Proof.
  unfold unique. induction t as [|x t IH]; simpl; intro H; [constructor|].
  inversion H as [|? ? Hx Ht]; subst.
  destruct (p x); simpl; [|auto].
  constructor; [|auto].
  intro Hin. apply Hx. apply in_map_iff in Hin. destruct Hin as (y & E & Hy).
  apply filter_In in Hy. apply in_map_iff. exists y. tauto.
Qed.

Lemma unique_delete_where {A} (key key' : A -> string) k t :
  unique key t -> unique key (delete_where key' k t).
Proof. apply unique_filter. Qed.

Lemma unique_replace {A} (key : A -> string) (row : A) t :
  unique key t -> unique key (update_where key (key row) (fun _ => row) t).
Proof.
  unfold unique, update_where. intro H.
  replace (map key (map (fun r => if String.eqb (key r) (key row) then row else r) t))
    with (map key t); [exact H|].
  rewrite map_map. apply map_ext. intro r.
  destruct (String.eqb (key r) (key row)) eqn:E; [|reflexivity].
  now apply String.eqb_eq in E.
Qed.

Lemma write_keeps_keys d d' : keys_unique d -> write d d' -> keys_unique d'.
Proof.
  intros K H. destruct K.
  destruct H;
    try match goal with
      | H : upsert_user_settings ?row ?d = Some _ |- _ =>
          unfold upsert_user_settings in H;
          destruct (negb _) in H; [discriminate|];
          destruct (present UserSettings.user_id _ _) eqn:Ep in H;
          [ injection H as <-
          | destruct (user_exists _ _) in H; [injection H as <- | discriminate] ]
      | H : delete_project_row ?k ?d = Some _ |- _ =>
          unfold delete_project_row in H;
          destruct (andb _ _) in H; [discriminate | injection H as <-]
      end;
    constructor; cbn; try assumption;
    try match goal with
      | H : _ = true |- _ =>
          unfold users_ok, user_profiles_ok, projects_ok, skills_ok, experience_ok,
            testimonials_ok, blog_posts_ok, comments_ok, visitor_messages_ok,
            analytics_ok in H;
          apply andb_prop in H; destruct H as [H ?];
          try (apply andb_prop in H; destruct H as [H ?]);
          repeat match goal with
                 | H : negb _ = true |- _ => apply negb_true_iff in H
                 end
      end;
    try (apply unique_app; assumption);
    try (apply unique_delete_where; assumption);
    try (apply unique_replace; assumption);
    try (unfold unique; rewrite map_update_where; [assumption | intro; reflexivity]);
    try (unfold unique; rewrite map_update_where; [assumption | assumption]);
    try (unfold unique; rewrite map_update_where;
         [assumption | intro r0; match goal with H : forall r, _ /\ _ |- _ =>
                                   destruct (H r0); assumption end]).
Qed.

Lemma user_exists_more u row d :
  user_exists u d = true -> user_exists u (set_users (users d ++ [row]) d) = true.
Proof.
  unfold user_exists, present. cbn. rewrite existsb_app. intros ->. reflexivity.
Qed.

Lemma owned_more {A} (owner : A -> string) t row d :
  owned_by_users owner t d ->
  owned_by_users owner t (set_users (users d ++ [row]) d).
Proof.
  unfold owned_by_users. intro H. eapply Forall_impl; [|exact H].
  intros r Hr. now apply user_exists_more.
Qed.

Lemma owned_app {A} (owner : A -> string) t row d d' :
  (forall u, user_exists u d' = user_exists u d) ->
  owned_by_users owner t d -> user_exists (owner row) d = true ->
  owned_by_users owner (t ++ [row]) d'.
Proof.
  unfold owned_by_users. intros E H Hr. apply Forall_app. split.
  - eapply Forall_impl; [|exact H]. intros r. now rewrite E.
  - constructor; [now rewrite E | constructor].
Qed.

Lemma owned_update {A} (key owner : A -> string) k f t d d' :
  (forall u, user_exists u d' = user_exists u d) ->
  (forall r, owner (f r) = owner r) ->
  owned_by_users owner t d ->
  owned_by_users owner (update_where key k f t) d'.
Proof.
  unfold owned_by_users, update_where. intros E Hf H.
  apply Forall_map. eapply Forall_impl; [|exact H].
  intros r Hr. cbv beta. destruct (String.eqb (key r) k); rewrite E, ?Hf; exact Hr.
Qed.

Lemma owned_delete {A} (key owner : A -> string) k t d d' :
  (forall u, user_exists u d' = user_exists u d) ->
  owned_by_users owner t d ->
  owned_by_users owner (delete_where key k t) d'.
Proof.
  unfold owned_by_users, delete_where. intros E H.
  apply Forall_forall. intros r Hin. apply filter_In in Hin.
  rewrite E. rewrite Forall_forall in H. apply H. tauto.
Qed.

Lemma owned_same {A} (owner : A -> string) t d d' :
  (forall u, user_exists u d' = user_exists u d) ->
  owned_by_users owner t d -> owned_by_users owner t d'.
Proof.
  unfold owned_by_users. intros E H. eapply Forall_impl; [|exact H].
  intros r. now rewrite E.
Qed.

Lemma present_app {A} (key : A -> string) k t row :
  present key k t = true -> present key k (t ++ [row]) = true.
Proof. unfold present. rewrite existsb_app. intros ->. reflexivity. Qed.

Lemma present_update_where {A} (key : A -> string) k k' f t :
  (forall r, key (f r) = key r) ->
  present key k (update_where key k' f t) = present key k t.
Proof.
  intro Hf. unfold present, update_where. induction t as [|x t IH]; simpl; [reflexivity|].
  rewrite IH. destruct (String.eqb (key x) k'); [rewrite Hf|]; reflexivity.
Qed.

Lemma present_delete_other {A} (key : A -> string) k k' t :
  k <> k' -> present key k (delete_where key k' t) = present key k t.
Proof.
  intro Hne. unfold present, delete_where. induction t as [|x t IH]; simpl; [reflexivity|].
  destruct (String.eqb (key x) k') eqn:E; simpl.
  - rewrite IH. apply String.eqb_eq in E. rewrite E.
    rewrite (proj2 (String.eqb_neq k' k)) by congruence. reflexivity.
  - now rewrite IH.
Qed.

Lemma present_none_delete {A} (key : A -> string) k t :
  present key k t = false -> delete_where key k t = t.
Proof.
  unfold present, delete_where. induction t as [|x t IH]; simpl; [reflexivity|].
  intro H. apply orb_false_elim in H. destruct H as [-> H]. simpl. now rewrite IH.
Qed.

Ltac tables :=
  cbn [users user_profiles project_templates user_settings projects skills
       experience_timeline testimonials blog_posts comments visitor_messages
       analytics set_users set_user_profiles set_user_settings set_projects
       set_skills set_experience_timeline set_testimonials set_blog_posts
       set_comments set_visitor_messages set_analytics].

Lemma write_keeps_references d d' : references_hold d -> write d d' -> references_hold d'.
Proof.
  intros R H. destruct R as [Rprof Rset Rtmpl Rproj Rsk Rexp Rtest Rblog Rcom Rmsg Ran].
  destruct H.
  - (* user *)
    constructor; tables; try assumption; try (apply owned_more; assumption).
  - apply andb_prop in H. destruct H as [_ H].
    constructor; tables; try assumption.
    apply owned_app with (d := d); auto.
  - constructor; tables; try assumption.
    apply owned_update with (d := d); auto.
  - (* settings *)
    unfold upsert_user_settings in H.
    destruct (match UserSettings.chosen_template row with
              | Some t => present ProjectTemplate.template_id t (project_templates d)
              | None => true
              end) eqn:Et; [|discriminate].
    simpl in H.
    destruct (present UserSettings.user_id (UserSettings.user_id row) (user_settings d))
      eqn:Ep.
    + injection H as <-. constructor; tables; try assumption.
      * apply present_true_in in Ep. destruct Ep as (old & Hin & Eold).
        unfold owned_by_users in *. unfold update_where. apply Forall_map.
        rewrite Forall_forall in Rset |- *. intros r Hr. cbv beta.
        destruct (String.eqb (UserSettings.user_id r) (UserSettings.user_id row)) eqn:E.
        -- apply String.eqb_eq in E. rewrite <- E. apply Rset, Hr.
        -- apply Rset, Hr.
      * unfold update_where. apply Forall_map.
        rewrite Forall_forall in Rtmpl |- *. intros r Hr. cbv beta.
        destruct (String.eqb (UserSettings.user_id r) (UserSettings.user_id row)).
        -- destruct (UserSettings.chosen_template row); [exact Et | exact I].
        -- apply Rtmpl, Hr.
    + destruct (user_exists (UserSettings.user_id row) d) eqn:Eu; [|discriminate].
      injection H as <-. constructor; tables; try assumption.
      * apply owned_app with (d := d); auto.
      * apply Forall_app. split; [assumption|].
        constructor; [|constructor].
        destruct (UserSettings.chosen_template row); [exact Et | exact I].
  - (* project *)
    apply andb_prop in H. destruct H as [_ H].
    constructor; tables; try assumption.
    + apply owned_app with (d := d); auto.
    + eapply Forall_impl; [|exact Rcom].
      intros r Hr. cbv beta. now apply present_app.
  - constructor; tables; try assumption.
    + apply owned_update with (d := d); auto.
    + eapply Forall_impl; [|exact Rcom].
      intros r Hr. cbv beta. rewrite present_update_where; auto.
  - constructor; tables; try assumption.
    unfold delete_where. apply Forall_forall. intros r Hin. apply filter_In in Hin.
    rewrite Forall_forall in Rcom. apply Rcom. tauto.
  - (* project row *)
    unfold delete_project_row in H.
    destruct (present Project.project_id k (projects d)) eqn:Epr;
      destruct (present Comment.project_id k (comments d)) eqn:Eco; simpl in H;
      try discriminate; injection H as <-; constructor; tables; try assumption;
      try (apply owned_delete with (d := d); auto).
    + apply Forall_forall. intros r Hin.
      rewrite Forall_forall in Rcom.
      destruct (String.eqb (Comment.project_id r) k) eqn:E.
      * apply String.eqb_eq in E. rewrite <- E in Eco.
        rewrite (in_present Comment.project_id r (comments d) Hin) in Eco. discriminate.
      * rewrite present_delete_other; [auto|]. now apply String.eqb_neq.
    + rewrite (present_none_delete Project.project_id k (projects d) Epr). assumption.
    + rewrite (present_none_delete Project.project_id k (projects d) Epr). assumption.
  - apply andb_prop in H. destruct H as [_ H].
    constructor; tables; try assumption. apply owned_app with (d := d); auto.
  - constructor; tables; try assumption.
    apply owned_update with (d := d); auto. intro r. apply (H r).
  - constructor; tables; try assumption. apply owned_delete with (d := d); auto.
  - apply andb_prop in H. destruct H as [_ H].
    constructor; tables; try assumption. apply owned_app with (d := d); auto.
  - constructor; tables; try assumption.
    apply owned_update with (d := d); auto. intro r. apply (H r).
  - constructor; tables; try assumption. apply owned_delete with (d := d); auto.
  - apply andb_prop in H. destruct H as [_ H].
    constructor; tables; try assumption. apply owned_app with (d := d); auto.
  - constructor; tables; try assumption.
    apply owned_update with (d := d); auto. intro r. apply (H r).
  - constructor; tables; try assumption. apply owned_delete with (d := d); auto.
  - apply andb_prop in H. destruct H as [_ H].
    constructor; tables; try assumption. apply owned_app with (d := d); auto.
  - constructor; tables; try assumption.
    apply owned_update with (d := d); auto. intro r. apply (H r).
  - constructor; tables; try assumption. apply owned_delete with (d := d); auto.
  - apply andb_prop in H. destruct H as [_ H].
    constructor; tables; try assumption.
    apply Forall_app. split; [assumption|]. constructor; [exact H | constructor].
  - apply andb_prop in H. destruct H as [_ H].
    constructor; tables; try assumption. apply owned_app with (d := d); auto.
  - apply andb_prop in H. destruct H as [_ H].
    constructor; tables; try assumption. apply owned_app with (d := d); auto.
Qed.

Lemma where_eq_none_present {A} (key : A -> string) k t :
  where_eq key k t = [] -> present key k t = false.
Proof.
  unfold where_eq, present. induction t as [|x t IH]; simpl; [reflexivity|].
  destruct (String.eqb (key x) k); [discriminate | exact IH].
Qed.

Lemma write_keeps_one_analytics d d' :
  unique Analytics.user_id (analytics d) -> write d d' ->
  unique Analytics.user_id (analytics d').
Proof.
  intros U H.
  destruct H;
    try match goal with
      | H : upsert_user_settings ?row ?d = Some _ |- _ =>
          unfold upsert_user_settings in H;
          destruct (negb _) in H; [discriminate|];
          destruct (present UserSettings.user_id _ _) in H;
          [ injection H as <-
          | destruct (user_exists _ _) in H; [injection H as <- | discriminate] ]
      | H : delete_project_row ?k ?d = Some _ |- _ =>
          unfold delete_project_row in H;
          destruct (andb _ _) in H; [discriminate | injection H as <-]
      end;
    tables; try assumption.
  apply unique_app; [assumption | now apply where_eq_none_present].
Qed.

Lemma writes_keep (I : Db -> Prop) :
  (forall d d', I d -> write d d' -> I d') ->
  forall d d', writes d d' -> I d -> I d'.
Proof. intros Hw d d' H. induction H; eauto. Qed.

(** The store checks the primary keys and the unique email on every
    statement, so a store in which no two rows of a table share their key,
    and no two users their email, is still such a store after any request. *)
Lemma keys_stay_unique P c r rq d :
  keys_unique d -> keys_unique (snd (serve P c r rq d)).
Proof.
  intro K. apply (writes_keep keys_unique write_keeps_keys d); [|exact K].
  apply serve_writes.
Qed.

(** The store checks the references in the same way: if every row names
    an existing user (a comment an existing project, settings a template of
    the catalogue), the same holds after any request. *)
Lemma references_stay_valid P c r rq d :
  references_hold d -> references_hold (snd (serve P c r rq d)).
Proof.
  intro R. apply (writes_keep references_hold write_keeps_references d); [|exact R].
  apply serve_writes.
Qed.

(** Requests served one at a time, each with no statement of another in
    between, give nobody a second analytics row. *)
Lemma analytics_stay_single P c r rq d :
  unique Analytics.user_id (analytics d) ->
  unique Analytics.user_id (analytics (snd (serve P c r rq d))).
Proof.
  intro U.
  apply (writes_keep (fun d => unique Analytics.user_id (analytics d))
           write_keeps_one_analytics d); [|exact U].
  apply serve_writes.
Qed.

Lemma seed_keys_unique : keys_unique Sample.seed.
Proof.
  constructor; unfold unique; cbn;
    repeat (constructor; [cbn; intuition discriminate|]); constructor.
Qed.


(** *** Isolation *)

Lemma of_others_update {A} (key owner : A -> string) u k f t :
  (forall r, owner (f r) = owner r) ->
  (forall r, In r t -> key r = k -> owner r = u) ->
  of_others owner u (update_where key k f t) = of_others owner u t.
Proof.
  intros Hf Hu. unfold of_others, update_where.
  induction t as [|x t IH]; simpl; [reflexivity|].
  rewrite IH by (intros r Hr; apply Hu; now right).
  destruct (String.eqb (key x) k) eqn:E.
  - apply String.eqb_eq in E. rewrite Hf, (Hu x (or_introl eq_refl) E).
    rewrite String.eqb_refl. reflexivity.
  - reflexivity.
Qed.

Lemma of_others_delete {A} (key owner : A -> string) u k t :
  (forall r, In r t -> key r = k -> owner r = u) ->
  of_others owner u (delete_where key k t) = of_others owner u t.
Proof.
  intros Hu. unfold of_others, delete_where.
  induction t as [|x t IH]; simpl; [reflexivity|].
  rewrite <- IH by (intros r Hr; apply Hu; now right).
  destruct (String.eqb (key x) k) eqn:E; simpl.
  - apply String.eqb_eq in E. rewrite (Hu x (or_introl eq_refl) E).
    rewrite String.eqb_refl. reflexivity.
  - reflexivity.
Qed.

Lemma of_others_app {A} (owner : A -> string) u t row :
  owner row = u -> of_others owner u (t ++ [row]) = of_others owner u t.
Proof.
  intro E. unfold of_others. rewrite filter_app. simpl.
  rewrite E, String.eqb_refl. simpl. apply app_nil_r.
Qed.

(** With unique keys the row the owner check looks at is the only one the
    statement touches. *)
Lemma unique_first {A} (key : A -> string) k t row rest :
  unique key t -> where_eq key k t = row :: rest ->
  forall r, In r t -> key r = k -> r = row.
Proof.
  unfold unique, where_eq. induction t as [|x t IH]; simpl; [discriminate|].
  intros U Hw r Hin Hk. inversion U as [|? ? Hx Ht]; subst.
  destruct (String.eqb (key x) (key r)) eqn:E.
  - injection Hw as <- _. destruct Hin as [<- | Hin]; [reflexivity|].
    exfalso. apply Hx. apply String.eqb_eq in E. rewrite E. now apply in_map.
  - destruct Hin as [<- | Hin]; [rewrite String.eqb_refl in E; discriminate|].
    now apply IH.
Qed.

Lemma owner_of_keyed {A} (key owner : A -> string) k t row rest u :
  unique key t -> where_eq key k t = row :: rest -> owner row = u ->
  forall r, In r t -> key r = k -> owner r = u.
Proof.
  intros U Hw Ho r Hin Hk. now rewrite (unique_first key k t row rest U Hw r Hin Hk).
Qed.

Lemma reads_bind {A B} (m : M A) (k : A -> M B) :
  reads m -> (forall a, reads (k a)) -> reads (bind m k).
Proof.
  intros Hm Hk d. unfold bind. specialize (Hm d).
  destruct (m d) as [[a | r | e] d']; simpl in *; subst; auto. apply Hk.
Qed.

Lemma reads_first_row {A} (rows : list A) : reads (first_row rows).
Proof. destruct rows; intro d; reflexivity. Qed.

Lemma reads_parsed {A} (v : option A) : reads (parsed v).
Proof. destruct v; intro d; reflexivity. Qed.

Ltac reads_step :=
  match goal with
  | |- reads (bind _ _) => apply reads_bind; [|intro]
  | |- reads (ret _) => intro; reflexivity
  | |- reads (reply _) => intro; reflexivity
  | |- reads (throw _) => intro; reflexivity
  | |- reads (query _) => intro; reflexivity
  | |- reads (parsed _) => apply reads_parsed
  | |- reads (first_row _) => apply reads_first_row
  | |- reads (decode_images _) => intro; apply decode_images_reads
  | |- reads (decode_column _ _) => intro; apply decode_column_reads
  | |- reads (match ?x with _ => _ end) => destruct x
  | |- reads (if ?b then _ else _) => destruct b
  end.

(** After its last write a handler only reads. *)
Lemma snd_bind_reads {A B} (m : M A) (k : A -> M B) d :
  (forall a, reads (k a)) -> snd (bind m k d) = snd (m d).
Proof.
  intro Hk. unfold bind. destruct (m d) as [[a | r | e] d']; simpl; auto. apply Hk.
Qed.

Lemma snd_parsed_bind {A B} (v : option A) (k : A -> M B) d :
  snd (bind (parsed v) k d) = match v with Some a => snd (k a d) | None => d end.
Proof. destruct v; reflexivity. Qed.

Ltac last_write :=
  rewrite snd_bind_reads by (intro; repeat reads_step).

Ltac untouched :=
  cbn [snd fst]; unfold foreign_rows; tables; f_equal;
  first [ reflexivity
        | apply of_others_update;
          [ intro; first [apply assigns_keep_user | reflexivity]
          | first [ intros; congruence | eapply owner_of_keyed; eassumption ] ]
        | apply of_others_delete; eapply owner_of_keyed; eassumption
        | apply of_others_app; reflexivity ].

(** X4. The profile update, the update and delete of a project, skill,
    experience, testimonial or blog post and the analytics read never touch
    what belongs to somebody else: in a store with unique keys, the rows of
    other users in every owned table, the users and the visitor messages are
    the same after the request as before, whatever the request is. *)
Theorem others_rows_untouched P c r rq d user :
  isolating r = true -> keys_unique d ->
  authenticated P c rq d = Some user ->
  foreign_rows (pr_user_id user) (snd (serve P c r rq d)) =
  foreign_rows (pr_user_id user) d.
Proof.
  intros Hi K Hauth. destruct K.
  destruct r; simpl in Hi; try discriminate; simpl serve; unfold_routes;
    unfold authenticateToken; rewrite (authenticated_check _ _ _ _ _ Hauth);
    rewrite snd_handler.
  1: { (* profile *)
    destruct (String.eqb (pr_user_id user) user_id) eqn:Eown; [|reflexivity].
    apply String.eqb_eq in Eown. cbv beta iota delta [negb].
    rewrite snd_parsed_bind.
    destruct (updateUserProfileInputSchema P _) as [v|]; [|reflexivity].
    destruct (updateFields v) as [|kv fields]; [reflexivity|].
    last_write. unfold update_returning. untouched. }
  11: { (* analytics *)
    destruct (String.eqb (pr_user_id user) user_id) eqn:Eown; [|reflexivity].
    apply String.eqb_eq in Eown. subst user_id. cbv beta iota delta [negb].
    unfold bind at 1. unfold query at 1. cbv beta iota.
    destruct (where_eq Analytics.user_id (pr_user_id user) (analytics d)) eqn:E.
    - last_write. last_write. unfold insert_returning.
      match goal with |- context [if ?b then _ else _] => destruct b end; untouched.
    - assert (R : forall m : M response, reads m -> snd (m d) = d) by (intros m H; apply H).
      rewrite R by (repeat reads_step). reflexivity. }
  all: unfold bind at 1; unfold query at 1; cbv beta iota;
       match goal with
       | |- context [where_eq ?key ?k ?t] =>
           destruct (where_eq key k t) as [|row rest] eqn:Erows; [reflexivity|]
       end;
       match goal with
       | |- context [negb (String.eqb ?a ?b)] =>
           destruct (String.eqb a b) eqn:Eown; [|reflexivity];
           apply String.eqb_eq in Eown
       end;
       cbv beta iota delta [negb];
       try (rewrite snd_parsed_bind;
            match goal with
            | |- context [match ?v with Some _ => _ | None => _ end] =>
                destruct v; [|reflexivity]
            end);
       try (last_write; unfold update_returning, delete_from, execute; untouched).
  (* the project and its comments *)
  unfold bind, delete_from, execute, delete_project_row, reply. cbv beta iota.
  tables.
  match goal with |- context [if ?b then _ else _] => destruct b end; untouched.
Qed.

Lemma others_rows_untouched_witness :
  isolating (PatchSkill "skill1") = true /\
  keys_unique Sample.seed /\
  authenticated Sample.libs Sample.at_noon
    (Sample.as_user "user1"
       (JObj [("user_id", JStr "user2"); ("skill_name", JStr "Rocq")]))
    Sample.seed = Some Scenario.john /\
  foreign_rows "user1"
    (snd (serve Sample.libs Sample.at_noon (PatchSkill "skill1")
            (Sample.as_user "user1"
               (JObj [("user_id", JStr "user2"); ("skill_name", JStr "Rocq")]))
            Sample.seed)) =
  foreign_rows "user1" Sample.seed.
Proof.
  split; [reflexivity|]. split; [exact seed_keys_unique|]. split; [reflexivity|].
  exact (others_rows_untouched Sample.libs Sample.at_noon (PatchSkill "skill1")
           (Sample.as_user "user1"
              (JObj [("user_id", JStr "user2"); ("skill_name", JStr "Rocq")]))
           Sample.seed Scenario.john eq_refl seed_keys_unique eq_refl).
Defined.

(** *** The principal *)

Lemma where_eq_in {A} (key : A -> string) k t r rest :
  where_eq key k t = r :: rest -> In r t /\ key r = k.
Proof.
  intro H. assert (Hin : In r (where_eq key k t)) by (rewrite H; now left).
  unfold where_eq in Hin. apply filter_In in Hin. destruct Hin as [Hin E].
  split; [exact Hin | now apply String.eqb_eq].
Qed.

(** X5. A request is authenticated only with a token that verifies, and
    the principal is then a row of [users] whose id is the subject of that
    token. *)
Theorem principal_is_token_subject P c rq d user :
  authenticated P c rq d = Some user ->
  exists token u,
    token_of rq = Some token /\ token <> "" /\
    jwt_verify P token = Some (pr_user_id user) /\
    In u (users d) /\ user = principal_of u.
Proof.
  unfold authenticated, auth_check.
  destruct (token_of rq) as [token|]; [|discriminate].
  destruct (String.eqb token "") eqn:Et; [discriminate|].
  destruct (jwt_verify P token) as [sub|] eqn:Ev; [|discriminate].
  destruct (where_eq User.user_id sub (users d)) as [|u rest] eqn:E; [discriminate|].
  intro H. injection H as <-.
  destruct (where_eq_in User.user_id sub (users d) u rest E) as [Hin Hk].
  exists token, u. split; [reflexivity|]. split; [exact (proj1 (String.eqb_neq _ _) Et)|].
  split; [simpl; now rewrite Hk|]. split; [exact Hin | reflexivity].
Qed.

Lemma principal_is_token_subject_witness :
  authenticated Sample.libs Sample.at_noon (Sample.as_user "user1" JNull) Sample.seed
    = Some Scenario.john /\
  exists token u,
    token_of (Sample.as_user "user1" JNull) = Some token /\ token <> "" /\
    jwt_verify Sample.libs token = Some (pr_user_id Scenario.john) /\
    In u (users Sample.seed) /\ Scenario.john = principal_of u.
Proof.
  split; [reflexivity|].
  exact (principal_is_token_subject Sample.libs Sample.at_noon
           (Sample.as_user "user1" JNull) Sample.seed Scenario.john eq_refl).
Defined.

(** *** Login and registration *)

Lemma login_unknown_email P c rq e p d :
  property "email" (req_body rq) = Some (JStr e) -> e <> "" ->
  property "password" (req_body rq) = Some (JStr p) -> p <> "" ->
  where_eq User.email (Str.trim (Str.toLowerCase e)) (users d) = [] ->
  login P c rq d =
    (failure c 400 "Invalid email or password" None "INVALID_CREDENTIALS", d).
Proof.
  intros He Ne Hp Np Hu. unfold login, handler, try_catch. rewrite He, Hp.
  unfold falsy, truthy. rewrite (eqb_differs _ _ Ne), (eqb_differs _ _ Np).
  cbv beta iota delta [negb orb]. unfold bind, query, reply. now rewrite Hu.
Qed.

Lemma login_wrong_password P c rq e p d user rest :
  property "email" (req_body rq) = Some (JStr e) -> e <> "" ->
  property "password" (req_body rq) = Some (JStr p) -> p <> "" ->
  where_eq User.email (Str.trim (Str.toLowerCase e)) (users d) = user :: rest ->
  p <> User.password_hash user ->
  login P c rq d =
    (failure c 400 "Invalid email or password" None "INVALID_CREDENTIALS", d).
Proof.
  intros He Ne Hp Np Hu Hw. unfold login, handler, try_catch. rewrite He, Hp.
  unfold falsy, truthy. rewrite (eqb_differs _ _ Ne), (eqb_differs _ _ Np).
  cbv beta iota delta [negb orb]. unfold bind, query, reply. rewrite Hu.
  unfold same_password. now rewrite (eqb_differs _ _ Hw).
Qed.

(** X6. Login does not tell an unknown address from a wrong password: a
    request for an address nobody has and a request with the wrong password
    for an existing user get the same answer, 400 [INVALID_CREDENTIALS] with
    the same message, and neither changes the store. *)
Theorem login_failures_alike P c rq1 rq2 e1 p1 e2 p2 d user rest :
  property "email" (req_body rq1) = Some (JStr e1) -> e1 <> "" ->
  property "password" (req_body rq1) = Some (JStr p1) -> p1 <> "" ->
  where_eq User.email (Str.trim (Str.toLowerCase e1)) (users d) = [] ->
  property "email" (req_body rq2) = Some (JStr e2) -> e2 <> "" ->
  property "password" (req_body rq2) = Some (JStr p2) -> p2 <> "" ->
  where_eq User.email (Str.trim (Str.toLowerCase e2)) (users d) = user :: rest ->
  p2 <> User.password_hash user ->
  login P c rq1 d = login P c rq2 d /\
  status (fst (login P c rq1 d)) = 400 /\
  error_code_of (fst (login P c rq1 d)) = Some "INVALID_CREDENTIALS" /\
  snd (login P c rq1 d) = d.
Proof.
  intros He1 Ne1 Hp1 Np1 Hu1 He2 Ne2 Hp2 Np2 Hu2 Hw.
  rewrite (login_unknown_email P c rq1 e1 p1 d He1 Ne1 Hp1 Np1 Hu1).
  rewrite (login_wrong_password P c rq2 e2 p2 d user rest He2 Ne2 Hp2 Np2 Hu2 Hw).
  repeat split; reflexivity.
Qed.

Lemma login_failures_alike_witness :
  let unknown := Sample.anonymous (credentials "nobody@example.com" "password123") in
  let wrong := Sample.anonymous (credentials "john.doe@example.com" "letmein") in
  where_eq User.email (Str.trim (Str.toLowerCase "nobody@example.com"))
    (users Sample.seed) = [] /\
  login Sample.libs Sample.at_noon unknown Sample.seed =
  login Sample.libs Sample.at_noon wrong Sample.seed /\
  status (fst (login Sample.libs Sample.at_noon unknown Sample.seed)) = 400.
Proof.
  cbv zeta. split; [reflexivity|].
  assert (N1 : "nobody@example.com" <> "") by discriminate.
  assert (N2 : "password123" <> "") by discriminate.
  assert (N3 : "john.doe@example.com" <> "") by discriminate.
  assert (N4 : "letmein" <> "") by discriminate.
  assert (N5 : "letmein" <> "password123") by discriminate.
  destruct (login_failures_alike Sample.libs Sample.at_noon
              (Sample.anonymous (credentials "nobody@example.com" "password123"))
              (Sample.anonymous (credentials "john.doe@example.com" "letmein"))
              "nobody@example.com" "password123" "john.doe@example.com" "letmein"
              Sample.seed _ _ eq_refl N1 eq_refl N2 eq_refl eq_refl N3 eq_refl N4
              eq_refl N5) as (E & S & _).
  split; [exact E | exact S].
Defined.

Lemma schema_email P b v :
  createUserInputSchema P b = Some v ->
  property "email" b = Some (JStr (cu_email v)) /\
  property "password_hash" b = Some (JStr (cu_password_hash v)).
Proof.
  unfold createUserInputSchema, property. destruct b as [| | | | |o]; try discriminate.
  simpl Zod.object. cbv iota.
  unfold Zod.format, Zod.string.
  destruct (assoc "email" o) as [[| | |e| |]|]; try discriminate.
  destruct (is_email P e); [|discriminate].
  destruct (assoc "password_hash" o) as [[| | |p| |]|]; try discriminate.
  destruct (Zod.nullable_optional _ _); [|discriminate].
  intro H. injection H as <-. simpl. auto.
Qed.

Lemma where_eq_app {A} (key : A -> string) k t1 t2 :
  where_eq key k (t1 ++ t2) = (where_eq key k t1 ++ where_eq key k t2)%list.
Proof. unfold where_eq. apply filter_app. Qed.

Lemma present_where_eq_none {A} (key : A -> string) k t :
  present key k t = false -> where_eq key k t = [].
Proof.
  unfold present, where_eq. induction t as [|x t IH]; simpl; [reflexivity|].
  intro H. apply orb_false_elim in H. destruct H as [-> H]. auto.
Qed.

(** A registration that is answered 200 went through both inserts. *)
Lemma register_success P c rq d :
  status (fst (register P c rq d)) = 200 ->
  exists v,
    createUserInputSchema P (req_body rq) = Some v /\
    where_eq User.email (cu_email v) (users d) = [] /\
    users_ok (registered c v) d = true /\
    user_profiles_ok (blank_profile (uuid c))
      (set_users (users d ++ [registered c v]) d) = true /\
    register P c rq d =
      (json_reply 200
         (JObj [("user", user_json (registered c v));
                ("token", JStr (jwt_sign P (uuid c) (User.email (registered c v))))]),
       set_user_profiles (user_profiles d ++ [blank_profile (uuid c)])
         (set_users (users d ++ [registered c v]) d)).
Proof.
  unfold register, handler, try_catch, bind, query, parsed, ret, throw, reply.
  destruct (createUserInputSchema P (req_body rq)) as [v|]; [|simpl; discriminate].
  cbv beta iota.
  destruct (where_eq User.email (cu_email v) (users d)) eqn:Ee; [|simpl; discriminate].
  unfold insert_returning, first_row, ret. fold (registered c v).
  destruct (users_ok (registered c v) d) eqn:Eu; [|simpl; discriminate].
  cbv beta iota. fold (blank_profile (uuid c)).
  destruct (user_profiles_ok (blank_profile (uuid c)) _) eqn:Ep;
    [|simpl; discriminate].
  intros _. exists v. auto.
Qed.

(** X7. Registering and then logging in with the same address, in any
    letter case and with white space around it, and the same non-empty
    password is answered 200 with the user the registration returned; the
    login leaves the store alone. *)
Theorem register_then_login P c c' rq rq' d e p e' :
  status (fst (register P c rq d)) = 200 ->
  property "email" (req_body rq) = Some (JStr e) ->
  property "password_hash" (req_body rq) = Some (JStr p) ->
  p <> "" -> e' <> "" ->
  Str.trim (Str.toLowerCase e') = Str.trim (Str.toLowerCase e) ->
  req_body rq' = credentials e' p ->
  let d' := snd (register P c rq d) in
  exists user token token',
    fst (register P c rq d) =
      json_reply 200 (JObj [("user", user); ("token", JStr token)]) /\
    login P c' rq' d' =
      (json_reply 200 (JObj [("user", user); ("token", JStr token')]), d').
Proof.
  intros Hs He Hp Np Ne' Hnorm Hb. cbv zeta.
  destruct (register_success P c rq d Hs) as (v & Hv & Hnone & Hok & _ & ->).
  destruct (schema_email P (req_body rq) v Hv) as [He2 Hp2].
  rewrite He in He2. injection He2 as He2. rewrite Hp in Hp2. injection Hp2 as Hp2.
  cbn [fst snd]. eexists _, _, _. split; [reflexivity|].
  assert (Pe : property "email" (req_body rq') = Some (JStr e'))
    by (rewrite Hb; reflexivity).
  assert (Pp : property "password" (req_body rq') = Some (JStr p))
    by (rewrite Hb; reflexivity).
  unfold login, handler, try_catch. rewrite Pe, Pp. unfold falsy, truthy.
  rewrite (eqb_differs _ _ Ne'), (eqb_differs _ _ Np).
  cbv beta iota delta [negb orb]. unfold bind, query, reply.
  tables. rewrite where_eq_app, Hnorm, He2.
  unfold users_ok in Hok. apply andb_prop in Hok. destruct Hok as [_ Hok].
  apply negb_true_iff in Hok. cbn [User.email registered] in Hok.
  rewrite (present_where_eq_none _ _ _ Hok).
  cbn [app where_eq filter User.email registered]. rewrite String.eqb_refl.
  unfold same_password. cbn [User.password_hash registered].
  rewrite <- Hp2, String.eqb_refl. reflexivity.
Qed.

Lemma register_then_login_witness :
  let rq := Sample.anonymous (Scenario.signup "New.User@x.com") in
  let rq' := Sample.anonymous (credentials " new.user@X.COM" "secret") in
  status (fst (register Sample.libs Sample.at_noon rq Sample.seed)) = 200 /\
  Str.trim (Str.toLowerCase " new.user@X.COM") =
  Str.trim (Str.toLowerCase "New.User@x.com") /\
  exists user token token',
    fst (register Sample.libs Sample.at_noon rq Sample.seed) =
      json_reply 200 (JObj [("user", user); ("token", JStr token)]) /\
    login Sample.libs Sample.later rq'
      (snd (register Sample.libs Sample.at_noon rq Sample.seed)) =
      (json_reply 200 (JObj [("user", user); ("token", JStr token')]),
       snd (register Sample.libs Sample.at_noon rq Sample.seed)).
Proof.
  cbv zeta. split; [reflexivity|]. split; [reflexivity|].
  assert (N1 : "secret" <> "") by discriminate.
  assert (N2 : " new.user@X.COM" <> "") by discriminate.
  exact (register_then_login Sample.libs Sample.at_noon Sample.later
           (Sample.anonymous (Scenario.signup "New.User@x.com"))
           (Sample.anonymous (credentials " new.user@X.COM" "secret"))
           Sample.seed "New.User@x.com" "secret" " new.user@X.COM"
           eq_refl eq_refl eq_refl N1 N2 eq_refl eq_refl).
Defined.

(** X8. A second registration of an address that is stored as typed (lower
    case, no white space around it) is answered 400 [USER_ALREADY_EXISTS]
    whatever else the second request says, and changes nothing. *)
Theorem register_same_address_again P c c' rq rq' d e :
  status (fst (register P c rq d)) = 200 ->
  property "email" (req_body rq) = Some (JStr e) ->
  Str.trim (Str.toLowerCase e) = e ->
  validation P Register rq' = Some true ->
  property "email" (req_body rq') = Some (JStr e) ->
  let d' := snd (register P c rq d) in
  register P c' rq' d' =
    (failure c' 400 "User with this email already exists" None "USER_ALREADY_EXISTS",
     d').
Proof.
  intros Hs He Hn Hs' He'. cbv zeta.
  destruct (register_success P c rq d Hs) as (v & Hv & _ & _ & _ & ->).
  unfold validation in Hs'.
  destruct (createUserInputSchema P (req_body rq')) as [v'|] eqn:Hv';
    [clear Hs'|discriminate].
  destruct (schema_email P _ _ Hv) as [E _]. rewrite He in E. injection E as E.
  destruct (schema_email P _ _ Hv') as [E' _]. rewrite He' in E'. injection E' as E'.
  cbn [snd]. unfold register, handler, try_catch, bind, query, parsed, ret, reply.
  rewrite Hv'. cbv beta iota. tables. rewrite where_eq_app.
  cbn [where_eq filter User.email registered]. rewrite <- E', <- E, Hn.
  rewrite String.eqb_refl.
  destruct (where_eq User.email e (users d)); reflexivity.
Qed.

Lemma register_same_address_again_witness :
  let rq := Sample.anonymous (Scenario.signup "a@x.com") in
  status (fst (register Sample.libs Sample.at_noon rq Sample.seed)) = 200 /\
  register Sample.libs Sample.later rq
    (snd (register Sample.libs Sample.at_noon rq Sample.seed)) =
    (failure Sample.later 400 "User with this email already exists" None
       "USER_ALREADY_EXISTS",
     snd (register Sample.libs Sample.at_noon rq Sample.seed)).
Proof.
  cbv zeta. split; [reflexivity|].
  exact (register_same_address_again Sample.libs Sample.at_noon Sample.later
           (Sample.anonymous (Scenario.signup "a@x.com"))
           (Sample.anonymous (Scenario.signup "a@x.com")) Sample.seed "a@x.com"
           eq_refl eq_refl eq_refl eq_refl eq_refl).
Defined.



Lemma fold_assign_merged v r : fold_left assign (updateFields v) r = merged v r.
Proof.
  destruct v as [u pic cov b ce ph sm], r as [ru rpic rcov rb rce rph rsm].
  destruct pic, cov, b, ce, ph, sm; reflexivity.
Qed.

Lemma update_where_same {A} (key : A -> string) k f (t : list A) :
  (forall r, f r = r) -> update_where key k f t = t.
Proof.
  intro H. unfold update_where. induction t as [|x t IH]; simpl; [reflexivity|].
  rewrite IH. destruct (String.eqb (key x) k); [now rewrite H | reflexivity].
Qed.

Lemma set_user_profiles_same d : set_user_profiles (user_profiles d) d = d.
Proof. now destruct d. Qed.

Lemma no_fields_merged v r : updateFields v = [] -> merged v r = r.
Proof. intro H. rewrite <- fold_assign_merged, H. reflexivity. Qed.

(** X10. A profile update by the owner changes the columns the body names
    and no other: in the owner's row a column whose key is absent keeps its
    value, one sent as [null] is emptied, and one sent with a value takes it;
    every other row and table stays as it was. *)
Theorem patch_user_selective P c user_id rq d user v :
  authenticated P c rq d = Some user ->
  pr_user_id user = user_id ->
  updateUserProfileInputSchema P (with_param "user_id" user_id (req_body rq))
    = Some v ->
  snd (patch_user P c user_id rq d) =
    set_user_profiles
      (update_where UserProfile.user_id user_id (merged v) (user_profiles d)) d.
Proof.
  intros Ha Hu Hv. unfold patch_user, authenticateToken.
  rewrite (authenticated_check _ _ _ _ _ Ha), Hu, String.eqb_refl.
  cbv beta iota delta [negb]. rewrite snd_handler.
  unfold bind, parsed, ret. rewrite Hv. cbv beta iota.
  destruct (updateFields v) as [|kv fields] eqn:Ef.
  - unfold reply. cbn [snd].
    rewrite update_where_same by (intro r; now apply no_fields_merged).
    symmetry. apply set_user_profiles_same.
  - unfold update_returning. rewrite <- Ef.
    assert (E : update_where UserProfile.user_id user_id
                  (fun r => fold_left assign (updateFields v) r) (user_profiles d) =
                update_where UserProfile.user_id user_id (merged v) (user_profiles d)).
    { unfold update_where. apply map_ext. intro r. now rewrite fold_assign_merged. }
    rewrite E.
    destruct (where_eq UserProfile.user_id user_id _); reflexivity.
Qed.

(** John sets his bio and clears his phone number. *)
Lemma patch_user_selective_witness :
  let rq := Sample.as_user "user1" (JObj [("bio", JStr "Hi"); ("phone_number", JNull)]) in
  authenticated Sample.libs Sample.at_noon rq Sample.seed = Some Scenario.john /\
  map (fun r => (UserProfile.user_id r, UserProfile.bio r, UserProfile.phone_number r,
                 UserProfile.contact_email r))
    (user_profiles (snd (patch_user Sample.libs Sample.at_noon "user1" rq Sample.seed)))
  = [("user1", Some "Hi", None, Some "john.contact@example.com");
     ("user2", Some "This is Jane Smith's bio.", Some "0987654321",
      Some "jane.contact@example.com")].
Proof.
  cbv zeta. split; [reflexivity|].
  rewrite (patch_user_selective Sample.libs Sample.at_noon "user1"
             (Sample.as_user "user1" (JObj [("bio", JStr "Hi"); ("phone_number", JNull)]))
             Sample.seed Scenario.john
             {| up_user_id := "user1"; up_profile_picture_url := Missing;
                up_cover_image_url := Missing; up_bio := Has "Hi";
                up_contact_email := Missing; up_phone_number := IsNull;
                up_social_media_links := Missing |}
             eq_refl eq_refl eq_refl).
  reflexivity.
Defined.

Lemma assoc_app k (a b : list (string * json)) :
  assoc k (a ++ b) = match assoc k a with Some x => Some x | None => assoc k b end.
Proof.
  induction a as [|[k' x] a IH]; simpl; [reflexivity|].
  destruct (String.eqb k k'); [reflexivity | exact IH].
Qed.

(** X11. A profile update whose body is valid and names none of the six
    profile columns is answered 400 [NO_UPDATE_FIELDS] and changes
    nothing. *)
Theorem patch_user_nothing_to_update P c user_id rq d user :
  authenticated P c rq d = Some user ->
  pr_user_id user = user_id ->
  validation P (PatchUser user_id) rq = Some true ->
  Forall (fun k => assoc k (spread (req_body rq)) = None) profile_columns ->
  patch_user P c user_id rq d =
    (failure c 400 "No fields to update" None "NO_UPDATE_FIELDS", d).
Proof.
  intros Ha Hu Hv Hk. unfold patch_user, authenticateToken.
  rewrite (authenticated_check _ _ _ _ _ Ha), Hu, String.eqb_refl.
  cbv beta iota delta [negb]. unfold handler, try_catch, bind, parsed, ret.
  unfold validation in Hv.
  destruct (updateUserProfileInputSchema P _) as [v|] eqn:Ev; [clear Hv|discriminate].
  cbv beta iota.
  assert (Ef : updateFields v = []).
  { unfold profile_columns in Hk.
    repeat match goal with
           | H : Forall _ (_ :: _) |- _ => inversion H; subst; clear H
           end.
    unfold updateUserProfileInputSchema, with_param in Ev. simpl Zod.object in Ev.
    cbv iota in Ev. rewrite !assoc_app in Ev.
    repeat match goal with
           | H : assoc _ (spread _) = None |- _ => rewrite H in Ev; clear H
           end.
    simpl assoc in Ev.
    destruct (Zod.string _) as [u|]; [|discriminate].
    simpl in Ev. injection Ev as <-. reflexivity. }
  rewrite Ef. reflexivity.
Qed.

Lemma patch_user_nothing_to_update_witness :
  let rq := Sample.as_user "user1" (JObj [("nickname", JStr "Johnny")]) in
  authenticated Sample.libs Sample.at_noon rq Sample.seed = Some Scenario.john /\
  patch_user Sample.libs Sample.at_noon "user1" rq Sample.seed =
    (failure Sample.at_noon 400 "No fields to update" None "NO_UPDATE_FIELDS",
     Sample.seed).
Proof.
  cbv zeta. split; [reflexivity|].
  apply (patch_user_nothing_to_update Sample.libs Sample.at_noon "user1"
           (Sample.as_user "user1" (JObj [("nickname", JStr "Johnny")]))
           Sample.seed Scenario.john eq_refl eq_refl eq_refl).
  repeat constructor.
Defined.

Ltac same_fields :=
  repeat match goal with
         | H : Forall _ (_ :: _) |- _ => inversion H; subst; clear H
         | H : Forall _ [] |- _ => clear H
         end;
  cbn [req_body authorization property spread];
  repeat match goal with
         | H : assoc _ _ = assoc _ _ |- _ => rewrite H; clear H
         end;
  reflexivity.

(** X12. A handler reads the body through its schema only: two bodies that
    agree on the keys of the route's schema get the same response and leave
    the same store, whatever other keys they carry. *)
Theorem unlisted_keys_ignored P c r a o o' d :
  Forall (fun k => assoc k o = assoc k o') (schema_keys r) ->
  serve P c r {| authorization := a; req_body := JObj o |} d =
  serve P c r {| authorization := a; req_body := JObj o' |} d.
Proof.
  intro H.
  destruct r; cbn [schema_keys] in H; cbn [serve];
    unfold register, password_reset, patch_user, patch_settings, create_project,
      patch_project, delete_project, create_skill, patch_skill, delete_skill,
      create_experience, patch_experience, delete_experience, create_testimonial,
      patch_testimonial, delete_testimonial, create_blog_post, patch_blog_post,
      delete_blog_post, create_comment, get_analytics, contact,
      authenticateToken, auth_check, token_of;
    unfold createUserInputSchema, updateUserProfileInputSchema,
      createUserSettingsInputSchema, createProjectInputSchema, createSkillInputSchema,
      createExperienceTimelineInputSchema, createTestimonialInputSchema,
      createBlogPostInputSchema, createCommentInputSchema,
      createVisitorMessageInputSchema, with_param, Zod.object;
    cbn [req_body authorization property spread];
    rewrite ?assoc_app;
    same_fields.
Qed.

(** A role the body claims is not a field of the skill schema. *)
Lemma unlisted_keys_ignored_witness :
  serve Sample.libs Sample.at_noon (CreateSkill "user1")
    (Sample.as_user "user1" (JObj [("skill_name", JStr "Rocq"); ("role", JStr "admin")]))
    Sample.seed =
  serve Sample.libs Sample.at_noon (CreateSkill "user1")
    (Sample.as_user "user1" (JObj [("skill_name", JStr "Rocq")])) Sample.seed.
Proof.
  apply (unlisted_keys_ignored Sample.libs Sample.at_noon (CreateSkill "user1")
           (Some "Bearer jwt.user1")
           [("skill_name", JStr "Rocq"); ("role", JStr "admin")]
           [("skill_name", JStr "Rocq")] Sample.seed).
  repeat constructor.
Defined.

Lemma decode_images_cases col d :
  (exists j, decode_images col d = (Next j, d)) \/
  (exists e, decode_images col d = (Throw e, d)).
Proof.
  unfold decode_images, ret, throw. destruct col as [v|]; [|eauto].
  destruct (truthy v); [|eauto].
  destruct (JSON_parse v) as [[| | | | |kvs]|]; eauto.
  destruct (assoc "images" kvs); eauto.
Qed.

Lemma decode_images_of_object kvs d :
  decode_images (Some (JObj kvs)) d = (Throw SyntaxError, d).
Proof. reflexivity. Qed.

(** A project creation that is answered 201 inserted its row and decoded
    the images of that row. *)
Lemma create_project_success P c user_id rq d :
  status (fst (create_project P c user_id rq d)) = 201 ->
  exists v images,
    projects_ok (new_project c v) d = true /\
    let d' := set_projects (projects d ++ [new_project c v]) d in
    decode_images (Project.images (new_project c v)) d' = (Next images, d') /\
    create_project P c user_id rq d =
      (json_reply 201 (project_json (new_project c v) images), d').
Proof.
  unfold create_project, authenticateToken.
  destruct (auth_check P c rq d) as [r|user] eqn:Ea.
  { cbn [fst]. intro H. destruct (denied_status _ _ _ _ _ Ea) as [E|E]; lia. }
  unfold handler, try_catch, bind, parsed, ret, reply.
  destruct (negb (String.eqb (pr_user_id user) user_id)); [simpl; discriminate|].
  destruct (createProjectInputSchema P _) as [v|]; [|simpl; discriminate].
  cbv beta iota. fold (new_project c v). unfold insert_returning.
  destruct (projects_ok (new_project c v) d) eqn:Eo; [|simpl; discriminate].
  cbv beta iota. unfold first_row, ret.
  destruct (decode_images_cases (Project.images (new_project c v))
              (set_projects (projects d ++ [new_project c v]) d))
    as [[j E]|[e E]]; rewrite E; [|simpl; discriminate].
  intros _. exists v, j. cbv zeta. auto.
Qed.

Lemma where_eq_new_row {A} (key : A -> string) (row : A) t :
  present key (key row) t = false -> where_eq key (key row) (t ++ [row]) = [row].
Proof.
  intro H. rewrite where_eq_app, (present_where_eq_none _ _ _ H).
  unfold where_eq. simpl. now rewrite String.eqb_refl.
Qed.

(** X13. A project whose creation was answered 201 can be read back: the
    public read of its id is answered 200 with the body the creation
    returned. *)
Theorem create_then_get_project P c c' user_id rq d :
  status (fst (create_project P c user_id rq d)) = 201 ->
  let d' := snd (create_project P c user_id rq d) in
  exists project,
    fst (create_project P c user_id rq d) = json_reply 201 project /\
    get_project c' (uuid c) d' = (json_reply 200 project, d').
Proof.
  intro Hs. cbv zeta.
  destruct (create_project_success P c user_id rq d Hs) as (v & j & Hok & Hd & ->).
  cbn [fst snd]. eexists. split; [reflexivity|].
  unfold get_project, handler, try_catch, bind, query, reply. tables.
  unfold projects_ok in Hok. apply andb_prop in Hok. destruct Hok as [Hpk _].
  apply negb_true_iff in Hpk.
  change (uuid c) with (Project.project_id (new_project c v)).
  rewrite (where_eq_new_row Project.project_id (new_project c v) _ Hpk).
  cbv zeta in Hd. rewrite Hd. reflexivity.
Qed.

Lemma create_then_get_project_witness :
  let rq := Sample.as_user "user1" (JObj [("title", JStr "Portfolio")]) in
  let created := create_project Sample.libs Sample.at_noon "user1" rq Sample.seed in
  status (fst created) = 201 /\
  exists project,
    fst created = json_reply 201 project /\
    get_project Sample.later (uuid Sample.at_noon) (snd created)
      = (json_reply 200 project, snd created).
Proof.
  cbv zeta. split; [reflexivity|].
  exact (create_then_get_project Sample.libs Sample.at_noon Sample.later "user1"
           (Sample.as_user "user1" (JObj [("title", JStr "Portfolio")])) Sample.seed
           eq_refl).
Defined.

Lemma place_in {A} (le : A -> A -> bool) x y l : In y (place le x l) <-> In y (x :: l).
Proof.
  induction l as [|z l IH]; simpl; [tauto|].
  destruct (le x z); simpl; [tauto|]. simpl in IH. rewrite IH. tauto.
Qed.

Lemma order_by_in {A} (le : A -> A -> bool) y l : In y (order_by le l) <-> In y l.
Proof.
  unfold order_by. induction l as [|x l IH]; simpl; [tauto|].
  rewrite place_in. simpl. rewrite IH. tauto.
Qed.

(** One row whose images do not decode fails the whole list. *)
Lemma decode_projects_throws row rows d :
  In row rows ->
  (exists e, decode_images (Project.images row) d = (Throw e, d)) ->
  exists e, decode_projects rows d = (Throw e, d).
Proof.
  intros Hin Hrow. induction rows as [|r rest IH]; [contradiction|].
  cbn [decode_projects]. unfold bind.
  destruct (decode_images_cases (Project.images r) d) as [[j E]|[e E]]; rewrite E;
    [|eauto].
  destruct Hin as [->|Hin].
  - destruct Hrow as [e Hrow]. congruence.
  - destruct (IH Hin) as [e ->]. eauto.
Qed.

(** X14. A project created with an [images] array is stored, but the
    request is answered 500: the handler hands the [images] column, which
    comes back from the store as an object, to [JSON.parse].  From then on
    the read of that project and the list of the owner's projects are
    answered 500 as well. *)
Theorem create_project_with_images P c c' collate user_id rq d user v l :
  authenticated P c rq d = Some user ->
  pr_user_id user = user_id ->
  createProjectInputSchema P (with_param "user_id" user_id (req_body rq)) = Some v ->
  cp_images v = Has l ->
  projects_ok (new_project c v) d = true ->
  let d' := set_projects (projects d ++ [new_project c v]) d in
  create_project P c user_id rq d =
    (failure c 500 "Internal server error" (Some SyntaxError) "INTERNAL_SERVER_ERROR",
     d') /\
  get_project c' (uuid c) d' =
    (failure c' 500 "Internal server error" (Some SyntaxError) "INTERNAL_SERVER_ERROR",
     d') /\
  status (fst (get_projects c' collate (cp_user_id v) d')) = 500 /\
  snd (get_projects c' collate (cp_user_id v) d') = d'.
Proof.
  intros Ha Hu Hv Hl Hok. cbv zeta.
  assert (Himg : Project.images (new_project c v) = Some (JObj [("images", JArr (map JStr l))])).
  { unfold new_project, imagesJson. cbn [Project.images]. now rewrite Hl. }
  split; [|split].
  - unfold create_project. enter_handler Ha. rewrite Hu, String.eqb_refl.
    cbv beta iota delta [negb]. unfold parsed, ret. rewrite Hv. cbv beta iota.
    fold (new_project c v). unfold insert_returning. rewrite Hok.
    cbv beta iota. unfold first_row, ret. rewrite Himg. reflexivity.
  - unfold get_project, handler, try_catch, bind, query, reply. tables.
    unfold projects_ok in Hok. apply andb_prop in Hok. destruct Hok as [Hpk _].
    apply negb_true_iff in Hpk.
    change (uuid c) with (Project.project_id (new_project c v)).
    rewrite (where_eq_new_row Project.project_id (new_project c v) _ Hpk).
    rewrite Himg. reflexivity.
  - unfold get_projects, handler, try_catch, bind, query, reply. tables.
    match goal with
    | |- context [decode_projects ?rows ?s] =>
        assert (Ht : exists e, decode_projects rows s = (Throw e, s))
    end.
    { apply (decode_projects_throws (new_project c v)).
      - apply order_by_in. unfold where_eq. apply filter_In. split.
        + apply in_or_app. right. now left.
        + cbn [Project.user_id new_project]. apply String.eqb_refl.
      - rewrite Himg. eexists. apply decode_images_of_object. }
    destruct Ht as [e ->]. split; reflexivity.
Qed.

(** John adds a project with one screenshot. *)
Lemma create_project_with_images_witness :
  let rq := Sample.as_user "user1"
              (JObj [("title", JStr "Shots"); ("images", JArr [JStr "a.png"])]) in
  let created := create_project Sample.libs Sample.at_noon "user1" rq Sample.seed in
  authenticated Sample.libs Sample.at_noon rq Sample.seed = Some Scenario.john /\
  status (fst created) = 500 /\
  map Project.project_id (projects (snd created)) =
    ["project1"; "project2"; uuid Sample.at_noon] /\
  status (fst (get_project Sample.later (uuid Sample.at_noon) (snd created))) = 500.
Proof.
  cbv zeta. split; [reflexivity|].
  destruct (create_project_with_images Sample.libs Sample.at_noon Sample.later
              String.leb "user1"
              (Sample.as_user "user1"
                 (JObj [("title", JStr "Shots"); ("images", JArr [JStr "a.png"])]))
              Sample.seed Scenario.john
              {| cp_user_id := "user1"; cp_title := "Shots"; cp_description := Missing;
                 cp_images := Has ["a.png"]; cp_project_url := Missing |}
              ["a.png"] eq_refl eq_refl eq_refl eq_refl eq_refl) as (E1 & E2 & _).
  rewrite E1. cbn [fst snd]. rewrite E2. repeat split; reflexivity.
Defined.

Lemma schema_project_id project_id b v :
  createCommentInputSchema (with_param "project_id" project_id b) = Some v ->
  cc_project_id v =
    match assoc "project_id" (spread b) with
    | Some (JStr q) => q
    | _ => project_id
    end.
Proof.
  unfold createCommentInputSchema, with_param. simpl Zod.object. cbv iota.
  rewrite !assoc_app. simpl assoc.
  destruct (assoc "project_id" (spread b)) as [[| | |q| |]|]; simpl; try discriminate.
  - destruct (Zod.nullable_optional _ _); [|discriminate].
    destruct (Zod.string _); [|discriminate]. intro H. now injection H as <-.
  - destruct (Zod.nullable_optional _ _); [|discriminate].
    destruct (Zod.string _); [|discriminate]. intro H. now injection H as <-.
Qed.

(** A comment that is answered 201 is in the store, under the project the
    validated payload names. *)
Lemma create_comment_success c project_id rq d :
  status (fst (create_comment c project_id rq d)) = 201 ->
  exists v,
    createCommentInputSchema (with_param "project_id" project_id (req_body rq))
      = Some v /\
    comments_ok (new_comment c v) d = true /\
    create_comment c project_id rq d =
      (json_reply 201 (comment_json (new_comment c v)),
       set_comments (comments d ++ [new_comment c v]) d).
Proof.
  unfold create_comment, handler, try_catch, bind, query, parsed, ret, reply.
  destruct (where_eq Project.project_id project_id (projects d));
    [simpl; discriminate|].
  destruct (createCommentInputSchema _) as [v|]; [|simpl; discriminate].
  cbv beta iota. fold (new_comment c v). unfold insert_returning.
  destruct (comments_ok (new_comment c v) d) eqn:Eo; [|simpl; discriminate].
  intros _. exists v. auto.
Qed.

Lemma place_perm {A} (le : A -> A -> bool) x l : Permutation (place le x l) (x :: l).
Proof.
  induction l as [|y l IH]; simpl; [reflexivity|].
  destruct (le x y); [reflexivity|].
  rewrite IH. apply perm_swap.
Qed.

Lemma order_by_perm {A} (le : A -> A -> bool) l : Permutation (order_by le l) l.
Proof.
  unfold order_by. induction l as [|x l IH]; simpl; [reflexivity|].
  rewrite place_perm. now constructor.
Qed.

Lemma get_comments_rows c collate project_id d :
  get_comments c collate project_id d =
    (json_reply 200
       (JArr (map comment_json
                (order_by (fun a b => collate (Comment.created_at b)
                                        (Comment.created_at a))
                   (where_eq Comment.project_id project_id (comments d))))), d).
Proof. reflexivity. Qed.

(** X15. A comment that was answered 201 shows up in the comments of its
    project: with no [project_id] in the body that is the project of the
    path, and the list is the one from before plus the new comment. *)
Theorem comment_then_listed c c' collate project_id rq d :
  status (fst (create_comment c project_id rq d)) = 201 ->
  assoc "project_id" (spread (req_body rq)) = None ->
  let d' := snd (create_comment c project_id rq d) in
  exists comment before after,
    fst (create_comment c project_id rq d) = json_reply 201 comment /\
    get_comments c' collate project_id d = (json_reply 200 (JArr before), d) /\
    get_comments c' collate project_id d' = (json_reply 200 (JArr after), d') /\
    Permutation after (comment :: before).
Proof.
  intros Hs Hb. cbv zeta.
  destruct (create_comment_success c project_id rq d Hs) as (v & Hv & _ & ->).
  pose proof (schema_project_id _ _ _ Hv) as Hp. rewrite Hb in Hp.
  cbn [fst snd]. rewrite !get_comments_rows. tables.
  eexists _, _, _. split; [reflexivity|]. split; [reflexivity|].
  split; [reflexivity|].
  rewrite where_eq_app.
  cbn [where_eq filter Comment.project_id new_comment]. rewrite Hp, String.eqb_refl.
  rewrite (Permutation_map comment_json (order_by_perm _ _)).
  rewrite map_app. cbn [map]. rewrite Permutation_app_comm. cbn [app].
  constructor. apply Permutation_map. symmetry. apply order_by_perm.
Qed.

Lemma comment_then_listed_witness :
  let rq := Sample.anonymous (JObj [("content", JStr "Nice work")]) in
  let posted := create_comment Sample.at_noon "project1" rq Sample.seed in
  status (fst posted) = 201 /\
  exists comment before after,
    fst posted = json_reply 201 comment /\
    get_comments Sample.later String.leb "project1" Sample.seed
      = (json_reply 200 (JArr before), Sample.seed) /\
    get_comments Sample.later String.leb "project1" (snd posted)
      = (json_reply 200 (JArr after), snd posted) /\
    Permutation after (comment :: before).
Proof.
  cbv zeta. split; [reflexivity|].
  exact (comment_then_listed Sample.at_noon Sample.later String.leb "project1"
           (Sample.anonymous (JObj [("content", JStr "Nice work")])) Sample.seed
           eq_refl eq_refl).
Defined.

(** X16. The project a comment belongs to is the one the body names, when
    it names one: posted to the path of one project, the comment is stored
    under the other and is missing from the comments of the path's
    project. *)
Theorem comment_lands_on_body_project c c' collate project_id other rq d :
  status (fst (create_comment c project_id rq d)) = 201 ->
  assoc "project_id" (spread (req_body rq)) = Some (JStr other) ->
  other <> project_id ->
  let d' := snd (create_comment c project_id rq d) in
  (exists row, comments d' = (comments d ++ [row])%list /\
               Comment.project_id row = other) /\
  get_comments c' collate project_id d' =
    (fst (get_comments c' collate project_id d), d').
Proof.
  intros Hs Hb Hne. cbv zeta.
  destruct (create_comment_success c project_id rq d Hs) as (v & Hv & _ & ->).
  pose proof (schema_project_id _ _ _ Hv) as Hp. rewrite Hb in Hp.
  cbn [fst snd]. tables. split.
  - exists (new_comment c v). split; [reflexivity | exact Hp].
  - rewrite !get_comments_rows. tables. rewrite where_eq_app.
    cbn [where_eq filter Comment.project_id new_comment]. rewrite Hp.
    rewrite (eqb_differs _ _ Hne). now rewrite app_nil_r.
Qed.

Lemma comment_lands_on_body_project_witness :
  let rq := Sample.anonymous
              (JObj [("content", JStr "Nice work"); ("project_id", JStr "project2")]) in
  let posted := create_comment Sample.at_noon "project1" rq Sample.seed in
  status (fst posted) = 201 /\
  map Comment.project_id (comments (snd posted)) = ["project1"; "project2"; "project2"].
Proof.
  cbv zeta. split; [reflexivity|].
  assert (N : "project2" <> "project1") by discriminate.
  destruct (comment_lands_on_body_project Sample.at_noon Sample.later String.leb
              "project1" "project2"
              (Sample.anonymous
                 (JObj [("content", JStr "Nice work"); ("project_id", JStr "project2")]))
              Sample.seed eq_refl eq_refl N) as [(row & E & Hrow) _].
  rewrite E, map_app. cbn [map]. rewrite Hrow. reflexivity.
Defined.

(** X17. Once a project's deletion was answered 204 the project is gone
    for every reader: its read is answered 404, its comments are the empty
    list, and a new comment on it is answered 404. *)
Theorem deleted_project_gone P c c' collate project_id rq rq' d :
  status (fst (delete_project P c project_id rq d)) = 204 ->
  let d' := snd (delete_project P c project_id rq d) in
  get_project c' project_id d' =
    (failure c' 404 "Project not found" None "PROJECT_NOT_FOUND", d') /\
  get_comments c' collate project_id d' = (json_reply 200 (JArr []), d') /\
  create_comment c' project_id rq' d' =
    (failure c' 404 "Project not found" None "PROJECT_NOT_FOUND", d').
Proof.
  intro Hs. cbv zeta.
  assert (Hd : projects (snd (delete_project P c project_id rq d)) =
                 delete_where Project.project_id project_id (projects d) /\
               comments (snd (delete_project P c project_id rq d)) =
                 delete_where Comment.project_id project_id (comments d)).
  { revert Hs. unfold delete_project, authenticateToken.
    destruct (auth_check P c rq d) as [r|user] eqn:Ea.
    { cbn [fst]. intro H. destruct (denied_status _ _ _ _ _ Ea) as [E|E]; lia. }
    unfold handler, try_catch, bind, query, reply.
    destruct (where_eq Project.project_id project_id (projects d));
      [simpl; discriminate|].
    destruct (negb _); [simpl; discriminate|].
    unfold delete_from, execute. cbv beta iota.
    rewrite delete_project_after_comments. intros _. split; reflexivity. }
  destruct Hd as [Hp Hc].
  unfold get_project, create_comment. rewrite get_comments_rows.
  unfold handler, try_catch, bind, query, reply.
  rewrite Hp, Hc, !where_eq_delete_where. repeat split; reflexivity.
Qed.

Lemma deleted_project_gone_witness :
  let gone := delete_project Sample.libs Sample.at_noon "project1"
                (Sample.as_user "user1" JNull) Sample.seed in
  status (fst gone) = 204 /\
  status (fst (get_project Sample.later "project1" (snd gone))) = 404 /\
  fst (get_comments Sample.later String.leb "project1" (snd gone))
    = json_reply 200 (JArr []).
Proof.
  cbv zeta. split; [reflexivity|].
  destruct (deleted_project_gone Sample.libs Sample.at_noon Sample.later String.leb
              "project1" (Sample.as_user "user1" JNull) (Sample.anonymous JNull)
              Sample.seed eq_refl) as (E1 & E2 & _).
  rewrite E1, E2. split; reflexivity.
Defined.

(** X18. A registration that was answered 200 made the public profile of
    the new user: the read of the new id is answered 200 with a profile that
    has every column empty. *)
Theorem register_then_get_user P c c' rq d :
  status (fst (register P c rq d)) = 200 ->
  let d' := snd (register P c rq d) in
  get_user c' (uuid c) d' = (json_reply 200 (profile_json (blank_profile (uuid c))), d').
Proof.
  intro Hs. cbv zeta.
  destruct (register_success P c rq d Hs) as (v & _ & _ & Hu & Hp & ->).
  cbn [snd]. unfold get_user, handler, try_catch, bind, query, reply. tables.
  unfold user_profiles_ok in Hp. apply andb_prop in Hp. destruct Hp as [Hp _].
  apply negb_true_iff in Hp.
  cbn [UserProfile.user_id blank_profile user_profiles set_users] in Hp.
  unfold users_ok in Hu. apply andb_prop in Hu. destruct Hu as [Hu _].
  apply negb_true_iff in Hu. tables.
  assert (Ep : where_eq UserProfile.user_id (uuid c)
                 (user_profiles d ++ [blank_profile (uuid c)]) =
               [blank_profile (uuid c)])
    by exact (where_eq_new_row UserProfile.user_id (blank_profile (uuid c)) _ Hp).
  assert (Eu : where_eq User.user_id (uuid c) (users d ++ [registered c v]) =
               [registered c v])
    by exact (where_eq_new_row User.user_id (registered c v) _ Hu).
  rewrite Ep. cbn [flat_map UserProfile.user_id blank_profile]. rewrite Eu.
  reflexivity.
Qed.

Lemma register_then_get_user_witness :
  let rq := Sample.anonymous (Scenario.signup "a@x.com") in
  let d' := snd (register Sample.libs Sample.at_noon rq Sample.seed) in
  status (fst (register Sample.libs Sample.at_noon rq Sample.seed)) = 200 /\
  get_user Sample.later (uuid Sample.at_noon) d' =
    (json_reply 200 (profile_json (blank_profile (uuid Sample.at_noon))), d').
Proof.
  cbv zeta. split; [reflexivity|].
  exact (register_then_get_user Sample.libs Sample.at_noon Sample.later
           (Sample.anonymous (Scenario.signup "a@x.com")) Sample.seed eq_refl).
Defined.

Ltac schema_owner :=
  unfold createProjectInputSchema, createSkillInputSchema,
    createExperienceTimelineInputSchema, createTestimonialInputSchema,
    createBlogPostInputSchema, with_param;
  simpl Zod.object; cbv iota; rewrite !assoc_app; simpl assoc;
  match goal with
  | |- context [assoc "user_id" (spread ?b)] =>
      destruct (assoc "user_id" (spread b)) as [[| | |q| |]|]
  end;
  simpl; try discriminate;
  repeat match goal with
         | |- match ?e with _ => _ end = Some _ -> _ => destruct e; [|discriminate]
         end;
  let H := fresh in intro H; injection H as <-; reflexivity.

Lemma project_schema_owner P u b v :
  createProjectInputSchema P (with_param "user_id" u b) = Some v ->
  cp_user_id v = match assoc "user_id" (spread b) with Some (JStr o) => o | _ => u end.
Proof. schema_owner. Qed.

Lemma skill_schema_owner u b v :
  createSkillInputSchema (with_param "user_id" u b) = Some v ->
  ck_user_id v = match assoc "user_id" (spread b) with Some (JStr o) => o | _ => u end.
Proof. schema_owner. Qed.

Lemma experience_schema_owner P u b v :
  createExperienceTimelineInputSchema P (with_param "user_id" u b) = Some v ->
  ce_user_id v = match assoc "user_id" (spread b) with Some (JStr o) => o | _ => u end.
Proof. schema_owner. Qed.

Lemma testimonial_schema_owner u b v :
  createTestimonialInputSchema (with_param "user_id" u b) = Some v ->
  ct_user_id v = match assoc "user_id" (spread b) with Some (JStr o) => o | _ => u end.
Proof. schema_owner. Qed.

Lemma blog_post_schema_owner u b v :
  createBlogPostInputSchema (with_param "user_id" u b) = Some v ->
  cb_user_id v = match assoc "user_id" (spread b) with Some (JStr o) => o | _ => u end.
Proof. schema_owner. Qed.

Lemma where_eq_fresh {A} (key : A -> string) k (row : A) t :
  key row = k -> present key k t = false -> where_eq key k (t ++ [row]) = [row].
Proof. intros <-. apply where_eq_new_row. Qed.

Lemma primary_key_free (a b : bool) : andb (negb a) b = true -> a = false.
Proof. destruct a; simpl; congruence. Qed.

Tactic Notation "created_row" ident(En) ident(Ev) ident(Eo) :=
  unfold handler, try_catch, bind, parsed, ret, reply;
  match goal with
  | |- context [negb (String.eqb ?a ?b)] =>
      destruct (String.eqb a b) eqn:En; [|simpl; discriminate]
  end;
  apply String.eqb_eq in En;
  cbv beta iota delta [negb];
  match goal with
  | |- context [match ?s with Some _ => _ | None => _ end] =>
      destruct s as [?v|] eqn:Ev; [|simpl; discriminate]
  end;
  cbv beta iota; unfold insert_returning;
  match goal with
  | |- context [if ?ok then _ else _] =>
      destruct ok eqn:Eo; [|simpl; discriminate]
  end;
  cbv beta iota; unfold first_row, ret.

(** X19. The owner of a created row is the [user_id] of the body when the
    body carries one, and the principal otherwise: on the five create
    routes the path parameter is compared with the principal, but the row
    takes its owner from the validated payload, into which the body is
    spread after the path parameter. *)
Theorem created_row_owner P c r rq d :
  creating r = true ->
  status (fst (serve P c r rq d)) = 201 ->
  exists user,
    authenticated P c rq d = Some user /\
    owner_of (its_row r (uuid c)) (snd (serve P c r rq d)) =
      Owner (match assoc "user_id" (spread (req_body rq)) with
             | Some (JStr other) => other
             | _ => pr_user_id user
             end).
Proof.
  intro Hr.
  destruct r; try discriminate Hr; clear Hr; cbn [serve its_row];
    unfold create_project, create_skill, create_experience, create_testimonial,
      create_blog_post, authenticateToken, authenticated;
    destruct (auth_check P c rq d) as [denied|user] eqn:Ea;
    try (cbn [fst]; intro Hs; destruct (denied_status _ _ _ _ _ Ea) as [E|E]; lia).
  - created_row En Ev Eo.
    match goal with
    | |- context [decode_images ?col ?s] =>
        destruct (decode_images_cases col s) as [[j E]|[e E]]; rewrite E;
          [|simpl; discriminate]
    end.
    intros _. exists user. split; [reflexivity|]. cbn [snd owner_of]. tables.
    apply primary_key_free in Eo. cbn [Project.project_id] in Eo.
    match goal with
    | |- context [(projects d ++ [?row])%list] =>
        rewrite (where_eq_fresh Project.project_id (uuid c) row _ eq_refl Eo)
    end.
    cbn [row_owner Project.user_id]. rewrite (project_schema_owner _ _ _ _ Ev), En.
    reflexivity.
  - created_row En Ev Eo.
    intros _. exists user. split; [reflexivity|]. cbn [snd owner_of]. tables.
    apply primary_key_free in Eo. cbn [Skill.skill_id] in Eo.
    match goal with
    | |- context [(skills d ++ [?row])%list] =>
        rewrite (where_eq_fresh Skill.skill_id (uuid c) row _ eq_refl Eo)
    end.
    cbn [row_owner Skill.user_id]. rewrite (skill_schema_owner _ _ _ Ev), En.
    reflexivity.
  - created_row En Ev Eo.
    intros _. exists user. split; [reflexivity|]. cbn [snd owner_of]. tables.
    apply primary_key_free in Eo. cbn [Experience.experience_id] in Eo.
    match goal with
    | |- context [(experience_timeline d ++ [?row])%list] =>
        rewrite (where_eq_fresh Experience.experience_id (uuid c) row _ eq_refl Eo)
    end.
    cbn [row_owner Experience.user_id].
    rewrite (experience_schema_owner _ _ _ _ Ev), En. reflexivity.
  - created_row En Ev Eo.
    intros _. exists user. split; [reflexivity|]. cbn [snd owner_of]. tables.
    apply primary_key_free in Eo. cbn [Testimonial.testimonial_id] in Eo.
    match goal with
    | |- context [(testimonials d ++ [?row])%list] =>
        rewrite (where_eq_fresh Testimonial.testimonial_id (uuid c) row _ eq_refl Eo)
    end.
    cbn [row_owner Testimonial.user_id].
    rewrite (testimonial_schema_owner _ _ _ Ev), En. reflexivity.
  - created_row En Ev Eo.
    intros _. exists user. split; [reflexivity|]. cbn [snd owner_of]. tables.
    apply primary_key_free in Eo. cbn [BlogPost.post_id] in Eo.
    match goal with
    | |- context [(blog_posts d ++ [?row])%list] =>
        rewrite (where_eq_fresh BlogPost.post_id (uuid c) row _ eq_refl Eo)
    end.
    cbn [row_owner BlogPost.user_id].
    rewrite (blog_post_schema_owner _ _ _ Ev), En. reflexivity.
Qed.

(** John posts a skill to his own path with Jane's id in the body. *)
Lemma created_row_owner_witness :
  let rq := Sample.as_user "user1"
              (JObj [("user_id", JStr "user2"); ("skill_name", JStr "Rocq")]) in
  let d' := snd (serve Sample.libs Sample.at_noon (CreateSkill "user1") rq Sample.seed) in
  status (fst (serve Sample.libs Sample.at_noon (CreateSkill "user1") rq Sample.seed))
    = 201 /\
  owner_of (PatchSkill (uuid Sample.at_noon)) d' = Owner "user2".
Proof.
  cbv zeta. split; [reflexivity|].
  destruct (created_row_owner Sample.libs Sample.at_noon (CreateSkill "user1")
              (Sample.as_user "user1"
                 (JObj [("user_id", JStr "user2"); ("skill_name", JStr "Rocq")]))
              Sample.seed eq_refl eq_refl) as (user & _ & E).
  exact E.
Defined.

Lemma place_head {A} (R : A -> A -> Prop) (le : A -> A -> bool) y x l :
  R y x -> HdRel R y l -> HdRel R y (place le x l).
Proof.
  intros Hyx Hl. destruct l as [|z l]; simpl; [now constructor|].
  destruct (le x z); constructor; [exact Hyx|].
  now inversion Hl.
Qed.

Lemma place_sorted {A} (le : A -> A -> bool) x l :
  (forall a b, le a b = true \/ le b a = true) ->
  Sorted (fun a b => le a b = true) l ->
  Sorted (fun a b => le a b = true) (place le x l).
Proof.
  intros Htot Hl. induction l as [|y l IH]; simpl.
  - repeat constructor.
  - destruct (le x y) eqn:E.
    + constructor; [exact Hl | now constructor].
    + inversion Hl as [|? ? Hs Hh]; subst. constructor; [now apply IH|].
      apply place_head; [|exact Hh].
      destruct (Htot x y) as [H|H]; [congruence | exact H].
Qed.

Lemma order_by_sorted {A} (le : A -> A -> bool) l :
  (forall a b, le a b = true \/ le b a = true) ->
  Sorted (fun a b => le a b = true) (order_by le l).
Proof.
  intro Htot. unfold order_by. induction l as [|x l IH]; simpl; [constructor|].
  now apply place_sorted.
Qed.

Lemma lists_ordered {A} (encode : A -> json) (le : A -> A -> bool) mine d :
  (forall a b, le a b = true \/ le b a = true) ->
  lists (json_reply 200 (JArr (map encode (order_by le mine))), d) d encode mine
    (fun a b => le a b = true).
Proof.
  intro Htot. exists (order_by le mine). split; [reflexivity|].
  split; [apply order_by_perm | now apply order_by_sorted].
Qed.

(** X20. The five list reads answer 200 with exactly the rows of the user
    (of the project, for comments), each once, and in the order of their
    [ORDER BY]: skills by name, experience by start date with the latest
    first, testimonials by client name, blog posts and comments with the
    newest first.  None of them changes the store. *)
Theorem list_reads_complete_and_ordered c collate id d :
  (forall a b, collate a b = true \/ collate b a = true) ->
  lists (get_skills c collate id d) d skill_json
    (where_eq Skill.user_id id (skills d))
    (fun a b => collate (Skill.skill_name a) (Skill.skill_name b) = true) /\
  lists (get_experience c collate id d) d experience_json
    (where_eq Experience.user_id id (experience_timeline d))
    (fun a b => collate (Experience.start_date b) (Experience.start_date a) = true) /\
  lists (get_testimonials c collate id d) d testimonial_json
    (where_eq Testimonial.user_id id (testimonials d))
    (fun a b => collate (Testimonial.client_name a) (Testimonial.client_name b)
                = true) /\
  lists (get_blog_posts c collate id d) d blog_post_json
    (where_eq BlogPost.user_id id (blog_posts d))
    (fun a b => collate (BlogPost.created_at b) (BlogPost.created_at a) = true) /\
  lists (get_comments c collate id d) d comment_json
    (where_eq Comment.project_id id (comments d))
    (fun a b => collate (Comment.created_at b) (Comment.created_at a) = true).
Proof.
  intro Htot.
  repeat split;
    unfold get_skills, get_experience, get_testimonials, get_blog_posts, get_comments,
      handler, try_catch, bind, query, reply; cbv beta iota;
    match goal with
    | |- lists (json_reply 200 (JArr (map ?enc (order_by ?le ?mine))), _) _ _ _ _ =>
        apply (lists_ordered enc le mine); intros a b; apply Htot
    end.
Qed.

Lemma list_reads_complete_and_ordered_witness :
  (forall a b, String.leb a b = true \/ String.leb b a = true) /\
  lists (get_skills Sample.at_noon String.leb "user1" Sample.seed) Sample.seed
    skill_json (where_eq Skill.user_id "user1" (skills Sample.seed))
    (fun a b => String.leb (Skill.skill_name a) (Skill.skill_name b) = true).
Proof.
  split; [exact String.leb_total|].
  exact (proj1 (list_reads_complete_and_ordered Sample.at_noon String.leb "user1"
                  Sample.seed String.leb_total)).
Defined.

Lemma decode_projects_reads rows : reads (decode_projects rows).
Proof.
  induction rows as [|r rest IH]; intro d; [reflexivity|].
  cbn [decode_projects]. unfold bind.
  destruct (decode_images_cases (Project.images r) d) as [[j E]|[e E]]; rewrite E;
    [|reflexivity].
  specialize (IH d). destruct (decode_projects rest d) as [[a|a|a] d']; simpl in *;
    congruence.
Qed.

(** X21. Login and the reads of a profile, of a project and of the
    projects of a user never change the store, whatever they answer. *)
Theorem reads_leave_store P c collate rq id d :
  snd (login P c rq d) = d /\
  snd (get_user c id d) = d /\
  snd (get_project c id d) = d /\
  snd (get_projects c collate id d) = d.
Proof.
  repeat split.
  - unfold login. rewrite snd_handler.
    destruct (orb _ _); [reflexivity|].
    destruct (property "email" (req_body rq)) as [[| | |e| |]|]; try reflexivity.
    unfold bind, query, reply.
    destruct (where_eq User.email _ (users d)); [reflexivity|].
    destruct (negb _); reflexivity.
  - unfold get_user. rewrite snd_handler. unfold bind, query, reply.
    match goal with |- context [match ?l with [] => _ | _ :: _ => _ end] =>
      destruct l end; reflexivity.
  - unfold get_project. rewrite snd_handler. unfold bind, query, reply.
    destruct (where_eq Project.project_id id (projects d)) as [|p rest];
      [reflexivity|].
    destruct (decode_images_cases (Project.images p) d) as [[j E]|[e E]]; rewrite E;
      reflexivity.
  - unfold get_projects. rewrite snd_handler. unfold bind, query, reply.
    match goal with |- context [decode_projects ?rows d] =>
      pose proof (decode_projects_reads rows d) as Hr;
      destruct (decode_projects rows d) as [[a|a|a] d'] end; exact Hr.
Qed.

Lemma extname_loop_no_dot l i s :
  Upload.startDot s = -1 ->
  (forall ch, In ch l -> ch <> "."%char) ->
  Upload.startDot (Upload.extname_loop l i s) = -1.
Proof.
  revert i s. induction l as [|ch l IH]; intros i s Hs Hl; [exact Hs|].
  cbn [Upload.extname_loop].
  destruct (Ascii.eqb ch "/").
  - destruct (negb (Upload.matchedSlash s)); [exact Hs|].
    apply IH; [exact Hs | intros x Hx; apply Hl; now right].
  - assert (Hd : Ascii.eqb ch "." = false).
    { apply Ascii.eqb_neq. apply Hl. now left. }
    rewrite Hd. apply IH; [|intros x Hx; apply Hl; now right].
    destruct (Upload.end_ s =? -1); cbn [Upload.startDot]; rewrite Hs;
      cbn; try exact Hs; reflexivity.
Qed.

Lemma extname_no_dot p :
  (forall ch, In ch (Str.chars p) -> ch <> "."%char) -> Upload.extname p = "".
Proof.
  intro H. unfold Upload.extname. cbv zeta.
  rewrite extname_loop_no_dot; [reflexivity | reflexivity|].
  intros ch Hin. apply H. now apply in_rev.
Qed.

(** X22. A file whose name has no dot is never accepted, whatever content
    type it declares: it has no extension for the filter to find an image
    type in, the request is answered 500 and nothing is written. *)
Theorem upload_needs_extension P c type rq f r d disk user :
  authenticated P c rq d = Some user ->
  (forall ch, In ch (Str.chars (Upload.originalname f)) -> ch <> "."%char) ->
  upload P c type rq (Some f) r d disk =
    ({| status := 500; body := ErrorPage (Error_ "Only image files are allowed") |},
     disk).
Proof.
  intros Ha Hn. unfold upload. rewrite (authenticated_check _ _ _ _ _ Ha).
  unfold Upload.single, Upload.fileFilter. rewrite (extname_no_dot _ Hn).
  change (Upload.allowedTypes (Str.toLowerCase "")) with false.
  rewrite andb_false_r. reflexivity.
Qed.

Lemma upload_needs_extension_witness :
  let f := {| Upload.originalname := "avatar"; Upload.mimetype := "image/png";
              Upload.size := 1024 |} in
  authenticated Sample.libs Sample.at_noon (Sample.as_user "user1" JNull) Sample.seed
    = Some Scenario.john /\
  upload Sample.libs Sample.at_noon "profile" (Sample.as_user "user1" JNull) (Some f)
    Scenario.dice Sample.seed [] =
    ({| status := 500; body := ErrorPage (Error_ "Only image files are allowed") |}, []).
Proof.
  cbv zeta. split; [reflexivity|].
  apply (upload_needs_extension Sample.libs Sample.at_noon "profile"
           (Sample.as_user "user1" JNull)
           {| Upload.originalname := "avatar"; Upload.mimetype := "image/png";
              Upload.size := 1024 |}
           Scenario.dice Sample.seed [] Scenario.john eq_refl).
  intros ch Hin. cbn in Hin.
  repeat (destruct Hin as [<-|Hin]; [discriminate|]). contradiction.
Defined.

Lemma substring_all s : substring 0 (String.length s) s = s.
Proof. induction s as [|a s IH]; simpl; [reflexivity | now rewrite IH]. Qed.

Lemma served_under_uploads rest :
  served_file ("/uploads/" ++ rest) = Some (Upload.uploadsDir ++ "/" ++ rest).
Proof.
  unfold served_file. cbn. rewrite Nat.sub_0_r, substring_all. reflexivity.
Qed.

(** X23. The URL an accepted upload is answered with does not lead to the
    file: for the categories [profile], [project] and [general] the static
    mount of [/uploads] reads it from [storage/uploads/<type>/<name>], while
    the file was written to [storage/uploads/profiles], [.../projects] or
    [storage/uploads] itself. *)
Theorem upload_url_misses_file P c type rq f r d disk user :
  authenticated P c rq d = Some user ->
  Upload.fileFilter f = true ->
  Upload.size f <= 5 * 1024 * 1024 ->
  In type ["profile"; "project"; "general"] ->
  exists url file,
    property "url" (match body (fst (upload P c type rq (Some f) r d disk)) with
                    | Body j => j
                    | _ => JNull
                    end) = Some (JStr url) /\
    snd (upload P c type rq (Some f) r d disk) = (disk ++ [file])%list /\
    served_file url =
      Some (Upload.uploadsDir ++ "/" ++ type ++ "/" ++ Upload.generated_name r f) /\
    Upload.path file = Upload.destination type ++ "/" ++ Upload.generated_name r f /\
    served_file url <> Some (Upload.path file).
Proof.
  intros Ha Hf Hs Ht. unfold upload. rewrite (authenticated_check _ _ _ _ _ Ha).
  unfold Upload.single. rewrite Hf.
  assert (Hlim : (Upload.fileSize <? Upload.size f) = false).
  { apply Z.ltb_ge. unfold Upload.fileSize. lia. }
  cbv beta iota delta [negb]. rewrite Hlim. cbv beta iota zeta.
  cbn [fst snd body json_reply property assoc Upload.filename].
  eexists _, _. split; [reflexivity|]. split; [reflexivity|].
  rewrite served_under_uploads. cbn [Upload.path].
  split; [reflexivity|]. split; [reflexivity|].
  destruct Ht as [<-|[<-|[<-|[]]]]; cbn.
  - intro H. injection H as H. discriminate H.
  - intro H. injection H as H. discriminate H.
  - intro H. injection H as H.
    apply (f_equal String.length) in H. cbn in H. lia.
Qed.

(** A PNG sent as a profile picture. *)
Lemma upload_url_misses_file_witness :
  authenticated Sample.libs Sample.at_noon (Sample.as_user "user1" JNull) Sample.seed
    = Some Scenario.john /\
  Upload.fileFilter Scenario.photo = true /\
  Upload.size Scenario.photo <= 5 * 1024 * 1024 /\
  exists url file,
    property "url"
      (match body (fst (upload Sample.libs Sample.at_noon "profile"
                          (Sample.as_user "user1" JNull) (Some Scenario.photo)
                          Scenario.dice Sample.seed [])) with
       | Body j => j
       | _ => JNull
       end) = Some (JStr url) /\
    snd (upload Sample.libs Sample.at_noon "profile" (Sample.as_user "user1" JNull)
           (Some Scenario.photo) Scenario.dice Sample.seed []) = [file] /\
    served_file url <> Some (Upload.path file).
Proof.
  split; [reflexivity|]. split; [reflexivity|].
  assert (Hs : Upload.size Scenario.photo <= 5 * 1024 * 1024)
    by (vm_compute; discriminate).
  split; [exact Hs|].
  destruct (upload_url_misses_file Sample.libs Sample.at_noon "profile"
              (Sample.as_user "user1" JNull) Scenario.photo Scenario.dice Sample.seed
              [] Scenario.john eq_refl eq_refl Hs (or_introl eq_refl))
    as (url & file & E1 & E2 & _ & _ & E5).
  exists url, file. auto.
Defined.

(** *** The responses of the routes *)

Lemma silent_ret {A} (a : A) : silent (ret a).
Proof. intro d. exact I. Qed.

Lemma silent_throw {A} e : silent (@throw A e).
Proof. intro d. exact I. Qed.

Lemma silent_query {A} (f : Db -> A) : silent (query f).
Proof. intro d. exact I. Qed.

Lemma silent_parsed {A} (v : option A) : silent (parsed v).
Proof. destruct v; intro d; exact I. Qed.

Lemma silent_first_row {A} (rows : list A) : silent (first_row rows).
Proof. destruct rows; intro d; exact I. Qed.

Lemma silent_decode_images col : silent (decode_images col).
Proof.
  intro d. destruct (decode_images_cases col d) as [[j E]|[e E]]; rewrite E; exact I.
Qed.

Lemma silent_decode_column col fallback : silent (decode_column col fallback).
Proof.
  intro d. unfold decode_column. destruct col as [v|]; [|exact I].
  destruct (truthy v); [|exact I]. destruct (JSON_parse v); exact I.
Qed.

Lemma silent_execute (f : Db -> option Db) : silent (execute f).
Proof. intro d. unfold execute. destruct (f d); exact I. Qed.

Lemma silent_insert {A} ok get set (row : A) : silent (insert_returning ok get set row).
Proof. intro d. unfold insert_returning. destruct (ok d); exact I. Qed.

Lemma silent_update {A} get set (key : A -> string) k f :
  silent (update_returning get set key k f).
Proof. intro d. exact I. Qed.

Lemma silent_delete {A} get set (key : A -> string) k :
  silent (delete_from get set key k).
Proof. unfold delete_from. apply silent_execute. Qed.

Lemma finishes_reply Q r : Q r = true -> finishes Q (reply r).
Proof. intros H d. exact H. Qed.

Lemma finishes_throw Q e : finishes Q (throw e).
Proof. intro d. exact I. Qed.

Lemma silent_bind {A B} (m : M A) (k : A -> M B) :
  silent m -> (forall a, silent (k a)) -> silent (bind m k).
Proof.
  intros Hm Hk d. unfold bind. specialize (Hm d).
  destruct (m d) as [[a | r | e] d']; simpl in *; [apply Hk | contradiction | exact I].
Qed.

Lemma finishes_bind Q {A} (m : M A) (k : A -> M response) :
  silent m -> (forall a, finishes Q (k a)) -> finishes Q (bind m k).
Proof.
  intros Hm Hk d. unfold bind. specialize (Hm d).
  destruct (m d) as [[a | r | e] d']; simpl in *; [apply Hk | contradiction | exact I].
Qed.

Lemma handler_catalogued c h d :
  finishes catalogued h -> catalogued (fst (handler c h d)) = true.
Proof.
  intro H. unfold handler, try_catch. specialize (H d).
  destruct (h d) as [[r | r | e] d']; simpl in *; auto.
Qed.

Lemma authenticated_catalogued P c rq next d :
  (forall user, catalogued (fst (next user d)) = true) ->
  catalogued (fst (authenticateToken P c rq next d)) = true.
Proof.
  intro H. unfold authenticateToken, auth_check.
  destruct (token_of rq) as [t|]; [|reflexivity].
  destruct (String.eqb t ""); [reflexivity|].
  destruct (jwt_verify P t) as [sub|]; [|reflexivity].
  destruct (where_eq User.user_id sub (users d)); [reflexivity | apply H].
Qed.

Ltac finishes_step :=
  match goal with
  | |- finishes _ (bind _ _) => apply finishes_bind; [|intro]
  | |- finishes _ (reply _) => apply finishes_reply; reflexivity
  | |- finishes _ (throw _) => apply finishes_throw
  | |- silent (bind _ _) => apply silent_bind; [|intro]
  | |- silent (match ?x with _ => _ end) => destruct x
  | |- finishes _ (match ?x with _ => _ end) => destruct x
  | |- finishes _ (if ?b then _ else _) => destruct b
  | |- silent (ret _) => apply silent_ret
  | |- silent (throw _) => apply silent_throw
  | |- silent (query _) => apply silent_query
  | |- silent (parsed _) => apply silent_parsed
  | |- silent (first_row _) => apply silent_first_row
  | |- silent (decode_images _) => apply silent_decode_images
  | |- silent (decode_column _ _) => apply silent_decode_column
  | |- silent (insert_returning _ _ _ _) => apply silent_insert
  | |- silent (update_returning _ _ _ _ _) => apply silent_update
  | |- silent (delete_from _ _ _ _) => apply silent_delete
  | |- silent (execute _) => apply silent_execute
  end.

(** What a route answers once the body parser has handed the body over: a
    JSON body goes out with 200 or 201 and an empty body with 204; every
    error goes out with 400, 401, 403, 404 or 500 and an error code; the
    details of a caught error go out with every 500 and with the 403 of a
    token that does not verify, and with no other response. *)
Lemma served_catalogued P c r rq d :
  catalogued (fst (serve P c r rq d)) = true.
Proof.
  destruct r; cbn [serve]; unfold_routes;
    try apply authenticated_catalogued; intros;
    apply handler_catalogued; repeat finishes_step.
Qed.

Lemma where_eq_replaced {A} (key : A -> string) (row : A) t :
  where_eq key (key row) (update_where key (key row) (fun _ => row) t) =
  map (fun _ => row) (where_eq key (key row) t).
Proof.
  unfold where_eq, update_where. induction t as [|x t IH]; simpl; [reflexivity|].
  destruct (String.eqb (key x) (key row)) eqn:E.
  - rewrite String.eqb_refl. simpl. now rewrite IH.
  - rewrite E. exact IH.
Qed.

Lemma where_eq_single {A} (key : A -> string) k t :
  unique key t -> present key k t = true -> exists row, where_eq key k t = [row].
Proof.
  unfold unique, present, where_eq. induction t as [|x t IH]; simpl; [discriminate|].
  intros U Hp. inversion U as [|? ? Hx Ht]; subst.
  destruct (String.eqb (key x) k) eqn:E.
  - exists x. f_equal. apply String.eqb_eq in E. subst k.
    destruct (filter (fun r => String.eqb (key r) (key x)) t) as [|y rest] eqn:Ef;
      [reflexivity|].
    exfalso. apply Hx.
    assert (Hy : In y (filter (fun r => String.eqb (key r) (key x)) t))
      by (rewrite Ef; now left).
    apply filter_In in Hy. destruct Hy as [Hin Hk]. apply String.eqb_eq in Hk.
    rewrite <- Hk. now apply in_map.
  - now apply IH.
Qed.

(** X25. A settings update that was answered 200 left exactly one settings
    row for the user the payload names, and that row is the payload: a
    column whose field is absent or [null] is stored as NULL, whatever the
    row held before. *)
Theorem patch_settings_replaces_row P c user_id rq d :
  keys_unique d ->
  status (fst (patch_settings P c user_id rq d)) = 200 ->
  exists v,
    createUserSettingsInputSchema (with_param "user_id" user_id (req_body rq))
      = Some v /\
    where_eq UserSettings.user_id (cs_user_id v)
      (user_settings (snd (patch_settings P c user_id rq d))) = [settings_row v].
Proof.
  intros K. pose proof (ku_user_settings K) as U. clear K.
  unfold patch_settings, authenticateToken.
  destruct (auth_check P c rq d) as [denied|user] eqn:Ea.
  { cbn [fst]. intro Hs. destruct (denied_status _ _ _ _ _ Ea) as [E|E]; lia. }
  unfold handler, try_catch, bind, parsed, ret, reply.
  destruct (negb _); [simpl; discriminate|].
  destruct (createUserSettingsInputSchema _) as [v|]; [|simpl; discriminate].
  cbv beta iota. fold (settings_row v). unfold execute, upsert_user_settings.
  destruct (negb _); [simpl; discriminate|].
  change (UserSettings.user_id (settings_row v)) with (cs_user_id v).
  destruct (present UserSettings.user_id (cs_user_id v) (user_settings d)) eqn:Ep.
  - intros _. exists v. split; [reflexivity|]. cbn [snd]. tables.
    destruct (where_eq_single _ _ _ U Ep) as [row Hrow].
    change (cs_user_id v) with (UserSettings.user_id (settings_row v)).
    rewrite where_eq_replaced.
    change (UserSettings.user_id (settings_row v)) with (cs_user_id v).
    rewrite Hrow. reflexivity.
  - destruct (user_exists (cs_user_id v) d); [|simpl; discriminate].
    intros _. exists v. split; [reflexivity|]. cbn [snd]. tables.
    apply (where_eq_fresh UserSettings.user_id (cs_user_id v) (settings_row v) _
             eq_refl Ep).
Qed.

(** John sends a font only; the colour scheme and the template he had are
    gone. *)
Lemma patch_settings_replaces_row_witness :
  let rq := Sample.as_user "user1" (JObj [("font_selection", JStr "Courier")]) in
  status (fst (patch_settings Sample.libs Sample.at_noon "user1" rq Sample.seed)) = 200 /\
  where_eq UserSettings.user_id "user1"
    (user_settings (snd (patch_settings Sample.libs Sample.at_noon "user1" rq
                           Sample.seed))) =
    [{| UserSettings.user_id := "user1"; UserSettings.color_scheme := None;
        UserSettings.chosen_template := None;
        UserSettings.font_selection := Some "Courier" |}].
Proof.
  cbv zeta. split; [reflexivity|].
  destruct (patch_settings_replaces_row Sample.libs Sample.at_noon "user1"
              (Sample.as_user "user1" (JObj [("font_selection", JStr "Courier")]))
              Sample.seed seed_keys_unique eq_refl) as (v & Hv & E).
  vm_compute in Hv. injection Hv as <-. exact E.
Defined.

(** *** Repeating a request *)
























(** *** The analytics read under interleaving *)

Lemma analytics_answer_reads c rows d : snd (analytics_answer c rows d) = d.
Proof.
  unfold analytics_answer. rewrite snd_handler. unfold bind.
  destruct rows as [|row rest]; [reflexivity|]. cbn [first_row ret].
  pose proof (decode_column_reads (Analytics.popular_projects row)
                initial_popular_projects d) as H1.
  destruct (decode_column (Analytics.popular_projects row) initial_popular_projects d)
    as [[a|a|a] d1]; cbn [snd] in H1 |- *; subst d1; try reflexivity.
  pose proof (decode_column_reads (Analytics.interaction_data row)
                initial_interaction_data d) as H2.
  destruct (decode_column (Analytics.interaction_data row) initial_interaction_data d)
    as [[b|b|b] d2]; cbn [snd] in H2 |- *; subst d2; reflexivity.
Qed.

(** Run without interruption, the statements are the handler. *)
Lemma analytics_run_is_handler P c user_id rq d user :
  authenticated P c rq d = Some user ->
  pr_user_id user = user_id ->
  analytics_run c user_id 3 FirstSelect d = 
    (Sent (fst (get_analytics P c user_id rq d)), snd (get_analytics P c user_id rq d)).
Proof.
  intros Ha Hu.
  assert (E : get_analytics P c user_id rq d =
              match where_eq Analytics.user_id user_id (analytics d) with
              | [] =>
                  if analytics_ok (zero_analytics c user_id) d
                  then analytics_answer c
                         (where_eq Analytics.user_id user_id
                            (analytics d ++ [zero_analytics c user_id]))
                         (set_analytics (analytics d ++ [zero_analytics c user_id]) d)
                  else (failure c 500 "Internal server error" (Some DatabaseError)
                          "INTERNAL_SERVER_ERROR", d)
              | rows => analytics_answer c rows d
              end).
  { unfold get_analytics, authenticateToken.
    rewrite (authenticated_check _ _ _ _ _ Ha), Hu, String.eqb_refl.
    cbv beta iota delta [negb]. unfold analytics_answer, handler, try_catch.
    unfold bind at 1. unfold bind at 1. unfold query at 1. cbv beta iota.
    destruct (where_eq Analytics.user_id user_id (analytics d)) as [|row rest].
    - unfold bind at 1. unfold insert_returning. fold (zero_analytics c user_id).
      destruct (analytics_ok (zero_analytics c user_id) d); [|reflexivity].
      reflexivity.
    - reflexivity. }
  rewrite E. cbn [analytics_run analytics_step].
  destruct (where_eq Analytics.user_id user_id (analytics d)) as [|row rest].
  - cbn [analytics_step].
    destruct (analytics_ok (zero_analytics c user_id) d); [|reflexivity].
    cbn [analytics_step analytics set_analytics].
    rewrite analytics_answer_reads. reflexivity.
  - cbn [analytics_step]. rewrite analytics_answer_reads. reflexivity.
Qed.

Lemma authenticated_user_exists P c rq d user :
  authenticated P c rq d = Some user -> user_exists (pr_user_id user) d = true.
Proof.
  unfold authenticated, auth_check.
  destruct (token_of rq) as [t|]; [|discriminate].
  destruct (String.eqb t ""); [discriminate|].
  destruct (jwt_verify P t) as [sub|]; [|discriminate].
  destruct (where_eq User.user_id sub (users d)) as [|u rest] eqn:E; [discriminate|].
  intro H. injection H as <-. cbn [pr_user_id principal_of].
  unfold user_exists. destruct (where_eq_in _ _ _ _ _ E) as [Hin Hk].
  now apply in_present.
Qed.

Lemma get_analytics_later_read P c user_id rq d row rest :
  where_eq Analytics.user_id user_id (analytics d) = row :: rest ->
  snd (get_analytics P c user_id rq d) = d.
Proof.
  intro E. unfold get_analytics, authenticateToken.
  destruct (auth_check P c rq d) as [denied|user]; [reflexivity|].
  rewrite snd_handler.
  destruct (negb (String.eqb (pr_user_id user) user_id)); [reflexivity|].
  unfold bind at 1. unfold bind at 1. unfold query at 1. cbv beta iota.
  rewrite E. unfold ret at 1. cbv beta iota.
  pose proof (analytics_answer_reads c (row :: rest) d) as H.
  unfold analytics_answer in H. rewrite snd_handler in H. exact H.
Qed.

(** X3. The analytics read creates the row of a user who has none.  Two
    such reads served one after the other leave one row: the second finds
    the row of the first.  Two such reads whose first [SELECT]s both run
    before either [INSERT] leave two rows for the user: the statements are
    awaited one by one, and the schema puts no [UNIQUE] on
    [analytics.user_id] that would refuse the second [INSERT]. *)
Theorem analytics_first_reads_race P c1 c2 user_id rq d user :
  authenticated P c1 rq d = Some user ->
  pr_user_id user = user_id ->
  where_eq Analytics.user_id user_id (analytics d) = [] ->
  present Analytics.analytics_id (uuid c1) (analytics d) = false ->
  present Analytics.analytics_id (uuid c2) (analytics d) = false ->
  uuid c1 <> uuid c2 ->
  let first := get_analytics P c1 user_id rq d in
  let second := get_analytics P c2 user_id rq (snd first) in
  let a := analytics_step c1 user_id FirstSelect d in
  let b := analytics_step c2 user_id FirstSelect (snd a) in
  let a' := analytics_step c1 user_id (fst a) (snd b) in
  let b' := analytics_step c2 user_id (fst b) (snd a') in
  where_eq Analytics.user_id user_id (analytics (snd second)) =
    [zero_analytics c1 user_id] /\
  where_eq Analytics.user_id user_id (analytics (snd b')) =
    [zero_analytics c1 user_id; zero_analytics c2 user_id].
Proof.
  intros Ha Hu Hnone H1 H2 Hne. cbv zeta.
  pose proof (authenticated_user_exists _ _ _ _ _ Ha) as Hex. rewrite Hu in Hex.
  assert (Hrow : forall t, where_eq Analytics.user_id user_id
                             (analytics d ++ t) = where_eq Analytics.user_id user_id t).
  { intro t. now rewrite where_eq_app, Hnone. }
  split.
  - rewrite (get_analytics_first_read P c1 user_id rq d user Ha Hu Hnone H1).
    cbn [snd]. fold (zero_analytics c1 user_id).
    rewrite (get_analytics_later_read P c2 user_id rq _ (zero_analytics c1 user_id) []).
    + cbn [analytics set_analytics]. rewrite Hrow.
      cbn [where_eq filter Analytics.user_id zero_analytics].
      now rewrite String.eqb_refl.
    + cbn [analytics set_analytics]. rewrite Hrow.
      cbn [where_eq filter Analytics.user_id zero_analytics].
      now rewrite String.eqb_refl.
  - cbn [analytics_step]. rewrite Hnone. cbn [fst snd analytics_step]. rewrite Hnone.
    cbn [fst snd analytics_step].
    assert (Ok1 : analytics_ok (zero_analytics c1 user_id) d = true).
    { unfold analytics_ok. cbn [Analytics.analytics_id Analytics.user_id zero_analytics].
      now rewrite H1, Hex. }
    rewrite Ok1. cbn [fst snd].
    assert (Ok2 : analytics_ok (zero_analytics c2 user_id)
                    (set_analytics (analytics d ++ [zero_analytics c1 user_id]) d) = true).
    { unfold analytics_ok, user_exists, present.
      cbn [Analytics.analytics_id Analytics.user_id zero_analytics analytics users
           set_analytics].
      rewrite existsb_app. fold (present Analytics.analytics_id (uuid c2) (analytics d)).
      rewrite H2. cbn [existsb Analytics.analytics_id zero_analytics orb].
      assert (N : String.eqb (uuid c1) (uuid c2) = false) by now apply String.eqb_neq.
      rewrite N. exact Hex. }
    rewrite Ok2. cbn [fst snd analytics set_analytics].
    rewrite <- app_assoc, Hrow.
    cbn [app where_eq filter Analytics.user_id zero_analytics].
    now rewrite !String.eqb_refl.
Qed.

(** Two first reads of John's analytics on a store without analytics. *)
Lemma analytics_first_reads_race_witness :
  let d := Sample.seed_without_analytics in
  let rq := Sample.as_user "user1" (JObj []) in
  let a := analytics_step Sample.at_noon "user1" FirstSelect d in
  let b := analytics_step Sample.later "user1" FirstSelect (snd a) in
  let a' := analytics_step Sample.at_noon "user1" (fst a) (snd b) in
  let b' := analytics_step Sample.later "user1" (fst b) (snd a') in
  authenticated Sample.libs Sample.at_noon rq d = Some Scenario.john /\
  where_eq Analytics.user_id "user1" (analytics d) = [] /\
  uuid Sample.at_noon <> uuid Sample.later /\
  where_eq Analytics.user_id "user1"
    (analytics (snd (get_analytics Sample.libs Sample.later "user1" rq
                       (snd (get_analytics Sample.libs Sample.at_noon "user1" rq d)))))
    = [zero_analytics Sample.at_noon "user1"] /\
  where_eq Analytics.user_id "user1" (analytics (snd b')) =
    [zero_analytics Sample.at_noon "user1"; zero_analytics Sample.later "user1"].
Proof.
  cbv zeta. split; [reflexivity|]. split; [reflexivity|].
  assert (N : uuid Sample.at_noon <> uuid Sample.later) by discriminate.
  split; [exact N|].
  exact (analytics_first_reads_race Sample.libs Sample.at_noon Sample.later
           "user1" (Sample.as_user "user1" (JObj []))
           Sample.seed_without_analytics Scenario.john
           eq_refl eq_refl eq_refl eq_refl eq_refl N).
Defined.

(** *** Repeating an update later *)






(** *** The body parser and the catalogue of responses *)

(** X24. Every response to a request to one of the 22 routes is one of the
    catalogue, whatever the body text and whatever [JSON.parse] makes of it:
    the error page of the framework with 413 for a body over the limit and
    with 400 for a body that is not a JSON object or array; a JSON body with
    200 or 201; an empty body with 204; or an error response with 400, 401,
    403, 404 or 500 that carries an error code, with the details of a
    caught error (its name, message and stack) on every 500 and on the 403
    of a token that does not verify, and on no other response. *)
Theorem responses_catalogued P c reader r a d :
  catalogued (fst (express_app P c reader r a d)) = true.
Proof.
  unfold express_app, express_json.
  destruct (body_limit <? Z.of_nat (String.length (sent_text a))); [reflexivity|].
  destruct (String.eqb (sent_text a) ""); [apply served_catalogued|].
  destruct (first_char (Str.chars (sent_text a))) as [ch|]; [|reflexivity].
  destruct (orb (Ascii.eqb ch "{") (Ascii.eqb ch "[")); [|reflexivity].
  destruct (reader (sent_text a)); [apply served_catalogued | reflexivity].
Qed.

(** *** Ownership and the [user_id] of the body *)

(** C1. The invariant fails on the settings update and on the create
    routes.  On the seeded store John, authenticated as [user1], sends the
    settings update of his own path with Jane's id in the body: the path
    parameter passes the comparison with the principal, the row that is
    written is Jane's, and the answer is 200, not 403.  In the same way he
    creates a project that belongs to Jane, with 201. *)
Theorem ownership_bypassed_by_body :
  let settings := Sample.as_user "user1"
                    (JObj [("user_id", JStr "user2");
                           ("font_selection", JStr "Courier")]) in
  let project := Sample.as_user "user1"
                   (JObj [("user_id", JStr "user2"); ("title", JStr "Planted")]) in
  let updated := serve Sample.libs Sample.at_noon (PatchSettings "user1") settings
                   Sample.seed in
  let created := serve Sample.libs Sample.at_noon (CreateProject "user1") project
                   Sample.seed in
  authenticated Sample.libs Sample.at_noon settings Sample.seed = Some Scenario.john /\
  pr_user_id Scenario.john = "user1" /\
  (written_owner Sample.libs (PatchSettings "user1") settings Sample.seed
     = Owner "user2" /\
   status (fst updated) = 200 /\
   status (fst updated) <> 403 /\
   where_eq UserSettings.user_id "user2" (user_settings Sample.seed) =
     [{| UserSettings.user_id := "user2";
         UserSettings.color_scheme := Some (JObj [("background", JStr "light")]);
         UserSettings.chosen_template := Some "template2";
         UserSettings.font_selection := Some "Helvetica" |}] /\
   where_eq UserSettings.user_id "user2" (user_settings (snd updated)) =
     [{| UserSettings.user_id := "user2"; UserSettings.color_scheme := None;
         UserSettings.chosen_template := None;
         UserSettings.font_selection := Some "Courier" |}]) /\
  (authenticated Sample.libs Sample.at_noon project Sample.seed = Some Scenario.john /\
   written_owner Sample.libs (CreateProject "user1") project Sample.seed
     = Owner "user2" /\
   status (fst created) = 201 /\
   status (fst created) <> 403 /\
   where_eq Project.user_id "user2" (projects (snd created)) =
     (where_eq Project.user_id "user2" (projects Sample.seed) ++
      [{| Project.project_id := uuid Sample.at_noon; Project.user_id := "user2";
          Project.title := "Planted"; Project.description := None;
          Project.images := None; Project.project_url := None |}])%list).
Proof.
  vm_compute. repeat split; try reflexivity; discriminate.
Qed.
